(** * BlurToolPrototype: the temporal-region frame compositor

    A shallow embedding of [blur_engine.py], [blur_engine_advanced.py] and of
    the compositing and export code of [blur_advanced_ui.py], with the
    properties of the compositor stated and proved over it.

    Python [float]s are IEEE 754 binary64 numbers; they are embedded as the
    standard library's [spec_float] at precision 53, so every threshold test
    and every truncation below is the one the interpreter performs.  OpenCV
    ([cv2.GaussianBlur], [cv2.resize], [cv2.addWeighted]) is not part of the
    repository: it enters as an interface whose operations may fail. *)

From Stdlib Require Import ZArith Lia Strings.String.
From Stdlib Require Import Floats.SpecFloat.
From stdpp Require Import base option list gmap.

Open Scope Z_scope.

(** ** Python floats *)

Module Float64.

Definition prec : Z := 53.
Definition emax : Z := 1024.

Definition float : Type := spec_float.

(** The double nearest to an integer (ties to even). *)
Definition of_Z (n : Z) : float := binary_normalize prec emax n 0 false.

Definition add : float -> float -> float := SFadd prec emax.
Definition sub : float -> float -> float := SFsub prec emax.
Definition mul : float -> float -> float := SFmul prec emax.
Definition div : float -> float -> float := SFdiv prec emax.

Definition ltb : float -> float -> bool := SFltb.
Definition gtb (a b : float) : bool := SFltb b a.
Definition geb (a b : float) : bool := SFleb b a.

Definition is_zero (a : float) : bool :=
  match a with S754_zero _ => true | _ => false end.

Definition is_finite (a : float) : bool :=
  match a with S754_zero _ | S754_finite _ _ _ => true | _ => false end.

(** A decimal literal [n/d] of the source text, such as [0.95 = 95/100].
    The parser returns the double nearest to the written value, which is
    also what one correctly rounded division of two small integers
    returns. *)
Definition lit (n d : Z) : float := div (of_Z n) (of_Z d).

(** The integer part of a finite double [m * 2^e], dropping the
    fraction (rounding toward zero). *)
Definition to_Z_trunc (a : float) : option Z :=
  match a with
  | S754_zero _ => Some 0
  | S754_finite s m e =>
      let magnitude :=
        match e with
        | Zneg p => Z.pos m / Z.pow_pos 2 p
        | _ => Z.pos m * 2 ^ e
        end in
      Some (if s then - magnitude else magnitude)
  | S754_infinity _ | S754_nan => None
  end.

(** [n/d] rounded to the nearest integer, ties to the even one. *)
Definition round_half_even (n d : Z) : Z :=
  let q := n / d in
  let r := n mod d in
  if 2 * r <? d then q
  else if d <? 2 * r then q + 1
  else if Z.even q then q else q + 1.

(** The integer nearest to a finite double, ties to even. *)
Definition to_Z_round (a : float) : option Z :=
  match a with
  | S754_zero _ => Some 0
  | S754_finite s m e =>
      let signed := if s then Z.neg m else Z.pos m in
      match e with
      | Zneg p => Some (round_half_even signed (Z.pow_pos 2 p))
      | _ => Some (signed * 2 ^ e)
      end
  | S754_infinity _ | S754_nan => None
  end.

(** The same double, field by field. *)
Definition eqb (a b : float) : bool :=
  match a, b with
  | S754_zero s1, S754_zero s2 => Bool.eqb s1 s2
  | S754_infinity s1, S754_infinity s2 => Bool.eqb s1 s2
  | S754_nan, S754_nan => true
  | S754_finite s1 m1 e1, S754_finite s2 m2 e2 =>
      Bool.eqb s1 s2 && (m1 =? m2)%positive && (e1 =? e2)
  | _, _ => false
  end.

End Float64.

(** The numeric literals of the source that take part in float
    arithmetic, each evaluated once. *)

Module Lit.
Import Float64.
Definition _0_1 : float := Eval vm_compute in lit 1 10.
Definition _0_7 : float := Eval vm_compute in lit 7 10.
Definition _0_9 : float := Eval vm_compute in lit 9 10.
Definition _0_95 : float := Eval vm_compute in lit 95 100.
Definition _1_0 : float := Eval vm_compute in of_Z 1.
Definition _1_2 : float := Eval vm_compute in lit 12 10.
Definition _100_0 : float := Eval vm_compute in of_Z 100.
Definition _2 : float := Eval vm_compute in of_Z 2.
Definition _3 : float := Eval vm_compute in of_Z 3.
Definition _15 : float := Eval vm_compute in of_Z 15.
Definition _18 : float := Eval vm_compute in of_Z 18.
Definition _27 : float := Eval vm_compute in of_Z 27.
Definition _48 : float := Eval vm_compute in of_Z 48.
Definition _86 : float := Eval vm_compute in of_Z 86.
Definition _0_2 : float := Eval vm_compute in lit 2 10.
Definition _10 : float := Eval vm_compute in of_Z 10.
End Lit.

(** ** The Python operations the source uses

    [None] stands for a raised exception. *)

Module Py.
Import Float64.

(** [float(n)] as performed by mixed arithmetic: [OverflowError] when the
    integer is too large for a double. *)
Definition float_of_int (n : Z) : option float :=
  let a := of_Z n in
  if is_finite a then Some a else None.

(** [a / b] on floats: [ZeroDivisionError] on a zero divisor. *)
Definition float_truediv (a b : float) : option float :=
  if is_zero b then None else Some (div a b).

(** [n / b] with an [int] on the left and a [float] on the right. *)
Definition int_truediv_float (n : Z) (b : float) : option float :=
  a ← float_of_int n; float_truediv a b.

(** [n / m] on two [int]s.  The interpreter rounds the exact quotient
    once; for operands below [2^53] in magnitude, which covers frame rates
    and sampling strides, both convert exactly and the division of the
    converted operands is that same rounding. *)
Definition int_truediv_int (n m : Z) : option float :=
  a ← float_of_int n; b ← float_of_int m; float_truediv a b.

(** [int(a)]: truncation toward zero; [ValueError] or [OverflowError] on
    a NaN or an infinity. *)
Definition int_of_float (a : float) : option Z := to_Z_trunc a.

(** [min(a, b)] and [max(a, b)] keep the first argument unless the second
    is strictly smaller (resp. larger). *)
Definition min (a b : float) : float := if ltb b a then b else a.
Definition max (a b : float) : float := if gtb b a then b else a.

(** [l[start:stop]] for [0 <= start]; every slice of the source has that
    form, since the bounds are clipped coordinates. *)
Definition slice {A} (l : list A) (start stop : Z) : list A :=
  take (Z.to_nat (stop - start)) (drop (Z.to_nat start) l).

End Py.

(** ** numpy arrays of pixels *)

Module Numpy.

(** One pixel: the three 8-bit channels (B, G, R). *)
Definition Pixel : Type := Z * Z * Z.

(** A frame, or a rectangular part of one: its rows. *)
Abbreviation ndarray := (list (list Pixel)).

Definition shape0 (a : ndarray) : Z := Z.of_nat (length a).
Definition shape1 (a : ndarray) : Z :=
  match a with
  | [] => 0
  | row :: _ => Z.of_nat (length row)
  end.

(** [a.size]: the number of stored channel values. *)
Definition size (a : ndarray) : Z := shape0 a * shape1 a * 3.

(** [a[y0:y1, x0:x1]] *)
Definition getitem (a : ndarray) (y0 y1 x0 x1 : Z) : ndarray :=
  (fun row : list Pixel => Py.slice row x0 x1) <$> Py.slice a y0 y1.

Definition zeros_like (a : ndarray) : ndarray :=
  (fun row : list Pixel => (fun _ => (0, 0, 0)) <$> row) <$> a.

Definition full_like (a : ndarray) (v : Z) : ndarray :=
  (fun row : list Pixel => (fun _ => (v, v, v)) <$> row) <$> a.

(** Row by row, the same number of columns. *)
Definition same_shape (a b : ndarray) : Prop :=
  Forall2 (fun ra rb : list Pixel => length ra = length rb) a b.

Definition same_shapeb (a b : ndarray) : bool :=
  bool_decide (length a = length b) &&
  forallb (fun p : list Pixel * list Pixel =>
             bool_decide (length p.1 = length p.2)) (zip a b).

(** [l[start:start+len(new)] = new] on one axis *)
Definition splice {A} (l : list A) (start : Z) (new : list A) : list A :=
  take (Z.to_nat start) l ++ new ++
  drop (Z.to_nat start + length new)%nat l.

(** [a[y0:y1, x0:x1] = src].  numpy raises [ValueError] when the source
    does not fit the addressed part; a source with an axis of length one
    would be broadcast, a case OpenCV never produces for a larger part
    and which is reported as a failure here. *)
Definition setitem (a : ndarray) (y0 y1 x0 x1 : Z) (src : ndarray)
  : option ndarray :=
  let target := getitem a y0 y1 x0 x1 in
  if same_shapeb src target then
    Some (splice a y0
            (zip_with (fun row new : list Pixel => splice row x0 new)
                      (Py.slice a y0 y1) src))
  else None.

(** A frame as the decoder delivers it: at least one row, and every row
    of the same positive length. *)
Definition well_formed (a : ndarray) : Prop :=
  0 < shape0 a /\ 0 < shape1 a /\
  Forall (fun row : list Pixel => Z.of_nat (length row) = shape1 a) a.

(** [a[i, j]] for indices within the array. *)
Definition pixel (a : ndarray) (i j : nat) : option Pixel :=
  row ← a !! i; row !! j.

End Numpy.

(** ** OpenCV, as far as the compositor calls it

    Every operation returns a new array and leaves its arguments alone;
    [None] stands for a raised [cv2.error]. *)

Module CV2.
Import Numpy.

Inductive Interpolation := INTER_LINEAR | INTER_NEAREST | INTER_AREA.

Class Api := {
  (** [cv2.GaussianBlur(src, ksize, sigmaX)] *)
  GaussianBlur : ndarray -> Z * Z -> Z -> option ndarray;
  (** [cv2.resize(src, dsize, interpolation=...)], [dsize] being
      (width, height) *)
  resize : ndarray -> Z * Z -> Interpolation -> option ndarray;
  (** [cv2.addWeighted(src1, alpha, src2, beta, gamma)] *)
  addWeighted : ndarray -> Float64.float -> ndarray -> Float64.float ->
                Z -> option ndarray;
}.

End CV2.

(** ** Regions

    [blur_engine.py] and [blur_engine_advanced.py] declare the same
    [BlurType], [PIIType] and [BlurRegion]. *)

Inductive PIIType := CUSTOM_TEXT.

Inductive BlurType := GAUSSIAN | PIXELATE | BLACK_BOX | WHITE_BOX.

(** [blur_type.value], the string each member of the enumeration is
    declared with. *)
Definition BlurType_value (blur_type : BlurType) : string :=
  match blur_type with
  | GAUSSIAN => "gaussian"
  | PIXELATE => "pixelate"
  | BLACK_BOX => "black_box"
  | WHITE_BOX => "white_box"
  end.

Module BlurRegion.
Record t := __init__ {
  x : Z;
  y : Z;
  width : Z;
  height : Z;
  blur_type : BlurType;
  intensity : Z;
  pii_type : PIIType;
  start_frame : Z;
  end_frame : Z;
}.

(** The same region with another intensity. *)
Definition with_intensity (region : t) (intensity' : Z) : t :=
  __init__ region.(x) region.(y) region.(width) region.(height)
           region.(blur_type) intensity' region.(pii_type)
           region.(start_frame) region.(end_frame).
End BlurRegion.

(** What [apply_blur_region] hands back: the very array it was given
    ([return frame]), or the array it made with [frame.copy()] and wrote
    into ([return result]). *)
Inductive Returned :=
  | ReturnFrame
  | ReturnResult (result : Numpy.ndarray).

Definition returned_array (frame : Numpy.ndarray) (r : Returned) : Numpy.ndarray :=
  match r with
  | ReturnFrame => frame
  | ReturnResult result => result
  end.

(** ** The engines *)

(** Lines 127-130 of both engines: the rectangle that is read and written.
    The result is (x, y, width, height). *)
Definition clip (frame : Numpy.ndarray) (region : BlurRegion.t) : Z * Z * Z * Z :=
  let x := Z.max 0 (Z.min region.(BlurRegion.x) (Numpy.shape1 frame)) in
  let y := Z.max 0 (Z.min region.(BlurRegion.y) (Numpy.shape0 frame)) in
  let width := Z.max 1 (Z.min region.(BlurRegion.width) (Numpy.shape1 frame - x)) in
  let height := Z.max 1 (Z.min region.(BlurRegion.height) (Numpy.shape0 frame - y)) in
  (x, y, width, height).

(** [opacity = intensity / 100.0; opacity = max(0.1, min(1.0, opacity))] *)
Definition opacity_of (intensity : Z) : option Float64.float :=
  opacity ← Py.int_truediv_float intensity Lit._100_0;
  Some (Py.max Lit._0_1 (Py.min Lit._1_0 opacity)).

(** [if kernel_size % 2 == 0: kernel_size += 1] *)
Definition force_odd (kernel_size : Z) : Z :=
  if kernel_size mod 2 =? 0 then kernel_size + 1 else kernel_size.

(** [blur_engine_advanced.py] *)
Module BlurEngineAdvanced.
Section Engine.
Context {cv : CV2.Api}.
Import Float64 Numpy CV2.

(** [int(15 + (opacity * 86))], then forced odd *)
Definition kernel_size_of (opacity : float) : option Z :=
  kernel_size ← Py.int_of_float (add Lit._15 (mul opacity Lit._86));
  Some (force_odd kernel_size).

(** [max(3, int(3 + (opacity * 27)))] *)
Definition pixel_size_of (opacity : float) : option Z :=
  pixel_size ← Py.int_of_float (add Lit._3 (mul opacity Lit._27));
  Some (Z.max 3 pixel_size).

(** The branch on [region.blur_type].  The final [else] of the source is
    not reached: the four members are all there is to [BlurType]. *)
Definition blurred_roi_of (blur_type : BlurType) (roi : ndarray)
    (width height : Z) (opacity : float) : option ndarray :=
  match blur_type with
  | GAUSSIAN =>
      kernel_size ← kernel_size_of opacity;
      blurred_roi ← GaussianBlur roi (kernel_size, kernel_size) 0;
      blurred_roi ←
        (if gtb opacity Lit._0_7
         then GaussianBlur blurred_roi (kernel_size, kernel_size) 0
         else Some blurred_roi);
      if gtb opacity Lit._0_9
      then GaussianBlur blurred_roi (kernel_size, kernel_size) 0
      else Some blurred_roi
  | PIXELATE =>
      pixel_size ← pixel_size_of opacity;
      small ← resize roi (Z.max 1 (width / pixel_size),
                          Z.max 1 (height / pixel_size)) INTER_LINEAR;
      resize small (width, height) INTER_NEAREST
  | BLACK_BOX => Some (zeros_like roi)
  | WHITE_BOX => Some (full_like roi 255)
  end.

(** The opacity blending: what is written over the rectangle. *)
Definition blended_roi_of (roi blurred_roi : ndarray) (opacity : float)
  : option ndarray :=
  if geb opacity Lit._0_95 then Some blurred_roi
  else
    let blur_weight := mul opacity Lit._1_2 in
    let blur_weight := Py.min Lit._1_0 blur_weight in
    let original_weight := sub Lit._1_0 blur_weight in
    addWeighted roi original_weight blurred_roi blur_weight 0.

(** The body of the [try]. *)
Definition apply_blur_region_try (frame : ndarray) (region : BlurRegion.t)
  : option Returned :=
  let '(x, y, width, height) := clip frame region in
  let roi := getitem frame y (y + height) x (x + width) in
  if size roi =? 0 then Some ReturnFrame
  else
    opacity ← opacity_of region.(BlurRegion.intensity);
    blurred_roi ←
      blurred_roi_of region.(BlurRegion.blur_type) roi width height opacity;
    let result := frame in (* frame.copy() *)
    blended ← blended_roi_of roi blurred_roi opacity;
    result ← setitem result y (y + height) x (x + width) blended;
    Some (ReturnResult result).

(** [except Exception: return frame] *)
Definition apply_blur_region_returned (frame : ndarray) (region : BlurRegion.t)
  : Returned :=
  default ReturnFrame (apply_blur_region_try frame region).

Definition apply_blur_region (frame : ndarray) (region : BlurRegion.t) : ndarray :=
  returned_array frame (apply_blur_region_returned frame region).

End Engine.
End BlurEngineAdvanced.

(** [blur_engine.py]: the same method with a milder strength curve and a
    plain opacity blend. *)
Module BlurEngine.
Section Engine.
Context {cv : CV2.Api}.
Import Float64 Numpy CV2.

(** [int(3 + (opacity * 48))], then forced odd *)
Definition kernel_size_of (opacity : float) : option Z :=
  kernel_size ← Py.int_of_float (add Lit._3 (mul opacity Lit._48));
  Some (force_odd kernel_size).

(** [max(2, int(2 + (opacity * 18)))] *)
Definition pixel_size_of (opacity : float) : option Z :=
  pixel_size ← Py.int_of_float (add Lit._2 (mul opacity Lit._18));
  Some (Z.max 2 pixel_size).

Definition blurred_roi_of (blur_type : BlurType) (roi : ndarray)
    (width height : Z) (opacity : float) : option ndarray :=
  match blur_type with
  | GAUSSIAN =>
      kernel_size ← kernel_size_of opacity;
      GaussianBlur roi (kernel_size, kernel_size) 0
  | PIXELATE =>
      pixel_size ← pixel_size_of opacity;
      small ← resize roi (Z.max 1 (width / pixel_size),
                          Z.max 1 (height / pixel_size)) INTER_LINEAR;
      resize small (width, height) INTER_NEAREST
  | BLACK_BOX => Some (zeros_like roi)
  | WHITE_BOX => Some (full_like roi 255)
  end.

(** Both branches of the [if] on the blur type perform the same call:
  [cv2.addWeighted(roi, 1-opacity, blurred_roi, opacity, 0)]. *)
Definition blended_roi_of (roi blurred_roi : ndarray) (opacity : float)
  : option ndarray :=
  addWeighted roi (sub Lit._1_0 opacity) blurred_roi opacity 0.

Definition apply_blur_region_try (frame : ndarray) (region : BlurRegion.t)
  : option Returned :=
  let '(x, y, width, height) := clip frame region in
  let roi := getitem frame y (y + height) x (x + width) in
  if size roi =? 0 then Some ReturnFrame
  else
    opacity ← opacity_of region.(BlurRegion.intensity);
    blurred_roi ←
      blurred_roi_of region.(BlurRegion.blur_type) roi width height opacity;
    let result := frame in (* frame.copy() *)
    blended ← blended_roi_of roi blurred_roi opacity;
    result ← setitem result y (y + height) x (x + width) blended;
    Some (ReturnResult result).

Definition apply_blur_region_returned (frame : ndarray) (region : BlurRegion.t)
  : Returned :=
  default ReturnFrame (apply_blur_region_try frame region).

Definition apply_blur_region (frame : ndarray) (region : BlurRegion.t) : ndarray :=
  returned_array frame (apply_blur_region_returned frame region).

End Engine.
End BlurEngine.

(** ** [process_video], the full-video export loop

    The method reads the same in both engines; it is stated once over the
    [apply_blur_region] and [detect_text_regions] of the engine at hand. *)

Module VideoCapture.
(** An opened container: the properties read through [cap.get], already
    passed through [int], and the frames [cap.read] delivers in order. *)
Record t := {
  isOpened : bool;
  FPS : Z;
  FRAME_WIDTH : Z;
  FRAME_HEIGHT : Z;
  FRAME_COUNT : Z;
  frames : list Numpy.ndarray;
}.
End VideoCapture.

Module Results.
Record t := {
  processing_successful : bool;
  total_frames : Z;
  pii_regions_detected : Z;
  error : option string;
}.
End Results.

Section ProcessVideo.
Import Numpy.
Variable apply_blur_region : ndarray -> BlurRegion.t -> ndarray.
Variable detect_text_regions : ndarray -> list (Z * Z * Z * Z).

(** The condition of the export loop:
    [start_frame <= frame_count <= end_frame or
     (start_frame <= frame_count and end_frame == -1)] *)
Definition is_active (region : BlurRegion.t) (frame_count : Z) : bool :=
  (region.(BlurRegion.start_frame) <=? frame_count) &&
  (frame_count <=? region.(BlurRegion.end_frame))
  || (region.(BlurRegion.start_frame) <=? frame_count) &&
     (region.(BlurRegion.end_frame) =? -1).

(** [for region in blur_regions: if ...: frame = apply_blur_region(...)] *)
Definition apply_manual_regions (blur_regions : list BlurRegion.t)
    (frame_count : Z) (frame : ndarray) : ndarray :=
  fold_left
    (fun frame region =>
       if is_active region frame_count
       then apply_blur_region frame region
       else frame)
    blur_regions frame.

(** The [auto_detect] branch: one gaussian region of intensity 15 per
    detected rectangle, alive on this frame only. *)
Definition apply_detected_regions (text_regions : list (Z * Z * Z * Z))
    (frame_count : Z) (frame : ndarray) : ndarray :=
  fold_left
    (fun frame '(x, y, w, h) =>
       apply_blur_region frame
         (BlurRegion.__init__ x y w h GAUSSIAN 15 CUSTOM_TEXT
                              frame_count frame_count))
    text_regions frame.

(** The [while True] loop over the decoded frames: the frames written to
    the output, and the running total of detected rectangles. *)
Fixpoint read_loop (blur_regions : list BlurRegion.t) (auto_detect : bool)
    (frames : list ndarray) (frame_count pii_regions_total : Z)
  : list ndarray * Z :=
  match frames with
  | [] => ([], pii_regions_total)
  | frame :: frames =>
      let frame := apply_manual_regions blur_regions frame_count frame in
      let '(frame, pii_regions_total) :=
        if auto_detect then
          let text_regions := detect_text_regions frame in
          (apply_detected_regions text_regions frame_count frame,
           pii_regions_total + Z.of_nat (length text_regions))
        else (frame, pii_regions_total) in
      let '(written, pii_regions_total) :=
        read_loop blur_regions auto_detect frames (frame_count + 1)
                  pii_regions_total in
      (frame :: written, pii_regions_total)
  end.

(** [process_video]: the result record and the frames of the output
    video. *)
Definition process_video (cap : VideoCapture.t)
    (blur_regions : list BlurRegion.t) (auto_detect : bool)
  : Results.t * list ndarray :=
  if negb cap.(VideoCapture.isOpened) then
    ({| Results.processing_successful := false;
        Results.total_frames := 0;
        Results.pii_regions_detected := 0;
        Results.error := Some "Could not open video"%string |}, [])
  else
    let '(written, pii_regions_total) :=
      read_loop blur_regions auto_detect cap.(VideoCapture.frames) 0 0 in
    ({| Results.processing_successful := true;
        Results.total_frames := cap.(VideoCapture.FRAME_COUNT);
        Results.pii_regions_detected := pii_regions_total;
        Results.error := None |}, written).

End ProcessVideo.

(** ** [detect_text_regions]

    The method reads the same in both engines.  The contour analysis
    ([cv2.cvtColor], [cv2.threshold], [cv2.findContours] and
    [cv2.boundingRect] of every contour) belongs to OpenCV: it enters as
    the list of bounding boxes (x, y, w, h) in contour order, or [None]
    for a raised error. *)

Section TextDetection.
Variable contour_boxes : Numpy.ndarray -> option (list (Z * Z * Z * Z)).

(** [w > 20 and h > 10], then [0.2 < w / h < 10] *)
Definition is_text_like (box : Z * Z * Z * Z) : option bool :=
  let '(x, y, w, h) := box in
  if (w >? 20) && (h >? 10) then
    aspect_ratio ← Py.int_truediv_int w h;
    Some (Float64.ltb Lit._0_2 aspect_ratio && Float64.ltb aspect_ratio Lit._10)
  else Some false.

(** The loop over the contours: [regions.append((x, y, w, h))] for the
    boxes that pass. *)
Fixpoint text_like_boxes (boxes : list (Z * Z * Z * Z))
  : option (list (Z * Z * Z * Z)) :=
  match boxes with
  | [] => Some []
  | box :: boxes =>
      keep ← is_text_like box;
      regions ← text_like_boxes boxes;
      Some (if (keep : bool) then box :: regions else regions)
  end.

(** [except Exception: return []] *)
Definition detect_text_regions (frame : Numpy.ndarray)
  : list (Z * Z * Z * Z) :=
  default [] (boxes ← contour_boxes frame; text_like_boxes boxes).

End TextDetection.

(** ** [blur_advanced_ui.py]: the region store, the preview compositor and
    the animated export *)

Module AdvancedBlurUI.
Import Float64 Numpy CV2.

(** A region of the store: the dictionary with the keys ['x'], ['y'],
    ['width'], ['height'], ['blur_type'], ['intensity'], ['pii_type'],
    ['start_frame'] and ['end_frame'].  Every dictionary that reaches the
    store carries all of them, so that [rect.get('intensity', 90)] reads
    the stored value. *)
Module Rect.
Record t := mk {
  x : Z;
  y : Z;
  width : Z;
  height : Z;
  blur_type : string;
  intensity : Z;
  pii_type : string;
  start_frame : Z;
  end_frame : Z;
}.
End Rect.

(** One entry of the ["regions"] list of a saved file; ['intensity'] and
    ['pii_type'] may be missing. *)
Module RegionData.
Record t := mk {
  x : Z;
  y : Z;
  width : Z;
  height : Z;
  blur_type : string;
  intensity : option Z;
  pii_type : option string;
  start_frame : Z;
  end_frame : Z;
}.
End RegionData.

(** The drawn, not yet confirmed rectangle, with the keys that
    [confirm_rectangle] reads. *)
Module Pending.
Record t := mk {
  x : Z;
  y : Z;
  width : Z;
  height : Z;
  start_second : Z;
}.
End Pending.

(** The text of the start entry, [self.start_second_var.get()], as the
    methods see it: empty, and then falsy, so that the conversion is
    skipped; or a text on which [float(text)] raises [ValueError]; or a
    text that [float] converts to a double, ['inf'] and ['1e999'] to an
    infinity and ['nan'] to a NaN. *)
Inductive Entry :=
  | Empty
  | Invalid
  | Number (value : Float64.float).

(** The attributes of the window object that the modelled methods use. *)
Record State := mkState {
  regions : list Rect.t;
  rectangle_held : bool;
  held_rectangle : option Rect.t;
  pending_rectangle : option Pending.t;
  blur_type_var : string;
  opacity_var : Z;
  duration_var : Z;
  start_second_var : Entry;
  current_second : Z;
  fps : Z;
}.

Definition with_regions (self : State) (regions' : list Rect.t) : State :=
  mkState regions' self.(rectangle_held) self.(held_rectangle)
          self.(pending_rectangle) self.(blur_type_var) self.(opacity_var)
          self.(duration_var) self.(start_second_var) self.(current_second)
          self.(fps).

(** [load_regions]: the store is cleared and every entry of the file is
    appended. *)
Definition rect_of_region_data (region_data : RegionData.t) : Rect.t :=
  Rect.mk region_data.(RegionData.x) region_data.(RegionData.y)
          region_data.(RegionData.width) region_data.(RegionData.height)
          region_data.(RegionData.blur_type)
          (default 90 region_data.(RegionData.intensity))
          (default "custom_text"%string region_data.(RegionData.pii_type))
          region_data.(RegionData.start_frame)
          region_data.(RegionData.end_frame).

Definition load_regions (self : State) (regions_data : list RegionData.t)
  : State :=
  fold_left
    (fun self region_data =>
       with_regions self (self.(regions) ++ [rect_of_region_data region_data]))
    regions_data (with_regions self []).

(** The start second of a pending rectangle (lines 1219-1224 and
    1285-1290):
    [start_second = self.pending_rectangle.get('start_second', ...)], and
    when the entry is not empty,
    [try: start_second = int(float(text))] with
    [except ValueError:] the same fallback.  [int] of a NaN raises
    [ValueError], which is caught; [int] of an infinity raises
    [OverflowError], which the handler does not catch: [None]. *)
Definition start_second_of (self : State) (pending : Pending.t) : option Z :=
  match self.(start_second_var) with
  | Empty | Invalid => Some pending.(Pending.start_second)
  | Number S754_nan => Some pending.(Pending.start_second)
  | Number (S754_infinity _) => None
  | Number value => Py.int_of_float value
  end.

(** The dictionary built from the pending rectangle and the current
    settings, in [hold_rectangle] and in [confirm_rectangle] alike. *)
Definition rect_of_pending (self : State) (pending : Pending.t)
    (start_second : Z) : Rect.t :=
  let current_duration := self.(duration_var) in
  let end_second := start_second + current_duration in
  let start_frame := start_second * self.(fps) in
  let end_frame := end_second * self.(fps) in
  Rect.mk pending.(Pending.x) pending.(Pending.y)
          pending.(Pending.width) pending.(Pending.height)
          self.(blur_type_var) self.(opacity_var)
          "custom_text"%string start_frame end_frame.

(** [confirm_rectangle]: the held rectangle, or else the pending one
    completed with the current settings, is appended to the store.  The
    result is the window when the attributes have been assigned, up to
    [self.pending_rectangle = None]; the calls that follow refresh the
    display.  [None] is the [OverflowError] of the start entry, raised
    before anything is assigned. *)
Definition confirm_rectangle_try (self : State) : option State :=
  match self.(rectangle_held), self.(held_rectangle) with
  | true, Some held =>
      Some (mkState (self.(regions) ++ [held]) false None
                    None self.(blur_type_var) self.(opacity_var)
                    self.(duration_var) self.(start_second_var)
                    self.(current_second) self.(fps))
  | _, _ =>
      match self.(pending_rectangle) with
      | Some pending =>
          start_second ← start_second_of self pending;
          let rect_to_confirm := rect_of_pending self pending start_second in
          Some (mkState (self.(regions) ++ [rect_to_confirm])
                        self.(rectangle_held) self.(held_rectangle)
                        None self.(blur_type_var) self.(opacity_var)
                        self.(duration_var) self.(start_second_var)
                        self.(current_second) self.(fps))
      | None => Some self
      end
  end.

(** The window after a call of [confirm_rectangle], whether it returned
    or was left by the exception: Tk reports the exception of a callback
    and goes on with the window as it is. *)
Definition confirm_rectangle (self : State) : State :=
  default self (confirm_rectangle_try self).

(** [process_video] of the window: the store converted for the engine.
    [BlurType(rect['blur_type'])] raises [ValueError] on a string that is
    no member of the enumeration. *)
Definition BlurType_of_string (s : string) : option BlurType :=
  if String.eqb s "gaussian" then Some GAUSSIAN
  else if String.eqb s "pixelate" then Some PIXELATE
  else if String.eqb s "black_box" then Some BLACK_BOX
  else if String.eqb s "white_box" then Some WHITE_BOX
  else None.

Definition PIIType_of_string (s : string) : option PIIType :=
  if String.eqb s "custom_text" then Some CUSTOM_TEXT else None.

Definition BlurRegion_of_rect (rect : Rect.t) : option BlurRegion.t :=
  blur_type ← BlurType_of_string rect.(Rect.blur_type);
  pii_type ← PIIType_of_string rect.(Rect.pii_type);
  Some (BlurRegion.__init__ rect.(Rect.x) rect.(Rect.y) rect.(Rect.width)
          rect.(Rect.height) blur_type rect.(Rect.intensity) pii_type
          rect.(Rect.start_frame) rect.(Rect.end_frame)).

(** [hold_rectangle]: a held rectangle is released; otherwise the pending
    rectangle is completed with the current settings and held.  The
    result is the window when the attributes have been assigned; [None]
    is the [OverflowError] of the start entry, raised before anything is
    assigned. *)
Definition hold_rectangle_try (self : State) : option State :=
  match self.(rectangle_held), self.(held_rectangle) with
  | true, Some _ =>
      Some (mkState self.(regions) false None self.(pending_rectangle)
                    self.(blur_type_var) self.(opacity_var)
                    self.(duration_var) self.(start_second_var)
                    self.(current_second) self.(fps))
  | _, _ =>
      match self.(pending_rectangle) with
      | Some pending =>
          start_second ← start_second_of self pending;
          Some (mkState self.(regions) true
                        (Some (rect_of_pending self pending start_second))
                        self.(pending_rectangle)
                        self.(blur_type_var) self.(opacity_var)
                        self.(duration_var) self.(start_second_var)
                        self.(current_second) self.(fps))
      | None => Some self
      end
  end.

(** The window after a call of [hold_rectangle], whether it returned or
    was left by the exception. *)
Definition hold_rectangle (self : State) : State :=
  default self (hold_rectangle_try self).

(** [delete_selected_rectangle]; [selection] is what the list box
    reports, the indices of the selected lines.  The list box shows one
    line per stored region and, below them, one for a held rectangle.
    [del self.regions[index]] raises [IndexError] past the end: [None]. *)
Definition delete_selected_rectangle (self : State) (selection : list nat)
  : option State :=
  match selection with
  | [] => Some self
  | index :: _ =>
      if decide (index < length self.(regions))%nat
      then Some (with_regions self (delete index self.(regions)))
      else None
  end.

(** The number of lines of the list box, as [update_rectangle_list]
    fills it.  Every label holds [rect['start_frame'] // fps]: with a
    frame rate of 0 the method raises before it inserts its first line,
    and the list box stays empty. *)
Definition listbox_size (self : State) : nat :=
  if self.(fps) =? 0 then 0%nat
  else
    (length self.(regions) +
     match self.(rectangle_held), self.(held_rectangle) with
     | true, Some _ => 1
     | _, _ => 0
     end)%nat.

(** [clear_all_rectangles] *)
Definition clear_all_rectangles (self : State) : State :=
  match self.(regions) with
  | [] => self
  | _ => with_regions self []
  end.

(** [save_regions]: the entries written under ["regions"], or [None] when
    the store is empty and nothing is written. *)
Definition region_data_of_rect (rect : Rect.t) : RegionData.t :=
  RegionData.mk rect.(Rect.x) rect.(Rect.y) rect.(Rect.width)
                rect.(Rect.height) rect.(Rect.blur_type)
                (Some rect.(Rect.intensity)) (Some rect.(Rect.pii_type))
                rect.(Rect.start_frame) rect.(Rect.end_frame).

Definition save_regions (self : State) : option (list RegionData.t) :=
  match self.(regions) with
  | [] => None
  | regions => Some (region_data_of_rect <$> regions)
  end.

(** The conversion loop of the window's [process_video]: one
    [BlurRegion] per stored region, in order; [None] when a constructor
    of an enumeration raises. *)
Definition blur_regions_of (self : State) : option (list BlurRegion.t) :=
  mapM BlurRegion_of_rect self.(regions).

Inductive ProcessResult :=
  | ProcessNotStarted
  | ProcessFailed
  | Processed (written : list ndarray).

(** The animation handed to [Image.save]: the frames, the display time
    of each in milliseconds, and the loop count (0: forever). *)
Module Gif.
Record t := mk {
  frames : list ndarray;
  duration : Z;
  loop : Z;
}.
End Gif.

Inductive ExportResult :=
  | NotStarted
  | ExportFailed (message : string)
  | Exported (gif : Gif.t).

Section Compositor.
Context {cv : CV2.Api}.

(** The branch on [rect['blur_type']] (lines 1596-1614). *)
Definition blurred_roi_of (blur_type : string) (roi : ndarray)
    (w h : Z) (opacity : float) : option ndarray :=
  if String.eqb blur_type "gaussian" then
    kernel_size ← BlurEngineAdvanced.kernel_size_of opacity;
    blurred_roi ← GaussianBlur roi (kernel_size, kernel_size) 0;
    blurred_roi ←
      (if gtb opacity Lit._0_7
       then GaussianBlur blurred_roi (kernel_size, kernel_size) 0
       else Some blurred_roi);
    if gtb opacity Lit._0_9
    then GaussianBlur blurred_roi (kernel_size, kernel_size) 0
    else Some blurred_roi
  else if String.eqb blur_type "pixelate" then
    pixel_size ← BlurEngineAdvanced.pixel_size_of opacity;
    small ← resize roi (Z.max 1 (w / pixel_size),
                        Z.max 1 (h / pixel_size)) INTER_LINEAR;
    resize small (w, h) INTER_NEAREST
  else if String.eqb blur_type "black_box" then Some (zeros_like roi)
  else if String.eqb blur_type "white_box" then Some (full_like roi 255)
  else Some roi.

(** The clipping of lines 1585-1588, as (x, y, w, h). *)
Definition clip_rect (frame : ndarray) (rect : Rect.t) : Z * Z * Z * Z :=
  let x := Z.max 0 (Z.min rect.(Rect.x) (shape1 frame - 1)) in
  let y := Z.max 0 (Z.min rect.(Rect.y) (shape0 frame - 1)) in
  let w := Z.max 1 (Z.min rect.(Rect.width) (shape1 frame - x)) in
  let h := Z.max 1 (Z.min rect.(Rect.height) (shape0 frame - y)) in
  (x, y, w, h).

(** The condition of line 1582. *)
Definition in_range (rect : Rect.t) (frame_number : Z) : bool :=
  (rect.(Rect.start_frame) <=? frame_number) &&
  (frame_number <=? rect.(Rect.end_frame)).

(** One turn of the loop over [regions_to_apply]: [result_frame] is
    updated in place; [None] is an exception leaving the method. *)
Definition apply_rect (frame : ndarray) (frame_number : Z)
    (result_frame : ndarray) (rect : Rect.t) : option ndarray :=
  if in_range rect frame_number then
    let '(x, y, w, h) := clip_rect frame rect in
    let roi := getitem result_frame y (y + h) x (x + w) in
    if size roi >? 0 then
      opacity ← opacity_of rect.(Rect.intensity);
      blurred_roi ← blurred_roi_of rect.(Rect.blur_type) roi w h opacity;
      blended ← BlurEngineAdvanced.blended_roi_of roi blurred_roi opacity;
      setitem result_frame y (y + h) x (x + w) blended
    else Some result_frame
  else Some result_frame.

Definition regions_to_apply (self : State) : list Rect.t :=
  self.(regions) ++
  match self.(rectangle_held), self.(held_rectangle) with
  | true, Some held => [held]
  | _, _ => []
  end.

(** [apply_blur_effects_for_frame]: the contents of the array
    [result_frame = frame.copy()] when the method returns it. *)
Definition apply_blur_effects_for_frame (self : State) (frame : ndarray)
    (frame_number : Z) : option ndarray :=
  fold_left
    (fun result_frame rect =>
       result_frame ← result_frame;
       apply_rect frame frame_number result_frame rect)
    (regions_to_apply self) (Some frame).

(** [apply_blur_effects], the single-frame preview. *)
Definition apply_blur_effects (self : State) (frame : ndarray)
  : option ndarray :=
  apply_blur_effects_for_frame self frame
    (self.(current_second) * self.(fps)).

(** *** [export_as_gif] *)

(** [cv2.cvtColor(processed_frame, cv2.COLOR_BGR2RGB)] *)
Definition BGR2RGB (a : ndarray) : ndarray :=
  (fun row : list Pixel =>
     (fun p : Pixel => let '(b, g, r) := p in (r, g, b)) <$> row) <$> a.

(** The size of the animation: at most 800 pixels wide. *)
Definition gif_size (width height : Z) : option (Z * Z) :=
  let max_width := 800 in
  if width >? max_width then
    scale ← Py.int_truediv_int max_width width;
    new_height ← Py.int_of_float (mul (of_Z height) scale);
    Some (max_width, new_height)
  else Some (width, height).

(** [frame_skip = max(1, total_frames // target_frames)] *)
Definition frame_skip_of (total_frames target_frames : Z) : Z :=
  Z.max 1 (total_frames / target_frames).

(** [duration_ms = int(1000 / (fps / frame_skip))] *)
Definition duration_ms_of (fps frame_skip : Z) : option Z :=
  rate ← Py.int_truediv_int fps frame_skip;
  duration ← Py.int_truediv_float 1000 rate;
  Py.int_of_float duration.

(** What happens to a frame that is kept: compositing, resizing when the
    size changed, and conversion for PIL. *)
Definition process_sampled_frame (self : State)
    (width height new_width new_height : Z)
    (frame : ndarray) (frame_count : Z) : option ndarray :=
  processed_frame ← apply_blur_effects_for_frame self frame frame_count;
  processed_frame ←
    (if negb (new_width =? width) || negb (new_height =? height)
     then resize processed_frame (new_width, new_height) INTER_AREA
     else Some processed_frame);
  Some (BGR2RGB processed_frame).

(** The [while True] loop: every decoded frame is counted, and the
    frames whose count is a multiple of [frame_skip] are processed and
    appended to [frames]. *)
Fixpoint sample_loop (self : State) (frame_skip : Z)
    (width height new_width new_height : Z)
    (frames : list ndarray) (frame_count : Z) : option (list ndarray) :=
  match frames with
  | [] => Some []
  | frame :: frames =>
      if frame_count mod frame_skip =? 0 then
        processed_frame ←
          process_sampled_frame self width height new_width new_height
                                frame frame_count;
        kept ← sample_loop self frame_skip width height new_width
                           new_height frames (frame_count + 1);
        Some (processed_frame :: kept)
      else
        sample_loop self frame_skip width height new_width new_height
                    frames (frame_count + 1)
  end.

(** The body of the [try], for a chosen number of target frames. *)
Definition export_frames (self : State) (cap : VideoCapture.t)
    (target_frames : Z) : option (option Gif.t) :=
  let fps := self.(fps) in
  let total_frames := cap.(VideoCapture.FRAME_COUNT) in
  let width := cap.(VideoCapture.FRAME_WIDTH) in
  let height := cap.(VideoCapture.FRAME_HEIGHT) in
  '(new_width, new_height) ← gif_size width height;
  let frame_skip := frame_skip_of total_frames target_frames in
  frames ← sample_loop self frame_skip width height new_width new_height
                       cap.(VideoCapture.frames) 0;
  match frames with
  | [] => Some None
  | _ =>
      duration_ms ← duration_ms_of fps frame_skip;
      Some (Some (Gif.mk frames duration_ms 0))
  end.

(** [export_as_gif]; [quality_choice] is the answer of the dialog:
    [Some true] for the high frame rate, [Some false] for the low one,
    [None] when the dialog was closed. *)
Definition export_as_gif (self : State) (cap : VideoCapture.t)
    (quality_choice : option bool) : ExportResult :=
  match self.(regions), quality_choice with
  | [], _ => NotStarted
  | _, None => NotStarted
  | _, Some high =>
      let target_frames := if high then 60 else 15 in
      if negb cap.(VideoCapture.isOpened)
      then ExportFailed "Could not open video file"
      else
        match export_frames self cap target_frames with
        | None => ExportFailed "GIF export failed"
        | Some None => ExportFailed "No frames processed for GIF"
        | Some (Some gif) => Exported gif
        end
  end.

(** *** [process_video] of the window

    The store is converted and handed to the engine, without
    auto-detection; [cap] is the video at [self.video_path]. *)
Definition process_video
    (detect_text_regions : ndarray -> list (Z * Z * Z * Z))
    (self : State) (cap : VideoCapture.t) : ProcessResult :=
  match self.(regions) with
  | [] => ProcessNotStarted
  | _ =>
      match blur_regions_of self with
      | None => ProcessFailed
      | Some blur_regions =>
          let '(results, written) :=
            process_video BlurEngineAdvanced.apply_blur_region
                          detect_text_regions cap blur_regions false in
          if results.(Results.processing_successful)
          then Processed written
          else ProcessFailed
      end
  end.

End Compositor.
End AdvancedBlurUI.

(** ** Arrays as objects

    A numpy array is an object with an identity.  [a[y0:y1, x0:x1]] is a
    view that shares the memory of [a]; [a.copy()], [np.zeros_like],
    [np.full_like] and the functions of OpenCV make a new array; an
    assignment to a part of an array writes into its memory.  Here the
    compositing methods are stated over such objects, one step on the
    heap of buffers for each statement of the source. *)

Module Heap.
Import Float64 Numpy.

Abbreviation loc := positive.

(** An array object: the buffer that holds its pixels and, for a view,
    the slices (y0, y1, x0, x1) that lead from the buffer to its part. *)
Record array := mk_array {
  buffer : loc;
  slices : list (Z * Z * Z * Z);
}.

(** The pixels of a buffer seen through slices. *)
Definition through (slices : list (Z * Z * Z * Z)) (contents : ndarray)
  : ndarray :=
  fold_left (fun c '(y0, y1, x0, x1) => getitem c y0 y1 x0 x1) slices contents.

(** The buffer after its part behind the slices was replaced by what
    [write] makes of it. *)
Fixpoint update (slices : list (Z * Z * Z * Z)) (contents : ndarray)
    (write : ndarray -> option ndarray) : option ndarray :=
  match slices with
  | [] => write contents
  | (y0, y1, x0, x1) :: slices =>
      part ← update slices (getitem contents y0 y1 x0 x1) write;
      setitem contents y0 y1 x0 x1 part
  end.

(** The pixels of an array in a heap. *)
Definition value (h : gmap loc ndarray) (a : array) : option ndarray :=
  through a.(slices) <$> h !! a.(buffer).

(** A step of a method: its value, or [None] for a raised exception, and
    the heap it leaves.  What was allocated before an exception stays
    allocated. *)
Definition M (A : Type) : Type := gmap loc ndarray -> option A * gmap loc ndarray.

Definition ret {A} (a : A) : M A := fun h => (Some a, h).

Definition bind {A B} (m : M A) (k : A -> M B) : M B :=
  fun h =>
    match m h with
    | (Some a, h) => k a h
    | (None, h) => (None, h)
    end.

(** A computation that touches no array. *)
Definition lift {A} (o : option A) : M A := fun h => (o, h).

(** [try: body except Exception: handler] *)
Definition try_except {A} (body handler : M A) : M A :=
  fun h =>
    match body h with
    | (Some a, h) => (Some a, h)
    | (None, h) => handler h
    end.

Notation "x <- m ;; k" := (bind m (fun x => k))
  (at level 100, m at next level, right associativity).
Notation "m ;; k" := (bind m (fun _ => k))
  (at level 100, right associativity).

(** Reading the pixels of an array. *)
Definition read (a : array) : M ndarray := fun h => (value h a, h).

(** A new array with its own buffer. *)
Definition new (contents : ndarray) : M array :=
  fun h =>
    let l := fresh (dom h) in
    (Some (mk_array l []), <[l := contents]> h).

(** [a.copy()] *)
Definition copy (a : array) : M array :=
  contents <- read a;; new contents.

(** [a[y0:y1, x0:x1]]: a view, no pixel is copied. *)
Definition getitem (a : array) (y0 y1 x0 x1 : Z) : array :=
  mk_array a.(buffer) (a.(slices) ++ [(y0, y1, x0, x1)]).

(** [a[y0:y1, x0:x1] = src]: the pixels of [src] are read and written
    into the buffer of [a]. *)
Definition setitem (a : array) (y0 y1 x0 x1 : Z) (src : array) : M unit :=
  pixels <- read src;;
  fun h =>
    match contents ← h !! a.(buffer);
          update a.(slices) contents
                 (fun part => Numpy.setitem part y0 y1 x0 x1 pixels) with
    | Some contents => (Some tt, <[a.(buffer) := contents]> h)
    | None => (None, h)
    end.

(** [a.size] and [a.shape] *)
Definition size (a : array) : M Z :=
  contents <- read a;; ret (Numpy.size contents).

Definition zeros_like (a : array) : M array :=
  contents <- read a;; new (Numpy.zeros_like contents).

Definition full_like (a : array) (v : Z) : M array :=
  contents <- read a;; new (Numpy.full_like contents v).

(** The step [m] makes, in a heap that only grew, an array that holds
    [p], or raises when [p] is [None]. *)
Definition yields (m : M array) (h : gmap loc ndarray) (p : option ndarray)
  : Prop :=
  exists h', h ⊆ h' /\
    match p with
    | Some pixels => exists a, m h = (Some a, h') /\ value h' a = Some pixels
    | None => m h = (None, h')
    end.

(** The heaps agree on every buffer but [l], and [h'] may hold more. *)
Definition agree_except (l : loc) (h h' : gmap loc ndarray) : Prop :=
  forall l' pixels, l' <> l -> h !! l' = Some pixels -> h' !! l' = Some pixels.

Section Objects.
Context {cv : CV2.Api}.

(** The functions of OpenCV are called without a destination: each
    returns a new array. *)
Definition GaussianBlur (src : array) (ksize : Z * Z) (sigma : Z) : M array :=
  pixels <- read src;;
  blurred <- lift (CV2.GaussianBlur pixels ksize sigma);;
  new blurred.

Definition resize (src : array) (dsize : Z * Z)
    (interpolation : CV2.Interpolation) : M array :=
  pixels <- read src;;
  resized <- lift (CV2.resize pixels dsize interpolation);;
  new resized.

Definition addWeighted (src1 : array) (alpha : float) (src2 : array)
    (beta : float) (gamma : Z) : M array :=
  pixels1 <- read src1;;
  pixels2 <- read src2;;
  blended <- lift (CV2.addWeighted pixels1 alpha pixels2 beta gamma);;
  new blended.

(** The gaussian branch of the advanced engine and of the preview:
    lines 142-152 and 1597-1604. *)
Definition gaussian (roi : array) (opacity : float) : M array :=
  kernel_size <- lift (BlurEngineAdvanced.kernel_size_of opacity);;
  blurred_roi <- GaussianBlur roi (kernel_size, kernel_size) 0;;
  blurred_roi <-
    (if gtb opacity Lit._0_7
     then GaussianBlur blurred_roi (kernel_size, kernel_size) 0
     else ret blurred_roi);;
  if gtb opacity Lit._0_9
  then GaussianBlur blurred_roi (kernel_size, kernel_size) 0
  else ret blurred_roi.

(** The pixelate branch: lines 155-157 and 1606-1608. *)
Definition pixelate (roi : array) (width height : Z) (opacity : float)
  : M array :=
  pixel_size <- lift (BlurEngineAdvanced.pixel_size_of opacity);;
  small <- resize roi (Z.max 1 (width / pixel_size),
                       Z.max 1 (height / pixel_size)) CV2.INTER_LINEAR;;
  resize small (width, height) CV2.INTER_NEAREST.

(** The opacity blending of lines 166-176 and 1616-1622, into [result]. *)
Definition blend_into (result : array) (y x height width : Z)
    (roi blurred_roi : array) (opacity : float) : M unit :=
  if geb opacity Lit._0_95 then
    setitem result y (y + height) x (x + width) blurred_roi
  else
    let blur_weight := mul opacity Lit._1_2 in
    let blur_weight := Py.min Lit._1_0 blur_weight in
    let original_weight := sub Lit._1_0 blur_weight in
    blended <- addWeighted roi original_weight blurred_roi blur_weight 0;;
    setitem result y (y + height) x (x + width) blended.

(** [apply_blur_region] of [blur_engine_advanced.py]: the body of the
    [try]. *)
Definition apply_blur_region_try (frame : array) (region : BlurRegion.t)
  : M array :=
  pixels <- read frame;;
  let '(x, y, width, height) := clip pixels region in
  let roi := getitem frame y (y + height) x (x + width) in
  roi_size <- size roi;;
  if roi_size =? 0 then ret frame
  else
    opacity <- lift (opacity_of region.(BlurRegion.intensity));;
    blurred_roi <-
      match region.(BlurRegion.blur_type) with
      | GAUSSIAN => gaussian roi opacity
      | PIXELATE => pixelate roi width height opacity
      | BLACK_BOX => zeros_like roi
      | WHITE_BOX => full_like roi 255
      end;;
    result <- copy frame;;
    blend_into result y x height width roi blurred_roi opacity;;
    ret result.

(** [except Exception as e: ...; return frame] *)
Definition apply_blur_region (frame : array) (region : BlurRegion.t)
  : M array :=
  try_except (apply_blur_region_try frame region) (ret frame).

(** One turn of the loop of [apply_blur_effects_for_frame]:
    [result_frame] is written in place. *)
Definition apply_rect (frame result_frame : array) (frame_number : Z)
    (rect : AdvancedBlurUI.Rect.t) : M unit :=
  if AdvancedBlurUI.in_range rect frame_number then
    pixels <- read frame;;
    let '(x, y, w, h) := AdvancedBlurUI.clip_rect pixels rect in
    let roi := getitem result_frame y (y + h) x (x + w) in
    roi_size <- size roi;;
    if roi_size >? 0 then
      opacity <- lift (opacity_of rect.(AdvancedBlurUI.Rect.intensity));;
      let blur_type := rect.(AdvancedBlurUI.Rect.blur_type) in
      blurred_roi <-
        (if String.eqb blur_type "gaussian" then gaussian roi opacity
         else if String.eqb blur_type "pixelate" then pixelate roi w h opacity
         else if String.eqb blur_type "black_box" then zeros_like roi
         else if String.eqb blur_type "white_box" then full_like roi 255
         else ret roi);;
      blend_into result_frame y x h w roi blurred_roi opacity
    else ret tt
  else ret tt.

(** [for rect in regions_to_apply: ...] *)
Fixpoint for_each {A} (l : list A) (body : A -> M unit) : M unit :=
  match l with
  | [] => ret tt
  | a :: l => body a;; for_each l body
  end.

(** [apply_blur_effects_for_frame] of the window. *)
Definition apply_blur_effects_for_frame (self : AdvancedBlurUI.State)
    (frame : array) (frame_number : Z) : M array :=
  result_frame <- copy frame;;
  for_each (AdvancedBlurUI.regions_to_apply self)
           (apply_rect frame result_frame frame_number);;
  ret result_frame.

End Objects.
End Heap.

(** ** A reference OpenCV for running examples

    [addWeighted] follows the documented per-channel formula
    [saturate(round(src1*alpha + src2*beta + gamma))], evaluated exactly
    and rounded half to even.  [GaussianBlur] replaces every pixel by the
    mean of the array, the limit of a wide kernel on a small array, and
    [resize] picks the nearest source pixel. *)

Module RefCV.
Import Float64 Numpy CV2.

(** [a * 2^k] as an integer, for a finite [a] with exponent [>= -k]. *)
Definition scaled (a : float) (k : Z) : Z :=
  match a with
  | S754_finite s m e => (if s then -1 else 1) * Z.pos m * 2 ^ (e + k)
  | _ => 0
  end.

Definition exponent (a : float) : Z :=
  match a with
  | S754_finite _ _ e => e
  | _ => 0
  end.

Definition saturate (v : Z) : Z := Z.max 0 (Z.min 255 v).

Definition weighted_channel (alpha beta : float) (gamma c1 c2 : Z) : Z :=
  let k := Z.max 0 (Z.max (- exponent alpha) (- exponent beta)) in
  saturate (Float64.round_half_even
              (c1 * scaled alpha k + c2 * scaled beta k + gamma * 2 ^ k)
              (2 ^ k)).

Definition weighted_pixel (alpha beta : float) (gamma : Z) (p1 p2 : Pixel)
  : Pixel :=
  let '(b1, g1, r1) := p1 in
  let '(b2, g2, r2) := p2 in
  (weighted_channel alpha beta gamma b1 b2,
   weighted_channel alpha beta gamma g1 g2,
   weighted_channel alpha beta gamma r1 r2).

Definition addWeighted_ref (src1 : ndarray) (alpha : float) (src2 : ndarray)
    (beta : float) (gamma : Z) : option ndarray :=
  if same_shapeb src1 src2 && is_finite alpha && is_finite beta then
    Some (zip_with (fun row1 row2 : list Pixel =>
                      zip_with (weighted_pixel alpha beta gamma) row1 row2)
                   src1 src2)
  else None.

Definition channel_sum (a : ndarray) (channel : Pixel -> Z) : Z :=
  foldr (fun row acc => foldr (fun p acc => channel p + acc) acc row) 0 a.

Definition GaussianBlur_ref (src : ndarray) (ksize : Z * Z) (sigma : Z)
  : option ndarray :=
  let count := shape0 src * shape1 src in
  if (0 <? ksize.1) && (ksize.1 mod 2 =? 1) &&
     (0 <? ksize.2) && (ksize.2 mod 2 =? 1) && (0 <? count) then
    let mean : Pixel :=
      (channel_sum src (fun p => p.1.1) / count,
       channel_sum src (fun p => p.1.2) / count,
       channel_sum src (fun p => p.2) / count) in
    Some ((fun row : list Pixel => (fun _ => mean) <$> row) <$> src)
  else None.

Definition resize_ref (src : ndarray) (dsize : Z * Z) (interp : Interpolation)
  : option ndarray :=
  let '(w, h) := dsize in
  if (0 <? w) && (0 <? h) && (0 <? shape0 src) && (0 <? shape1 src) then
    Some ((fun i : Z =>
             let row := src !!! Z.to_nat (i * shape0 src / h) in
             (fun j : Z => row !!! Z.to_nat (j * shape1 src / w))
               <$> seqZ 0 w)
            <$> seqZ 0 h)
  else None.

#[export] Instance api : Api := {|
  GaussianBlur := GaussianBlur_ref;
  resize := resize_ref;
  addWeighted := addWeighted_ref;
|}.

End RefCV.

(** ** The specification's formulas

    Definitions that follow the wording of the specification, to be
    compared with the code above. *)

Module Spec.
Import Float64.

(** "a region is active at frameIndex iff startFrame <= frameIndex and
    (endFrame is open OR frameIndex <= endFrame)", the open end being
    written [-1]. *)
Definition active (start_frame end_frame frame_index : Z) : Prop :=
  start_frame <= frame_index /\ (end_frame = -1 \/ frame_index <= end_frame).

(** [round(x)]: the nearest integer. *)
Definition round (a : float) : option Z := to_Z_round a.

(** "kernel size k = round(15 + o·86), forced odd" *)
Definition kernel_size (o : float) : option Z :=
  k ← round (add Lit._15 (mul o Lit._86));
  Some (force_odd k).

(** "blurWeight = min(1.0, o · 1.2)" *)
Definition blur_weight (o : float) : float := Py.min Lit._1_0 (mul o Lit._1_2).

(** "if o >= 0.95, write the transform output directly.  Otherwise ...
    write originalWeight·original + blurWeight·transformed per pixel" *)
Definition blend {cv : CV2.Api} (original transformed : Numpy.ndarray)
    (o : float) : option Numpy.ndarray :=
  if geb o Lit._0_95 then Some transformed
  else CV2.addWeighted original (sub Lit._1_0 (blur_weight o))
                       transformed (blur_weight o) 0.

(** "Per-frame display duration (ms) = round(1000 / (fps / frameSkip))" *)
Definition duration_ms (fps frame_skip : Z) : option Z :=
  rate ← Py.int_truediv_int fps frame_skip;
  duration ← Py.int_truediv_float 1000 rate;
  round duration.

(** The stored intensity brought into [10, 100]. *)
Definition clamp_intensity (intensity : Z) : Z := Z.max 10 (Z.min 100 intensity).

(** The kernel size with the fraction of [15 + o·86] dropped instead of
    rounded, in exact integer arithmetic on the clamped intensity. *)
Definition kernel_size_truncated (intensity : Z) : Z :=
  force_odd (15 + 86 * clamp_intensity intensity / 100).

(** One pass, a second above 70 percent, a third above 90 percent. *)
Definition passes (intensity : Z) : nat :=
  let second := if 70 <? intensity then 1%nat else 0%nat in
  let third := if 90 <? intensity then 1%nat else 0%nat in
  (1 + second + third)%nat.

(** "apply blur once; apply a second pass if o > 0.7; apply a third pass
    if o > 0.9" *)
Definition passes_at (o : float) : nat :=
  let second := if gtb o Lit._0_7 then 1%nat else 0%nat in
  let third := if gtb o Lit._0_9 then 1%nat else 0%nat in
  (1 + second + third)%nat.

(** [n] successive blurs with the same square kernel. *)
Fixpoint gaussian_passes {cv : CV2.Api} (n : nat) (kernel_size : Z)
    (roi : Numpy.ndarray) : option Numpy.ndarray :=
  match n with
  | O => Some roi
  | S n =>
      blurred_roi ← gaussian_passes n kernel_size roi;
      CV2.GaussianBlur blurred_roi (kernel_size, kernel_size) 0
  end.

(** "only frames whose source index is a multiple of frameSkip are
    retained", among the first [n] indices. *)
Definition retained (frame_skip n : Z) : list Z :=
  filter (fun i => i mod frame_skip = 0) (seqZ 0 n).

(** "reject/clamp out-of-range intensity; reject zero-area rects;
    normalize endFrame < startFrame by treating it as open": what would
    hold of every stored region. *)
Definition validated (rect : AdvancedBlurUI.Rect.t) : Prop :=
  10 <= rect.(AdvancedBlurUI.Rect.intensity) <= 100
  /\ rect.(AdvancedBlurUI.Rect.width) * rect.(AdvancedBlurUI.Rect.height) <> 0
  /\ (rect.(AdvancedBlurUI.Rect.end_frame) < rect.(AdvancedBlurUI.Rect.start_frame) ->
      rect.(AdvancedBlurUI.Rect.end_frame) = -1).


End Spec.

(** ** Exhaustive checks of the float computations

    The thresholds and truncations are compared with exact integer
    arithmetic, one input at a time. *)

(** At this intensity the doubles give the truncated kernel size and cross
    the thresholds 0.7, 0.9 and 0.95 exactly when the clamped percentage
    does. *)
Definition strength_curve_ok (intensity : Z) : bool :=
  match opacity_of intensity with
  | Some o =>
      match BlurEngineAdvanced.kernel_size_of o with
      | Some k => k =? Spec.kernel_size_truncated intensity
      | None => false
      end
      && Bool.eqb (Float64.gtb o Lit._0_7) (70 <? intensity)
      && Bool.eqb (Float64.gtb o Lit._0_9) (90 <? intensity)
      && Bool.eqb (Float64.geb o Lit._0_95) (95 <=? intensity)
  | None => false
  end.

(** At this rate and stride the duration is the exact quotient
    [1000 * frame_skip / fps] with its fraction dropped, or one less when
    the quotient is a whole number that the two roundings miss from
    below. *)
Definition duration_ok (p : Z * Z) : bool :=
  let '(fps, frame_skip) := p in
  match AdvancedBlurUI.duration_ms_of fps frame_skip with
  | Some d =>
      (d =? 1000 * frame_skip / fps)
      || (d =? 1000 * frame_skip / fps - 1)
         && ((1000 * frame_skip) mod fps =? 0)
  | None => false
  end.

(** At this intensity the block size of the pixelation and the kernel and
    block sizes of [blur_engine.py] are the truncated values of exact
    arithmetic on the clamped percentage, and the opacity is the one of
    the clamped percentage. *)
Definition curves_ok (intensity : Z) : bool :=
  let p := Spec.clamp_intensity intensity in
  match opacity_of intensity, opacity_of p with
  | Some o, Some o' =>
      Float64.eqb o o'
      && match BlurEngineAdvanced.pixel_size_of o with
         | Some b => b =? 3 + 27 * p / 100
         | None => false
         end
      && match BlurEngine.kernel_size_of o with
         | Some k => k =? force_odd (3 + 48 * p / 100)
         | None => false
         end
      && match BlurEngine.pixel_size_of o with
         | Some b => b =? 2 + 18 * p / 100
         | None => false
         end
  | _, _ => false
  end.

(** ** Data for the worked examples *)

Module Examples.
Import Numpy.

Definition frame2x2 : ndarray :=
  [[(200, 200, 200); (10, 20, 30)];
   [(1, 2, 3); (250, 250, 250)]].

(** A region over the top-left pixel. *)
Definition top_left (blur_type : BlurType) (intensity start_frame end_frame : Z)
  : BlurRegion.t :=
  BlurRegion.__init__ 0 0 1 1 blur_type intensity CUSTOM_TEXT
                      start_frame end_frame.

(** A region over the bottom-right pixel. *)
Definition bottom_right (blur_type : BlurType)
    (intensity start_frame end_frame : Z) : BlurRegion.t :=
  BlurRegion.__init__ 1 1 1 1 blur_type intensity CUSTOM_TEXT
                      start_frame end_frame.

(** A region that starts right of a two-pixel-wide frame. *)
Definition off_frame : BlurRegion.t :=
  BlurRegion.__init__ 5 0 1 1 BLACK_BOX 100 CUSTOM_TEXT 0 (-1).

(** A region whose intensity does not fit a double. *)
Definition too_intense : BlurRegion.t :=
  BlurRegion.__init__ 0 0 1 1 BLACK_BOX (2 ^ 1024) CUSTOM_TEXT 0 (-1).

Definition no_detection (frame : ndarray) : list (Z * Z * Z * Z) := [].

Definition clip_of (frames : list ndarray) : VideoCapture.t :=
  {| VideoCapture.isOpened := true;
     VideoCapture.FPS := 30;
     VideoCapture.FRAME_WIDTH := 2;
     VideoCapture.FRAME_HEIGHT := 2;
     VideoCapture.FRAME_COUNT := Z.of_nat (length frames);
     VideoCapture.frames := frames |}.

(** The open-ended black box over the top-left pixel, as the window
    stores it. *)
Definition open_rect : AdvancedBlurUI.Rect.t :=
  AdvancedBlurUI.Rect.mk 0 0 1 1 "black_box" 100 "custom_text" 0 (-1).

Definition window (regions : list AdvancedBlurUI.Rect.t) : AdvancedBlurUI.State :=
  AdvancedBlurUI.mkState regions false None None "gaussian" 90 1
    AdvancedBlurUI.Empty 0 30.

(** A saved entry with no area, an intensity of 500 and an end before its
    start. *)
Definition bad_entry : AdvancedBlurUI.RegionData.t :=
  AdvancedBlurUI.RegionData.mk 3 4 0 0 "gaussian" (Some 500) None 10 5.

Definition bad_rect : AdvancedBlurUI.Rect.t :=
  AdvancedBlurUI.Rect.mk 3 4 0 0 "gaussian" 500 "custom_text" 10 5.

(** The window with a drawn rectangle waiting for confirmation. *)
Definition drawing : AdvancedBlurUI.State :=
  AdvancedBlurUI.mkState [open_rect] false None
    (Some (AdvancedBlurUI.Pending.mk 7 8 20 10 2))
    "pixelate" 55 3 AdvancedBlurUI.Empty 0 30.

(** The same window with [inf] typed into the start entry. *)
Definition drawing_at_infinity : AdvancedBlurUI.State :=
  AdvancedBlurUI.mkState [open_rect] false None
    (Some (AdvancedBlurUI.Pending.mk 7 8 20 10 2))
    "pixelate" 55 3 (AdvancedBlurUI.Number (S754_infinity false)) 0 30.



(** A frame that carries its index in every channel, and the video of
    150 such frames. *)
Definition numbered (i : Z) : ndarray := full_like frame2x2 i.

Definition numbered_clip : VideoCapture.t := clip_of (numbered <$> seqZ 0 150).


(** The heap that holds one decoded frame, and that frame as an object. *)
Definition decoded : gmap positive ndarray := {[1%positive := frame2x2]}.

Definition decoded_frame : Heap.array := Heap.mk_array 1 [].

(** A stored region whose blur type is no member of the enumeration. *)
Definition unknown_rect : AdvancedBlurUI.Rect.t :=
  AdvancedBlurUI.Rect.mk 0 0 1 1 "mosaic" 100 "custom_text" 0 10.

(** The window of a video whose frame rate reads as 0. *)
Definition still_window : AdvancedBlurUI.State :=
  AdvancedBlurUI.mkState [open_rect] false None None "gaussian" 90 1
    AdvancedBlurUI.Empty 0 0.

(** A contour analysis that finds one line of text and one speck. *)
Definition two_contours (frame : ndarray) : option (list (Z * Z * Z * Z)) :=
  Some [(0, 0, 30, 15); (1, 1, 5, 5)].

End Examples.

(** * Properties *)

(** ** Temporal membership *)

Lemma is_active_iff (region : BlurRegion.t) (frame_count : Z) :
  is_active region frame_count = true <->
  Spec.active region.(BlurRegion.start_frame) region.(BlurRegion.end_frame)
              frame_count.
Proof.
  unfold is_active, Spec.active.
  rewrite orb_true_iff, !andb_true_iff, !Z.leb_le, Z.eqb_eq. lia.
Qed.

Lemma in_range_iff (rect : AdvancedBlurUI.Rect.t) (frame_number : Z) :
  AdvancedBlurUI.in_range rect frame_number = true <->
  rect.(AdvancedBlurUI.Rect.start_frame) <= frame_number
  <= rect.(AdvancedBlurUI.Rect.end_frame).
Proof.
  unfold AdvancedBlurUI.in_range. rewrite andb_true_iff, !Z.leb_le. lia.
Qed.

Lemma is_active_negative_end (region : BlurRegion.t) (frame_count : Z) :
  region.(BlurRegion.end_frame) < 0 ->
  region.(BlurRegion.end_frame) <> -1 ->
  0 <= frame_count ->
  is_active region frame_count = false.
Proof.
  intros Hneg Hne Hn. apply not_true_is_false. rewrite is_active_iff.
  unfold Spec.active. lia.
Qed.

Section ExportLoop.
Variable apply_blur_region : Numpy.ndarray -> BlurRegion.t -> Numpy.ndarray.
Variable detect_text_regions : Numpy.ndarray -> list (Z * Z * Z * Z).

Lemma apply_manual_regions_app rs1 rs2 n frame :
  apply_manual_regions apply_blur_region (rs1 ++ rs2) n frame =
  apply_manual_regions apply_blur_region rs2 n
    (apply_manual_regions apply_blur_region rs1 n frame).
Proof. unfold apply_manual_regions. apply fold_left_app. Qed.

(** A region whose turn leaves the frame as it is can be dropped from
    the list. *)
Lemma apply_manual_regions_skip rs1 region rs2 n frame :
  (is_active region n = true ->
   apply_blur_region (apply_manual_regions apply_blur_region rs1 n frame) region
   = apply_manual_regions apply_blur_region rs1 n frame) ->
  apply_manual_regions apply_blur_region (rs1 ++ region :: rs2) n frame =
  apply_manual_regions apply_blur_region (rs1 ++ rs2) n frame.
Proof.
  intros Hskip. rewrite !apply_manual_regions_app.
  unfold apply_manual_regions at 1 3. cbn [fold_left].
  destruct (is_active region n); [by rewrite Hskip | done].
Qed.

Lemma read_loop_skip rs1 region rs2 auto_detect frames n total :
  (forall k, n <= k -> is_active region k = false) ->
  read_loop apply_blur_region detect_text_regions (rs1 ++ region :: rs2)
            auto_detect frames n total =
  read_loop apply_blur_region detect_text_regions (rs1 ++ rs2)
            auto_detect frames n total.
Proof.
  intros Hoff. revert n total Hoff.
  induction frames as [|frame frames IH]; intros n total Hoff; [done|].
  cbn [read_loop].
  rewrite apply_manual_regions_skip by (rewrite Hoff by lia; done).
  destruct auto_detect; rewrite IH by (intros; apply Hoff; lia); done.
Qed.

Lemma read_loop_length rs auto_detect frames n total :
  length (read_loop apply_blur_region detect_text_regions rs auto_detect
                    frames n total).1 = length frames.
Proof.
  revert n total. induction frames as [|frame frames IH]; intros n total; [done|].
  cbn [read_loop].
  destruct auto_detect.
  - specialize (IH (n + 1)
      (total + Z.of_nat (length (detect_text_regions
         (apply_manual_regions apply_blur_region rs n frame))))).
    destruct (read_loop _ _ _ _ _ _ _); cbn in *. by rewrite IH.
  - specialize (IH (n + 1) total).
    destruct (read_loop _ _ _ _ _ _ _); cbn in *. by rewrite IH.
Qed.

End ExportLoop.

(** C10: a region whose [end_frame] is negative and not [-1] is active at
    no frame index from 0 on, so the exported video is the one produced
    without it, whatever the engine and the other regions; an [end_frame]
    of exactly [-1] leaves the region active from [start_frame] on. *)
Theorem C10_negative_end_frame_never_active
    (apply_blur_region : Numpy.ndarray -> BlurRegion.t -> Numpy.ndarray)
    (detect_text_regions : Numpy.ndarray -> list (Z * Z * Z * Z))
    (region : BlurRegion.t) :
  region.(BlurRegion.end_frame) < 0 ->
  region.(BlurRegion.end_frame) <> -1 ->
  (forall frame_count, 0 <= frame_count -> is_active region frame_count = false)
  /\ (forall cap rs1 rs2 auto_detect,
        process_video apply_blur_region detect_text_regions cap
                      (rs1 ++ region :: rs2) auto_detect =
        process_video apply_blur_region detect_text_regions cap
                      (rs1 ++ rs2) auto_detect)
  /\ (forall open frame_count,
        open.(BlurRegion.end_frame) = -1 ->
        is_active open frame_count
        = (open.(BlurRegion.start_frame) <=? frame_count)).
Proof.
  intros Hneg Hne. split; [|split].
  - intros n Hn. by apply is_active_negative_end.
  - intros cap rs1 rs2 auto_detect. unfold process_video.
    destruct (negb _); [done|].
    rewrite read_loop_skip; [done|].
    intros k Hk. by apply is_active_negative_end.
  - intros open n Hopen. unfold is_active. rewrite Hopen.
    destruct (_ <=? n) eqn:Hs; cbn; [|done].
    rewrite orb_true_r. done.
Qed.

Lemma C10_witness :
  (-2 < 0 /\ -2 <> -1) /\
  is_active (Examples.top_left BLACK_BOX 100 0 (-2)) 7 = false /\
  process_video (BlurEngineAdvanced.apply_blur_region (cv := RefCV.api))
                Examples.no_detection
                (Examples.clip_of [Examples.frame2x2; Examples.frame2x2])
                [Examples.top_left BLACK_BOX 100 0 (-2)] false =
  process_video (BlurEngineAdvanced.apply_blur_region (cv := RefCV.api))
                Examples.no_detection
                (Examples.clip_of [Examples.frame2x2; Examples.frame2x2])
                [] false.
Proof.
  split; [lia|].
  destruct (C10_negative_end_frame_never_active
              (BlurEngineAdvanced.apply_blur_region (cv := RefCV.api))
              Examples.no_detection
              (Examples.top_left BLACK_BOX 100 0 (-2)))
    as (Hoff & Hsame & _); [cbn; lia | cbn; lia |].
  split; [apply Hoff; lia | apply (Hsame _ [] [])].
Defined.

(** ** The preview compositor and the open end *)

(** A rectangle out of range leaves [result_frame] as it is. *)
Lemma apply_rect_out_of_range {cv : CV2.Api} frame frame_number result_frame rect :
  AdvancedBlurUI.in_range rect frame_number = false ->
  AdvancedBlurUI.apply_rect frame frame_number result_frame rect = Some result_frame.
Proof. intros H. unfold AdvancedBlurUI.apply_rect. by rewrite H. Qed.

(** The preview path has no open end: with [end_frame = -1] a rectangle is
    out of range at every frame index from 0 on. *)
Lemma in_range_open_end rect frame_number :
  rect.(AdvancedBlurUI.Rect.end_frame) = -1 ->
  0 <= frame_number ->
  AdvancedBlurUI.in_range rect frame_number = false.
Proof.
  intros Hend Hn. apply not_true_is_false. rewrite in_range_iff. lia.
Qed.

(** C1: the export loop applies a region exactly at the frame indices of
    the specification's membership rule, but the preview and GIF path does
    not: for the open-ended black box over the top-left pixel, frame 5 is
    in the region's range for the export loop, which blackens the pixel,
    while [apply_blur_effects_for_frame] returns the frame untouched. *)
Theorem C1_preview_path_ignores_open_end :
  AdvancedBlurUI.BlurRegion_of_rect Examples.open_rect
    = Some (Examples.top_left BLACK_BOX 100 0 (-1))
  /\ Spec.active 0 (-1) 5
  /\ is_active (Examples.top_left BLACK_BOX 100 0 (-1)) 5 = true
  /\ apply_manual_regions (BlurEngineAdvanced.apply_blur_region (cv := RefCV.api))
       [Examples.top_left BLACK_BOX 100 0 (-1)] 5 Examples.frame2x2
     = [[(0, 0, 0); (10, 20, 30)]; [(1, 2, 3); (250, 250, 250)]]
  /\ AdvancedBlurUI.in_range Examples.open_rect 5 = false
  /\ AdvancedBlurUI.apply_blur_effects_for_frame (cv := RefCV.api)
       (Examples.window [Examples.open_rect]) Examples.frame2x2 5
     = Some Examples.frame2x2.
Proof.
  split; [reflexivity|]. split; [unfold Spec.active; lia|].
  repeat split; vm_compute; reflexivity.
Qed.

(** ** Failure of one region *)

(** C6: when the processing of a region fails on the frame composited so
    far, or stops at an empty ROI, [apply_blur_region] hands that frame
    back; the loop goes on, and the composited frame is the one obtained
    from the regions that succeeded.  Every decoded frame is written. *)
Theorem C6_failed_region_is_skipped {cv : CV2.Api}
    (detect_text_regions : Numpy.ndarray -> list (Z * Z * Z * Z))
    (rs1 rs2 : list BlurRegion.t) (region : BlurRegion.t)
    (frame_count : Z) (frame : Numpy.ndarray) :
  let before :=
    apply_manual_regions BlurEngineAdvanced.apply_blur_region rs1 frame_count frame in
  (BlurEngineAdvanced.apply_blur_region_try before region = None \/
   BlurEngineAdvanced.apply_blur_region_try before region = Some ReturnFrame) ->
  BlurEngineAdvanced.apply_blur_region before region = before
  /\ apply_manual_regions BlurEngineAdvanced.apply_blur_region
       (rs1 ++ region :: rs2) frame_count frame
     = apply_manual_regions BlurEngineAdvanced.apply_blur_region
         (rs1 ++ rs2) frame_count frame
  /\ (forall cap auto_detect,
        cap.(VideoCapture.isOpened) = true ->
        length (process_video BlurEngineAdvanced.apply_blur_region
                  detect_text_regions cap (rs1 ++ region :: rs2) auto_detect).2
        = length cap.(VideoCapture.frames)).
Proof.
  intros before Hfail.
  assert (Hskip : BlurEngineAdvanced.apply_blur_region before region = before).
  { unfold BlurEngineAdvanced.apply_blur_region,
      BlurEngineAdvanced.apply_blur_region_returned.
    destruct Hfail as [-> | ->]; reflexivity. }
  split; [exact Hskip|]. split.
  - apply apply_manual_regions_skip. intros _. exact Hskip.
  - intros cap auto_detect Hopen. unfold process_video. rewrite Hopen. cbn [negb].
    pose proof (read_loop_length BlurEngineAdvanced.apply_blur_region
                  detect_text_regions (rs1 ++ region :: rs2) auto_detect
                  cap.(VideoCapture.frames) 0 0) as Hlen.
    destruct (read_loop _ _ _ _ _ _ _). exact Hlen.
Qed.

Lemma C6_witness :
  BlurEngineAdvanced.apply_blur_region_try (cv := RefCV.api)
    (apply_manual_regions (BlurEngineAdvanced.apply_blur_region (cv := RefCV.api))
       [Examples.top_left BLACK_BOX 100 0 (-1)] 3 Examples.frame2x2)
    Examples.too_intense = None
  /\ apply_manual_regions (BlurEngineAdvanced.apply_blur_region (cv := RefCV.api))
       ([Examples.top_left BLACK_BOX 100 0 (-1)] ++
        Examples.too_intense :: [Examples.bottom_right WHITE_BOX 100 0 (-1)])
       3 Examples.frame2x2
     = [[(0, 0, 0); (10, 20, 30)]; [(1, 2, 3); (255, 255, 255)]].
Proof.
  split; [vm_compute; reflexivity|].
  destruct (C6_failed_region_is_skipped (cv := RefCV.api) Examples.no_detection
              [Examples.top_left BLACK_BOX 100 0 (-1)]
              [Examples.bottom_right WHITE_BOX 100 0 (-1)]
              Examples.too_intense 3 Examples.frame2x2)
    as (_ & Hsame & _); [left; vm_compute; reflexivity|].
  rewrite Hsame. vm_compute. reflexivity.
Defined.

(** ** The strength curve *)

Lemma forallb_seqZ (P : Z -> bool) (lo n : Z) :
  forallb P (seqZ lo n) = true ->
  forall i, lo <= i < lo + n -> P i = true.
Proof.
  intros H i Hi. rewrite forallb_forall in H. apply H.
  apply list_elem_of_In, elem_of_seqZ. lia.
Qed.

Lemma strength_curve_range (intensity : Z) :
  -1000 <= intensity <= 1000 -> strength_curve_ok intensity = true.
Proof.
  intros Hi. apply (forallb_seqZ strength_curve_ok (-1000) 2001); [|lia].
  vm_cast_no_check (eq_refl true).
Qed.

Lemma strength_curve_facts (intensity : Z) :
  strength_curve_ok intensity = true ->
  exists o,
    opacity_of intensity = Some o
    /\ BlurEngineAdvanced.kernel_size_of o
       = Some (Spec.kernel_size_truncated intensity)
    /\ Float64.gtb o Lit._0_7 = (70 <? intensity)
    /\ Float64.gtb o Lit._0_9 = (90 <? intensity)
    /\ Float64.geb o Lit._0_95 = (95 <=? intensity).
Proof.
  unfold strength_curve_ok. destruct (opacity_of intensity) as [o|]; [|done].
  rewrite !andb_true_iff. intros [[[Hk H7] H9] H95]. exists o.
  destruct (BlurEngineAdvanced.kernel_size_of o) as [k|]; [|done].
  apply Z.eqb_eq in Hk. subst k.
  apply Bool.eqb_prop in H7, H9, H95. done.
Qed.

(** C2, counterexample: at intensity 15 the opacity is 0.15 and
    [15 + 0.15 * 86] is 27.9; the code takes [int] of it and blurs with a
    kernel of 27, where rounding gives 28, forced odd to 29. *)
Lemma C2_counterexample :
  (o ← opacity_of 15; BlurEngineAdvanced.kernel_size_of o) = Some 27
  /\ (o ← opacity_of 15; Spec.kernel_size o) = Some 29.
Proof. split; vm_compute; reflexivity. Qed.

(** C2, amended: for a gaussian region the ROI is blurred once, a second
    time exactly when [o > 0.7] and a third time exactly when [o > 0.9],
    always with the same kernel, in the engine and in the preview path
    alike.  The kernel size is [15 + o * 86] with its fraction dropped,
    not rounded, then forced odd.  For every stored intensity from -1000
    to 1000 the doubles agree with exact arithmetic on the percentage
    clamped to [10, 100]: the kernel is [15 + 86 * p / 100] rounded down
    and forced odd, the second pass is taken above 70 and the third above
    90. *)
Theorem C2_gaussian_strength_curve {cv : CV2.Api} :
  (forall roi width height o,
     BlurEngineAdvanced.blurred_roi_of GAUSSIAN roi width height o
     = (kernel_size ← BlurEngineAdvanced.kernel_size_of o;
        Spec.gaussian_passes (Spec.passes_at o) kernel_size roi)
     /\ AdvancedBlurUI.blurred_roi_of "gaussian" roi width height o
        = BlurEngineAdvanced.blurred_roi_of GAUSSIAN roi width height o)
  /\ (forall intensity,
        -1000 <= intensity <= 1000 ->
        exists o,
          opacity_of intensity = Some o
          /\ BlurEngineAdvanced.kernel_size_of o
             = Some (Spec.kernel_size_truncated intensity)
          /\ Spec.passes_at o = Spec.passes intensity).
Proof.
  split.
  - intros roi width height o. split; [|reflexivity].
    unfold BlurEngineAdvanced.blurred_roi_of, Spec.passes_at.
    destruct (BlurEngineAdvanced.kernel_size_of o) as [k|]; [|done].
    cbn [mbind option_bind].
    destruct (Float64.gtb o Lit._0_7), (Float64.gtb o Lit._0_9); cbn;
      destruct (CV2.GaussianBlur roi (k, k) 0) as [b1|]; cbn; try done;
      destruct (CV2.GaussianBlur b1 (k, k) 0) as [b2|]; cbn; done.
  - intros intensity Hi.
    destruct (strength_curve_facts intensity (strength_curve_range intensity Hi))
      as (o & Ho & Hk & H7 & H9 & _).
    exists o. split; [exact Ho|]. split; [exact Hk|].
    unfold Spec.passes_at, Spec.passes. by rewrite H7, H9.
Qed.

Lemma C2_witness :
  -1000 <= 90 <= 1000
  /\ exists o,
      opacity_of 90 = Some o
      /\ BlurEngineAdvanced.kernel_size_of o = Some 93
      /\ Spec.passes_at o = 2%nat.
Proof.
  split; [lia|].
  destruct (C2_gaussian_strength_curve (cv := RefCV.api)) as [_ Hcurve].
  apply (Hcurve 90). lia.
Defined.

(** ** The animated export *)

Lemma duration_range (fps frame_skip : Z) :
  1 <= fps <= 60 -> 1 <= frame_skip <= 200 ->
  duration_ok (fps, frame_skip) = true.
Proof.
  intros Hfps Hskip.
  assert (H : forallb duration_ok (list_prod (seqZ 1 60) (seqZ 1 200)) = true)
    by (vm_cast_no_check (eq_refl true)).
  rewrite forallb_forall in H. apply H.
  apply in_prod; apply list_elem_of_In, elem_of_seqZ; lia.
Qed.

(** C9, counterexample: at 30 frames per second and a stride of 2 the
    quotient is 66.67; the code writes 66 where rounding gives 67. *)
Lemma C9_counterexample :
  AdvancedBlurUI.duration_ms_of 30 2 = Some 66
  /\ Spec.duration_ms 30 2 = Some 67.
Proof. split; vm_compute; reflexivity. Qed.

(** What [export_frames] hands to [Image.save]: the frames that the
    sampling loop kept, the duration computed from the frame rate of the
    window and the stride, and the loop count 0. *)
Lemma export_frames_unfold {cv : CV2.Api} (self : AdvancedBlurUI.State)
    (cap : VideoCapture.t) (target_frames : Z) :
  let frame_skip :=
    AdvancedBlurUI.frame_skip_of cap.(VideoCapture.FRAME_COUNT) target_frames in
  AdvancedBlurUI.export_frames self cap target_frames
  = ('(new_width, new_height) ←
       AdvancedBlurUI.gif_size cap.(VideoCapture.FRAME_WIDTH)
                               cap.(VideoCapture.FRAME_HEIGHT);
     frames ← AdvancedBlurUI.sample_loop self frame_skip
                cap.(VideoCapture.FRAME_WIDTH) cap.(VideoCapture.FRAME_HEIGHT)
                new_width new_height cap.(VideoCapture.frames) 0;
     match frames with
     | [] => Some None
     | _ =>
         duration_ms ←
           AdvancedBlurUI.duration_ms_of self.(AdvancedBlurUI.fps) frame_skip;
         Some (Some (AdvancedBlurUI.Gif.mk frames duration_ms 0))
     end).
Proof. reflexivity. Qed.

Lemma export_frames_inv {cv : CV2.Api} (self : AdvancedBlurUI.State)
    (cap : VideoCapture.t) (target_frames : Z) (gif : AdvancedBlurUI.Gif.t) :
  AdvancedBlurUI.export_frames self cap target_frames = Some (Some gif) ->
  exists new_width new_height,
    AdvancedBlurUI.gif_size cap.(VideoCapture.FRAME_WIDTH)
                            cap.(VideoCapture.FRAME_HEIGHT)
    = Some (new_width, new_height)
    /\ AdvancedBlurUI.sample_loop self
         (AdvancedBlurUI.frame_skip_of cap.(VideoCapture.FRAME_COUNT)
                                       target_frames)
         cap.(VideoCapture.FRAME_WIDTH) cap.(VideoCapture.FRAME_HEIGHT)
         new_width new_height cap.(VideoCapture.frames) 0
       = Some gif.(AdvancedBlurUI.Gif.frames)
    /\ gif.(AdvancedBlurUI.Gif.frames) <> []
    /\ AdvancedBlurUI.duration_ms_of self.(AdvancedBlurUI.fps)
         (AdvancedBlurUI.frame_skip_of cap.(VideoCapture.FRAME_COUNT)
                                       target_frames)
       = Some gif.(AdvancedBlurUI.Gif.duration)
    /\ gif.(AdvancedBlurUI.Gif.loop) = 0.
Proof.
  rewrite export_frames_unfold. cbv zeta.
  destruct (AdvancedBlurUI.gif_size _ _) as [[new_width new_height]|];
    [|discriminate].
  cbn [mbind option_bind].
  destruct (AdvancedBlurUI.sample_loop _ _ _ _ _ _ _ _) as [[|frame frames]|]
    eqn:Hloop; cbn [mbind option_bind]; try discriminate.
  destruct (AdvancedBlurUI.duration_ms_of _ _) as [d|] eqn:Hduration;
    cbn [mbind option_bind]; [|discriminate].
  intros [= <-]. exists new_width, new_height. done.
Qed.

(** C9, amended: the display duration written with the animation is the
    double [1000 / (fps / frame_skip)] with its fraction dropped, for any
    frame rate and stride for which the export writes an animation, and
    the loop count is 0.  For every rate from 1 to 60 and every stride
    from 1 to 200, each pair being checked on the doubles, the division
    does not fail and the duration is the exact quotient
    [1000 * frame_skip / fps] rounded down, or one less when that quotient
    is a whole number which the two float divisions miss from below (119
    for 25 frames per second and a stride of 3); the export that sampled
    at least one frame writes that duration. *)
Theorem C9_duration_is_truncated {cv : CV2.Api} (fps frame_skip : Z) :
  1 <= fps <= 60 -> 1 <= frame_skip <= 200 ->
  exists d,
    AdvancedBlurUI.duration_ms_of fps frame_skip = Some d
    /\ (d = 1000 * frame_skip / fps
        \/ (d = 1000 * frame_skip / fps - 1
            /\ (1000 * frame_skip) mod fps = 0))
    /\ d * fps <= 1000 * frame_skip
    /\ (forall self cap target_frames new_width new_height frame frames,
          self.(AdvancedBlurUI.fps) = fps ->
          AdvancedBlurUI.frame_skip_of cap.(VideoCapture.FRAME_COUNT)
                                       target_frames = frame_skip ->
          AdvancedBlurUI.gif_size cap.(VideoCapture.FRAME_WIDTH)
                                  cap.(VideoCapture.FRAME_HEIGHT)
          = Some (new_width, new_height) ->
          AdvancedBlurUI.sample_loop self frame_skip
            cap.(VideoCapture.FRAME_WIDTH) cap.(VideoCapture.FRAME_HEIGHT)
            new_width new_height cap.(VideoCapture.frames) 0
          = Some (frame :: frames) ->
          AdvancedBlurUI.export_frames self cap target_frames
          = Some (Some (AdvancedBlurUI.Gif.mk (frame :: frames) d 0)))
    /\ (forall self cap target_frames gif,
          AdvancedBlurUI.export_frames self cap target_frames
          = Some (Some gif) ->
          gif.(AdvancedBlurUI.Gif.loop) = 0
          /\ exists rate quotient,
               Py.int_truediv_int self.(AdvancedBlurUI.fps)
                 (AdvancedBlurUI.frame_skip_of cap.(VideoCapture.FRAME_COUNT)
                                               target_frames) = Some rate
               /\ Py.int_truediv_float 1000 rate = Some quotient
               /\ Float64.to_Z_trunc quotient
                  = Some gif.(AdvancedBlurUI.Gif.duration)).
Proof.
  intros Hfps Hskip. pose proof (duration_range fps frame_skip Hfps Hskip) as H.
  unfold duration_ok in H.
  destruct (AdvancedBlurUI.duration_ms_of fps frame_skip) as [d|] eqn:Hduration;
    [|done].
  exists d. split; [done|].
  assert (Hd : d = 1000 * frame_skip / fps
               \/ d = 1000 * frame_skip / fps - 1
                  /\ (1000 * frame_skip) mod fps = 0).
  { apply orb_true_iff in H as [H|H].
    - left. by apply Z.eqb_eq.
    - right. apply andb_true_iff in H as [H1 H2].
      split; [by apply Z.eqb_eq | by apply Z.eqb_eq]. }
  split; [exact Hd|]. split.
  { pose proof (Z.mul_div_le (1000 * frame_skip) fps ltac:(lia)).
    destruct Hd as [-> | [-> _]]; nia. }
  split.
  - intros self cap target_frames new_width new_height frame frames
      Hrate Hstride Hsize Hloop.
    rewrite export_frames_unfold. cbv zeta.
    rewrite Hsize. cbn [mbind option_bind]. rewrite Hstride, Hloop.
    cbn [mbind option_bind]. rewrite Hrate, Hduration. reflexivity.
  - intros self cap target_frames gif Hexport.
    destruct (export_frames_inv self cap target_frames gif Hexport)
      as (new_width & new_height & _ & _ & _ & Hwritten & Hloop).
    split; [exact Hloop|].
    unfold AdvancedBlurUI.duration_ms_of in Hwritten.
    destruct (Py.int_truediv_int _ _) as [rate|] eqn:Hrate; [|discriminate].
    cbn [mbind option_bind] in Hwritten.
    destruct (Py.int_truediv_float 1000 rate) as [quotient|] eqn:Hquotient;
      [|discriminate].
    cbn [mbind option_bind] in Hwritten.
    exists rate, quotient. done.
Qed.

Lemma C9_witness :
  (1 <= 30 <= 60 /\ 1 <= 2 <= 200)
  /\ AdvancedBlurUI.export_frames (cv := RefCV.api)
       (Examples.window [Examples.open_rect])
       (Examples.clip_of (replicate 30 Examples.frame2x2)) 15
     = Some (Some (AdvancedBlurUI.Gif.mk
                     (replicate 15 (AdvancedBlurUI.BGR2RGB Examples.frame2x2))
                     66 0)).
Proof.
  split; [lia|].
  destruct (C9_duration_is_truncated (cv := RefCV.api) 30 2)
    as (d & Hd & _ & _ & Hexport & _); [lia | lia |].
  assert (d = 66) as -> by (vm_compute in Hd; congruence).
  apply (Hexport (Examples.window [Examples.open_rect])
                 (Examples.clip_of (replicate 30 Examples.frame2x2)) 15 2 2);
    vm_compute; reflexivity.
Defined.

(** The sampling loop keeps the frames whose count is a multiple of the
    stride, in order, each processed with its own count. *)
Lemma sample_loop_filter {cv : CV2.Api} (self : AdvancedBlurUI.State)
    (frame_skip width height new_width new_height : Z)
    (frames : list Numpy.ndarray) (frame_count : Z) :
  AdvancedBlurUI.sample_loop self frame_skip width height new_width new_height
                             frames frame_count
  = mapM (fun p : Z * Numpy.ndarray =>
            AdvancedBlurUI.process_sampled_frame self width height new_width
                                                 new_height p.2 p.1)
         (filter (fun p : Z * Numpy.ndarray => p.1 mod frame_skip = 0)
                 (zip (seqZ frame_count (Z.of_nat (length frames))) frames)).
Proof.
  revert frame_count. induction frames as [|frame frames IH]; intros c; [done|].
  cbn [AdvancedBlurUI.sample_loop length].
  rewrite seqZ_cons by lia.
  replace (Z.pred (Z.of_nat (S (length frames)))) with (Z.of_nat (length frames))
    by lia.
  cbn [zip zip_with]. rewrite filter_cons. cbn [fst].
  replace (Z.succ c) with (c + 1) by lia.
  destruct (decide (c mod frame_skip = 0)) as [Hc|Hc].
  - apply Z.eqb_eq in Hc as ->. cbn [mapM snd fst]. by rewrite IH.
  - apply Z.eqb_neq in Hc as ->. apply IH.
Qed.

Lemma filter_zip_fst {A} (P : Z -> Prop) {dec : forall i, Decision (P i)}
    (indices : list Z) (l : list A) :
  length indices = length l ->
  (filter (fun p : Z * A => P p.1) (zip indices l)).*1 = filter P indices.
Proof.
  revert l. induction indices as [|i indices IH]; intros [|a l] Hlen;
    try done.
  cbn [zip zip_with]. rewrite !filter_cons. cbn [fst].
  destruct (decide (P i)); cbn; rewrite IH by (cbn in Hlen; lia); done.
Qed.

Lemma retained_indices {A} (frame_skip : Z) (frames : list A) :
  (filter (fun p : Z * A => p.1 mod frame_skip = 0)
          (zip (seqZ 0 (Z.of_nat (length frames))) frames)).*1
  = Spec.retained frame_skip (Z.of_nat (length frames)).
Proof.
  unfold Spec.retained.
  pose proof (filter_zip_fst (fun i => i mod frame_skip = 0)
                (seqZ 0 (Z.of_nat (length frames))) frames) as Hzip.
  apply Hzip. rewrite length_seqZ. lia.
Qed.

(** C5: the stride is [max(1, total // target)].  The sampling loop
    visits every decoded frame and processes exactly the frames whose
    index is a multiple of the stride, in order, each with its own index;
    the export writes the frames so obtained, and nothing when there is
    none.  When the processing of the retained frames does not raise, the
    animation has one frame per retained index.  A 150-frame video with a
    target of 15 is sampled with a stride of 10 at the 15 indices
    0, 10, ..., 140. *)
Theorem C5_gif_sampling {cv : CV2.Api} (self : AdvancedBlurUI.State)
    (total_frames target_frames : Z) :
  1 <= total_frames -> 1 <= target_frames ->
  let frame_skip := AdvancedBlurUI.frame_skip_of total_frames target_frames in
  let sampled (frames : list Numpy.ndarray) :=
    filter (fun p : Z * Numpy.ndarray => p.1 mod frame_skip = 0)
           (zip (seqZ 0 (Z.of_nat (length frames))) frames) in
  frame_skip = Z.max 1 (total_frames / target_frames)
  /\ 1 <= frame_skip
  /\ (forall width height new_width new_height frames,
        (sampled frames).*1
        = Spec.retained frame_skip (Z.of_nat (length frames))
        /\ AdvancedBlurUI.sample_loop self frame_skip width height new_width
                                      new_height frames 0
           = mapM (fun p : Z * Numpy.ndarray =>
                     AdvancedBlurUI.process_sampled_frame self width height
                       new_width new_height p.2 p.1) (sampled frames)
        /\ (Forall (fun p : Z * Numpy.ndarray =>
                      is_Some (AdvancedBlurUI.process_sampled_frame self width
                                 height new_width new_height p.2 p.1))
                   (sampled frames) ->
            exists kept,
              AdvancedBlurUI.sample_loop self frame_skip width height new_width
                                         new_height frames 0 = Some kept
              /\ Forall2 (fun (p : Z * Numpy.ndarray) processed =>
                            AdvancedBlurUI.process_sampled_frame self width
                              height new_width new_height p.2 p.1
                            = Some processed)
                         (sampled frames) kept
              /\ length kept
                 = length (Spec.retained frame_skip
                             (Z.of_nat (length frames)))))
  /\ (forall cap,
        cap.(VideoCapture.FRAME_COUNT) = total_frames ->
        AdvancedBlurUI.export_frames self cap target_frames
        = ('(new_width, new_height) ←
             AdvancedBlurUI.gif_size cap.(VideoCapture.FRAME_WIDTH)
                                     cap.(VideoCapture.FRAME_HEIGHT);
           kept ← mapM (fun p : Z * Numpy.ndarray =>
                          AdvancedBlurUI.process_sampled_frame self
                            cap.(VideoCapture.FRAME_WIDTH)
                            cap.(VideoCapture.FRAME_HEIGHT)
                            new_width new_height p.2 p.1)
                       (sampled cap.(VideoCapture.frames));
           match kept with
           | [] => Some None
           | _ =>
               duration_ms ←
                 AdvancedBlurUI.duration_ms_of self.(AdvancedBlurUI.fps)
                                               frame_skip;
               Some (Some (AdvancedBlurUI.Gif.mk kept duration_ms 0))
           end))
  /\ AdvancedBlurUI.frame_skip_of 150 15 = 10
  /\ (forall frames : list Numpy.ndarray,
        length frames = 150%nat ->
        (filter (fun p : Z * Numpy.ndarray => p.1 mod 10 = 0)
                (zip (seqZ 0 (Z.of_nat (length frames))) frames)).*1
        = [0; 10; 20; 30; 40; 50; 60; 70; 80; 90; 100; 110; 120; 130; 140]).
Proof.
  intros Htotal Htarget frame_skip sampled.
  assert (Hskip : 1 <= frame_skip)
    by (unfold frame_skip, AdvancedBlurUI.frame_skip_of; lia).
  split; [reflexivity|]. split; [exact Hskip|]. split; [|split; [|split]].
  - intros width height new_width new_height frames.
    split; [apply retained_indices|].
    rewrite sample_loop_filter. fold (sampled frames).
    split; [reflexivity|].
    intros Hall. apply mapM_is_Some in Hall as [kept Hkept].
    exists kept. split; [exact Hkept|].
    pose proof Hkept as Hlength. apply length_mapM in Hlength.
    apply mapM_Some in Hkept.
    split; [exact Hkept|].
    rewrite <- (retained_indices frame_skip frames), length_fmap.
    symmetry. exact Hlength.
  - intros cap Hcount. rewrite export_frames_unfold. cbv zeta.
    rewrite Hcount. fold frame_skip.
    destruct (AdvancedBlurUI.gif_size _ _) as [[new_width new_height]|];
      [|reflexivity].
    cbn [mbind option_bind]. rewrite sample_loop_filter. reflexivity.
  - vm_compute. reflexivity.
  - intros frames Hlen. rewrite (retained_indices 10 frames), Hlen.
    vm_compute. reflexivity.
Qed.

Lemma C5_witness :
  (1 <= 150 /\ 1 <= 15)
  /\ AdvancedBlurUI.export_as_gif (cv := RefCV.api)
       (Examples.window [Examples.open_rect]) Examples.numbered_clip
       (Some false)
     = AdvancedBlurUI.Exported
         (AdvancedBlurUI.Gif.mk
            (Examples.numbered <$>
               [0; 10; 20; 30; 40; 50; 60; 70; 80; 90; 100; 110; 120; 130; 140])
            333 0).
Proof.
  split; [lia|].
  destruct (C5_gif_sampling (cv := RefCV.api)
              (Examples.window [Examples.open_rect]) 150 15)
    as (_ & _ & _ & Hexport & _); [lia | lia |].
  unfold AdvancedBlurUI.export_as_gif.
  cbn [AdvancedBlurUI.regions Examples.window].
  change (negb (VideoCapture.isOpened Examples.numbered_clip)) with false.
  cbv iota. rewrite (Hexport Examples.numbered_clip eq_refl).
  vm_compute. reflexivity.
Defined.

(** ** The region store *)

Lemma load_regions_loop (self : AdvancedBlurUI.State)
    (regions_data : list AdvancedBlurUI.RegionData.t) :
  (fold_left
     (fun self region_data =>
        AdvancedBlurUI.with_regions self
          (self.(AdvancedBlurUI.regions) ++
           [AdvancedBlurUI.rect_of_region_data region_data]))
     regions_data self).(AdvancedBlurUI.regions)
  = self.(AdvancedBlurUI.regions)
    ++ (AdvancedBlurUI.rect_of_region_data <$> regions_data).
Proof.
  revert self. induction regions_data as [|d ds IH]; intros self; cbn.
  - by rewrite app_nil_r.
  - rewrite IH. cbn. by rewrite <- app_assoc.
Qed.

(** C8, counterexample: an entry of a saved file with no area, an
    intensity of 500 and an end before its start enters the store as it
    is. *)
Lemma C8_counterexample :
  (AdvancedBlurUI.load_regions (Examples.window []) [Examples.bad_entry])
    .(AdvancedBlurUI.regions) = [Examples.bad_rect]
  /\ ~ Spec.validated Examples.bad_rect.
Proof.
  split; [reflexivity|]. unfold Spec.validated. cbn. lia.
Qed.

(** The start second that the methods read: the one of the pending
    rectangle when the entry is empty, does not parse or reads as a NaN,
    the integer part of the number in the entry, and no value at all for
    an infinity. *)
Lemma start_second_of_cases (self : AdvancedBlurUI.State)
    (pending : AdvancedBlurUI.Pending.t) :
  match self.(AdvancedBlurUI.start_second_var) with
  | AdvancedBlurUI.Number (S754_infinity _) =>
      AdvancedBlurUI.start_second_of self pending = None
  | AdvancedBlurUI.Number (S754_finite s m e) =>
      AdvancedBlurUI.start_second_of self pending
      = Float64.to_Z_trunc (S754_finite s m e)
  | AdvancedBlurUI.Number (S754_zero _) =>
      AdvancedBlurUI.start_second_of self pending = Some 0
  | _ =>
      AdvancedBlurUI.start_second_of self pending
      = Some pending.(AdvancedBlurUI.Pending.start_second)
  end.
Proof.
  unfold AdvancedBlurUI.start_second_of.
  destruct self.(AdvancedBlurUI.start_second_var) as [| |[]]; reflexivity.
Qed.

Lemma start_second_of_None (self : AdvancedBlurUI.State)
    (pending : AdvancedBlurUI.Pending.t) :
  AdvancedBlurUI.start_second_of self pending = None <->
  exists sign,
    self.(AdvancedBlurUI.start_second_var)
    = AdvancedBlurUI.Number (S754_infinity sign).
Proof.
  pose proof (start_second_of_cases self pending) as Hcases. split.
  - intros Hnone. rewrite Hnone in Hcases.
    destruct self.(AdvancedBlurUI.start_second_var) as [| |[s|s| |s m e]];
      try discriminate; by exists s.
  - intros [sign Hentry]. by rewrite Hentry in Hcases.
Qed.

Lemma confirm_pending (self : AdvancedBlurUI.State)
    (pending : AdvancedBlurUI.Pending.t) :
  self.(AdvancedBlurUI.rectangle_held) = false ->
  self.(AdvancedBlurUI.pending_rectangle) = Some pending ->
  AdvancedBlurUI.confirm_rectangle_try self
  = (start_second ← AdvancedBlurUI.start_second_of self pending;
     Some (AdvancedBlurUI.mkState
             (self.(AdvancedBlurUI.regions)
              ++ [AdvancedBlurUI.rect_of_pending self pending start_second])
             false self.(AdvancedBlurUI.held_rectangle)
             None self.(AdvancedBlurUI.blur_type_var)
             self.(AdvancedBlurUI.opacity_var)
             self.(AdvancedBlurUI.duration_var)
             self.(AdvancedBlurUI.start_second_var)
             self.(AdvancedBlurUI.current_second) self.(AdvancedBlurUI.fps))).
Proof.
  intros Hheld Hpending. unfold AdvancedBlurUI.confirm_rectangle_try.
  rewrite Hheld, Hpending. reflexivity.
Qed.

Lemma confirm_held (self : AdvancedBlurUI.State) (held : AdvancedBlurUI.Rect.t) :
  self.(AdvancedBlurUI.rectangle_held) = true ->
  self.(AdvancedBlurUI.held_rectangle) = Some held ->
  AdvancedBlurUI.confirm_rectangle_try self
  = Some (AdvancedBlurUI.mkState
            (self.(AdvancedBlurUI.regions) ++ [held]) false None
            None self.(AdvancedBlurUI.blur_type_var)
            self.(AdvancedBlurUI.opacity_var)
            self.(AdvancedBlurUI.duration_var)
            self.(AdvancedBlurUI.start_second_var)
            self.(AdvancedBlurUI.current_second) self.(AdvancedBlurUI.fps)).
Proof.
  intros Hheld Hrect. unfold AdvancedBlurUI.confirm_rectangle_try.
  rewrite Hheld, Hrect. reflexivity.
Qed.

(** C8, amended: nothing is validated when a region is added.
    [load_regions] replaces the store by the entries of the file, field
    for field, a missing intensity becoming 90; [confirm_rectangle]
    appends the held rectangle as it is, or else the pending one with the
    intensity of the slider and the frames of the start second and of the
    start second plus the duration, whatever these values are.  The only
    rectangle that is not added is a pending one confirmed while the
    start entry reads as an infinity: [int] raises [OverflowError], which
    is not caught, and the window stays as it was.  A stored region whose
    end lies before its start and is not [-1] is active at no frame of the
    export. *)
Theorem C8_regions_are_stored_as_given :
  (forall self regions_data,
     (AdvancedBlurUI.load_regions self regions_data).(AdvancedBlurUI.regions)
     = AdvancedBlurUI.rect_of_region_data <$> regions_data)
  /\ (forall self held,
        self.(AdvancedBlurUI.rectangle_held) = true ->
        self.(AdvancedBlurUI.held_rectangle) = Some held ->
        AdvancedBlurUI.confirm_rectangle_try self <> None
        /\ (AdvancedBlurUI.confirm_rectangle self).(AdvancedBlurUI.regions)
           = self.(AdvancedBlurUI.regions) ++ [held])
  /\ (forall self pending,
        self.(AdvancedBlurUI.rectangle_held) = false ->
        self.(AdvancedBlurUI.pending_rectangle) = Some pending ->
        (forall start_second,
           AdvancedBlurUI.start_second_of self pending = Some start_second ->
           AdvancedBlurUI.confirm_rectangle_try self <> None
           /\ (AdvancedBlurUI.confirm_rectangle self).(AdvancedBlurUI.regions)
              = self.(AdvancedBlurUI.regions) ++
                [AdvancedBlurUI.Rect.mk
                   pending.(AdvancedBlurUI.Pending.x)
                   pending.(AdvancedBlurUI.Pending.y)
                   pending.(AdvancedBlurUI.Pending.width)
                   pending.(AdvancedBlurUI.Pending.height)
                   self.(AdvancedBlurUI.blur_type_var)
                   self.(AdvancedBlurUI.opacity_var)
                   "custom_text"
                   (start_second * self.(AdvancedBlurUI.fps))
                   ((start_second + self.(AdvancedBlurUI.duration_var))
                    * self.(AdvancedBlurUI.fps))])
        /\ (AdvancedBlurUI.start_second_of self pending = None ->
            AdvancedBlurUI.confirm_rectangle_try self = None
            /\ AdvancedBlurUI.confirm_rectangle self = self)
        /\ (AdvancedBlurUI.start_second_of self pending = None <->
            exists sign,
              self.(AdvancedBlurUI.start_second_var)
              = AdvancedBlurUI.Number (S754_infinity sign)))
  /\ (forall region frame_count,
        region.(BlurRegion.end_frame) < region.(BlurRegion.start_frame) ->
        region.(BlurRegion.end_frame) <> -1 ->
        is_active region frame_count = false).
Proof.
  split; [|split; [|split]].
  - intros self regions_data. unfold AdvancedBlurUI.load_regions.
    by rewrite load_regions_loop.
  - intros self held Hheld Hrect. unfold AdvancedBlurUI.confirm_rectangle.
    by rewrite (confirm_held self held Hheld Hrect).
  - intros self pending Hheld Hpending.
    unfold AdvancedBlurUI.confirm_rectangle.
    rewrite (confirm_pending self pending Hheld Hpending).
    split; [|split].
    + intros start_second ->. done.
    + intros ->. done.
    + apply start_second_of_None.
  - intros region n Hlt Hne. apply not_true_is_false.
    rewrite is_active_iff. unfold Spec.active. lia.
Qed.

Lemma C8_witness :
  (AdvancedBlurUI.confirm_rectangle Examples.drawing).(AdvancedBlurUI.regions)
  = [Examples.open_rect;
     AdvancedBlurUI.Rect.mk 7 8 20 10 "pixelate" 55 "custom_text" 60 150].
Proof.
  destruct C8_regions_are_stored_as_given as (_ & _ & Hpending & _).
  destruct (Hpending Examples.drawing (AdvancedBlurUI.Pending.mk 7 8 20 10 2)
              eq_refl eq_refl) as [Hadded _].
  exact (proj2 (Hadded 2 eq_refl)).
Defined.

(** ** Reading back what was written *)

Lemma slice_splice {A} (l new : list A) (start stop : Z) :
  length new = length (Py.slice l start stop) ->
  Py.slice (Numpy.splice l start new) start stop = new.
Proof.
  unfold Py.slice, Numpy.splice.
  set (s := Z.to_nat start). set (n := Z.to_nat (stop - start)).
  rewrite length_take, length_drop. intros Hlen.
  destruct (decide (s <= length l)%nat) as [Hs|Hs].
  - rewrite drop_app_length' by (rewrite length_take; lia).
    destruct (decide (length new = n)) as [Hn|Hn].
    + by rewrite take_app_length'.
    + rewrite (drop_ge l) by lia. rewrite app_nil_r. apply take_ge. lia.
  - assert (new = []) as -> by (apply length_zero_iff_nil; lia).
    cbn [app length]. rewrite (take_ge l) by lia. rewrite (drop_ge l) by lia.
    rewrite app_nil_r. rewrite (drop_ge l) by lia. apply take_nil.
Qed.

Lemma same_shapeb_true (a b : Numpy.ndarray) :
  Numpy.same_shapeb a b = true -> Numpy.same_shape a b.
Proof.
  unfold Numpy.same_shapeb, Numpy.same_shape.
  rewrite andb_true_iff, bool_decide_eq_true. intros [Hlen Hrows].
  revert b Hlen Hrows. induction a as [|ra a IH]; intros [|rb b] Hlen Hrows.
  - constructor.
  - discriminate Hlen.
  - discriminate Hlen.
  - cbn in Hrows. apply andb_true_iff in Hrows as [Hrow Hrows].
    apply bool_decide_eq_true in Hrow. constructor; [exact Hrow|].
    apply IH; [cbn in Hlen; lia | exact Hrows].
Qed.

Lemma splice_rows_read_back (rows src : Numpy.ndarray) (x0 x1 : Z) :
  Forall2 (fun new row : list Numpy.Pixel =>
             length new = length (Py.slice row x0 x1)) src rows ->
  (fun row : list Numpy.Pixel => Py.slice row x0 x1)
    <$> zip_with (fun row new : list Numpy.Pixel => Numpy.splice row x0 new)
                 rows src
  = src.
Proof.
  induction 1 as [|new row src rows Hlen _ IH]; [done|].
  cbn. rewrite IH. by rewrite slice_splice.
Qed.

(** After [a[y0:y1, x0:x1] = src], the part reads [src]. *)
Lemma getitem_setitem (a src a' : Numpy.ndarray) (y0 y1 x0 x1 : Z) :
  Numpy.setitem a y0 y1 x0 x1 src = Some a' ->
  Numpy.getitem a' y0 y1 x0 x1 = src.
Proof.
  unfold Numpy.setitem.
  destruct (Numpy.same_shapeb _ _) eqn:Hshape; [|done].
  intros [= <-]. apply same_shapeb_true in Hshape.
  unfold Numpy.same_shape, Numpy.getitem in Hshape.
  apply Forall2_fmap_r in Hshape.
  unfold Numpy.getitem. rewrite slice_splice.
  - by apply splice_rows_read_back.
  - rewrite length_zip_with. apply Forall2_length in Hshape. lia.
Qed.

(** ** Blending *)

(** C3, counterexample: [blur_engine.py] blends a black box of intensity
    50 over a pixel of value 200 with the weights 0.5 and 0.5, giving 100,
    where the rule gives the weights 0.4 and 0.6, hence 80. *)
Lemma C3_counterexample :
  BlurEngine.apply_blur_region_try (cv := RefCV.api) Examples.frame2x2
    (Examples.top_left BLACK_BOX 50 0 (-1))
  = Some (ReturnResult [[(100, 100, 100); (10, 20, 30)];
                        [(1, 2, 3); (250, 250, 250)]])
  /\ (o ← opacity_of 50;
      Spec.blend (cv := RefCV.api) [[(200, 200, 200)]] [[(0, 0, 0)]] o)
     = Some [[(80, 80, 80)]].
Proof. split; vm_compute; reflexivity. Qed.

(** C3, amended: in the advanced engine and in the preview path the
    rectangle of the output holds the transform output itself when the
    opacity is at least 0.95, and otherwise the blend of the original and
    the transformed ROI with the weights [1 - w] and [w = min(1.0, o * 1.2)];
    in [blur_engine.py] it holds their blend with the weights [1 - o] and
    [o] at every opacity. *)
Theorem C3_blending_rule {cv : CV2.Api} (frame : Numpy.ndarray)
    (region : BlurRegion.t) (x y width height : Z) :
  clip frame region = (x, y, width, height) ->
  let roi := Numpy.getitem frame y (y + height) x (x + width) in
  (forall result,
     BlurEngineAdvanced.apply_blur_region_try frame region
       = Some (ReturnResult result) ->
     exists o blurred_roi,
       opacity_of region.(BlurRegion.intensity) = Some o
       /\ BlurEngineAdvanced.blurred_roi_of region.(BlurRegion.blur_type)
            roi width height o = Some blurred_roi
       /\ Spec.blend roi blurred_roi o
          = Some (Numpy.getitem result y (y + height) x (x + width)))
  /\ (forall result,
        BlurEngine.apply_blur_region_try frame region
          = Some (ReturnResult result) ->
        exists o blurred_roi,
          opacity_of region.(BlurRegion.intensity) = Some o
          /\ BlurEngine.blurred_roi_of region.(BlurRegion.blur_type)
               roi width height o = Some blurred_roi
          /\ CV2.addWeighted roi (Float64.sub Lit._1_0 o) blurred_roi o 0
             = Some (Numpy.getitem result y (y + height) x (x + width)))
  /\ (forall rect frame_number result_frame result_frame' rx ry rw rh,
        AdvancedBlurUI.clip_rect frame rect = (rx, ry, rw, rh) ->
        AdvancedBlurUI.in_range rect frame_number = true ->
        let roi := Numpy.getitem result_frame ry (ry + rh) rx (rx + rw) in
        0 < Numpy.size roi ->
        AdvancedBlurUI.apply_rect frame frame_number result_frame rect
          = Some result_frame' ->
        exists o blurred_roi,
          opacity_of rect.(AdvancedBlurUI.Rect.intensity) = Some o
          /\ AdvancedBlurUI.blurred_roi_of rect.(AdvancedBlurUI.Rect.blur_type)
               roi rw rh o = Some blurred_roi
          /\ Spec.blend roi blurred_roi o
             = Some (Numpy.getitem result_frame' ry (ry + rh) rx (rx + rw))).
Proof.
  intros Hclip roi. split; [|split]; cycle 2.
  { intros rect n result_frame result_frame' rx ry rw rh Hrect Hin roi' Hsize.
    unfold AdvancedBlurUI.apply_rect. rewrite Hin, Hrect. fold roi'.
    destruct (Numpy.size roi' >? 0) eqn:Hpos; [|rewrite Z.gtb_ltb, Z.ltb_ge in Hpos; lia].
    destruct (opacity_of _) as [o|]; [|done]. cbn [mbind option_bind].
    destruct (AdvancedBlurUI.blurred_roi_of _ _ _ _ _) as [blurred_roi|] eqn:Hblur;
      [|done]. cbn [mbind option_bind].
    destruct (BlurEngineAdvanced.blended_roi_of roi' blurred_roi o)
      as [blended|] eqn:Hblend; [|done]. cbn [mbind option_bind].
    intros Hset. exists o, blurred_roi. split; [done|]. split; [done|].
    apply getitem_setitem in Hset. rewrite Hset. exact Hblend. }
  - intros result. unfold BlurEngineAdvanced.apply_blur_region_try.
    rewrite Hclip. fold roi.
    destruct (Numpy.size roi =? 0); [done|].
    destruct (opacity_of _) as [o|]; [|done]. cbn [mbind option_bind].
    destruct (BlurEngineAdvanced.blurred_roi_of _ _ _ _ _) as [blurred_roi|] eqn:Hblur;
      [|done]. cbn [mbind option_bind].
    destruct (BlurEngineAdvanced.blended_roi_of roi blurred_roi o)
      as [blended|] eqn:Hblend; [|done]. cbn [mbind option_bind].
    destruct (Numpy.setitem _ _ _ _ _ _) as [result'|] eqn:Hset; [|done].
    cbn [mbind option_bind]. intros [= <-].
    exists o, blurred_roi. split; [done|]. split; [done|].
    apply getitem_setitem in Hset. rewrite Hset. exact Hblend.
  - intros result. unfold BlurEngine.apply_blur_region_try.
    rewrite Hclip. fold roi.
    destruct (Numpy.size roi =? 0); [done|].
    destruct (opacity_of _) as [o|]; [|done]. cbn [mbind option_bind].
    destruct (BlurEngine.blurred_roi_of _ _ _ _ _) as [blurred_roi|] eqn:Hblur;
      [|done]. cbn [mbind option_bind].
    destruct (BlurEngine.blended_roi_of roi blurred_roi o)
      as [blended|] eqn:Hblend; [|done]. cbn [mbind option_bind].
    destruct (Numpy.setitem _ _ _ _ _ _) as [result'|] eqn:Hset; [|done].
    cbn [mbind option_bind]. intros [= <-].
    exists o, blurred_roi. split; [done|]. split; [done|].
    apply getitem_setitem in Hset. rewrite Hset. exact Hblend.
Qed.

Lemma C3_witness :
  clip Examples.frame2x2 (Examples.top_left BLACK_BOX 50 0 (-1)) = (0, 0, 1, 1)
  /\ exists o blurred_roi,
      opacity_of 50 = Some o
      /\ BlurEngineAdvanced.blurred_roi_of (cv := RefCV.api) BLACK_BOX
           [[(200, 200, 200)]] 1 1 o = Some blurred_roi
      /\ Spec.blend (cv := RefCV.api) [[(200, 200, 200)]] blurred_roi o
         = Some [[(80, 80, 80)]].
Proof.
  split; [reflexivity|].
  destruct (C3_blending_rule (cv := RefCV.api) Examples.frame2x2
              (Examples.top_left BLACK_BOX 50 0 (-1)) 0 0 1 1 eq_refl)
    as [Hadvanced _].
  apply (Hadvanced [[(80, 80, 80); (10, 20, 30)]; [(1, 2, 3); (250, 250, 250)]]).
  vm_compute. reflexivity.
Defined.

(** ** Clipping *)




(** * Further properties of the engines and of the window *)

(** ** Writing into a part of an array *)

Lemma length_slice {A} (l : list A) (start stop : Z) :
  length (Py.slice l start stop)
  = (Z.to_nat (stop - start) `min` (length l - Z.to_nat start))%nat.
Proof. unfold Py.slice. by rewrite length_take, length_drop. Qed.

(** Writing a part back over itself changes nothing. *)
Lemma splice_slice {A} (l : list A) (start stop : Z) :
  Numpy.splice l start (Py.slice l start stop) = l.
Proof.
  unfold Numpy.splice. rewrite length_slice. unfold Py.slice.
  set (s := Z.to_nat start). set (n := Z.to_nat (stop - start)).
  rewrite <- drop_drop.
  replace (length l - s)%nat with (length (drop s l)) by apply length_drop.
  set (rest := drop s l).
  assert (Hrest : take n rest ++ drop (n `min` length rest) rest = rest).
  { destruct (decide (n <= length rest)%nat).
    - rewrite Nat.min_l by lia. apply take_drop.
    - rewrite Nat.min_r by lia. rewrite take_ge by lia.
      rewrite drop_ge by lia. apply app_nil_r. }
  rewrite Hrest. apply take_drop.
Qed.

Lemma length_splice {A} (l new : list A) (start stop : Z) :
  length new = length (Py.slice l start stop) ->
  length (Numpy.splice l start new) = length l.
Proof.
  rewrite length_slice. unfold Numpy.splice. intros Hlen.
  rewrite !length_app, length_take, length_drop. lia.
Qed.

Lemma lookup_splice_outside {A} (l new : list A) (start stop : Z) (i : nat) :
  length new = length (Py.slice l start stop) ->
  (i < Z.to_nat start \/ Z.to_nat start + length new <= i)%nat ->
  Numpy.splice l start new !! i = l !! i.
Proof.
  rewrite length_slice. unfold Numpy.splice.
  set (s := Z.to_nat start). intros Hlen Hi.
  destruct (decide (s <= length l)%nat) as [Hs|Hs].
  - destruct Hi as [Hi|Hi].
    + rewrite lookup_app_l by (rewrite length_take; lia).
      by apply lookup_take_lt.
    + rewrite lookup_app_r by (rewrite length_take; lia).
      rewrite lookup_app_r by (rewrite length_take; lia).
      rewrite lookup_drop, length_take. f_equal. lia.
  - assert (new = []) as -> by (apply length_zero_iff_nil; lia).
    cbn [app length]. rewrite (take_ge l) by lia. rewrite (drop_ge l) by lia.
    by rewrite app_nil_r.
Qed.

Lemma lookup_splice_inside {A} (l new : list A) (start : Z) (i : nat) :
  (Z.to_nat start <= length l)%nat ->
  (Z.to_nat start <= i < Z.to_nat start + length new)%nat ->
  Numpy.splice l start new !! i = new !! (i - Z.to_nat start)%nat.
Proof.
  unfold Numpy.splice. intros Hs Hi.
  rewrite lookup_app_r by (rewrite length_take; lia).
  rewrite length_take, Nat.min_l by lia.
  apply lookup_app_l. lia.
Qed.

Lemma same_shape_refl (a : Numpy.ndarray) : Numpy.same_shape a a.
Proof. unfold Numpy.same_shape. induction a; constructor; done. Qed.

Lemma same_shape_sym (a b : Numpy.ndarray) :
  Numpy.same_shape a b -> Numpy.same_shape b a.
Proof.
  unfold Numpy.same_shape. induction 1; constructor; done.
Qed.

Lemma same_shape_trans (a b c : Numpy.ndarray) :
  Numpy.same_shape a b -> Numpy.same_shape b c -> Numpy.same_shape a c.
Proof.
  unfold Numpy.same_shape. intros Hab. revert c.
  induction Hab as [|ra rb a b Hr _ IH]; intros c Hbc; inversion Hbc; subst;
    constructor; [congruence | by apply IH].
Qed.

Lemma same_shape_shapes (a b : Numpy.ndarray) :
  Numpy.same_shape a b ->
  Numpy.shape0 a = Numpy.shape0 b /\ Numpy.shape1 a = Numpy.shape1 b.
Proof.
  unfold Numpy.same_shape, Numpy.shape0, Numpy.shape1.
  destruct 1 as [|ra rb a b Hr Hrest]; [done|].
  apply Forall2_length in Hrest. cbn. lia.
Qed.

Lemma same_shape_true (a b : Numpy.ndarray) :
  Numpy.same_shape a b -> Numpy.same_shapeb a b = true.
Proof.
  unfold Numpy.same_shape, Numpy.same_shapeb. intros H.
  rewrite andb_true_iff, bool_decide_eq_true.
  split; [by eapply Forall2_length|].
  induction H as [|ra rb a b Hr _ IH]; [done|].
  cbn. rewrite andb_true_iff, bool_decide_eq_true. done.
Qed.

Lemma splice_rows_same_shape (rows src : Numpy.ndarray) (x0 x1 : Z) :
  Forall2 (fun new row : list Numpy.Pixel =>
             length new = length (Py.slice row x0 x1)) src rows ->
  Numpy.same_shape
    (zip_with (fun row new : list Numpy.Pixel => Numpy.splice row x0 new)
              rows src)
    rows.
Proof.
  unfold Numpy.same_shape.
  induction 1 as [|new row src rows Hlen _ IH]; [constructor|].
  cbn. constructor; [exact (length_splice row new x0 x1 Hlen) | exact IH].
Qed.

Lemma splice_same_shape (a rows' : Numpy.ndarray) (y0 y1 : Z) :
  Numpy.same_shape rows' (Py.slice a y0 y1) ->
  Numpy.same_shape (Numpy.splice a y0 rows') a.
Proof.
  intros Hrows.
  assert (H : Numpy.same_shape (Numpy.splice a y0 rows')
                (Numpy.splice a y0 (Py.slice a y0 y1))).
  { unfold Numpy.splice, Numpy.same_shape in *.
    rewrite (Forall2_length _ _ _ Hrows).
    apply Forall2_app; [apply same_shape_refl|].
    apply Forall2_app; [exact Hrows | apply same_shape_refl]. }
  by rewrite splice_slice in H.
Qed.

(** What [setitem] checked before it wrote. *)
Lemma setitem_inv (a src a' : Numpy.ndarray) (y0 y1 x0 x1 : Z) :
  Numpy.setitem a y0 y1 x0 x1 src = Some a' ->
  Forall2 (fun new row : list Numpy.Pixel =>
             length new = length (Py.slice row x0 x1)) src (Py.slice a y0 y1)
  /\ a' = Numpy.splice a y0
            (zip_with (fun row new : list Numpy.Pixel => Numpy.splice row x0 new)
                      (Py.slice a y0 y1) src).
Proof.
  unfold Numpy.setitem.
  destruct (Numpy.same_shapeb _ _) eqn:Hshape; [|done].
  intros [= <-]. apply same_shapeb_true in Hshape.
  unfold Numpy.same_shape, Numpy.getitem in Hshape.
  apply Forall2_fmap_r in Hshape. done.
Qed.

(** An assignment to a part does not change the shape of the array. *)
Lemma setitem_same_shape (a src a' : Numpy.ndarray) (y0 y1 x0 x1 : Z) :
  Numpy.setitem a y0 y1 x0 x1 src = Some a' -> Numpy.same_shape a' a.
Proof.
  intros Hset. apply setitem_inv in Hset as [Hshape ->].
  apply (splice_same_shape a _ y0 y1).
  exact (splice_rows_same_shape _ src x0 x1 Hshape).
Qed.

(** An assignment to a part leaves every pixel outside the part as it
    was. *)
Lemma setitem_pixel_outside (a src a' : Numpy.ndarray) (y0 y1 x0 x1 : Z)
    (i j : nat) :
  Numpy.setitem a y0 y1 x0 x1 src = Some a' ->
  0 <= y0 -> 0 <= x0 ->
  ~ (y0 <= Z.of_nat i < y1 /\ x0 <= Z.of_nat j < x1) ->
  Numpy.pixel a' i j = Numpy.pixel a i j.
Proof.
  intros Hset Hy0 Hx0 Hout. apply setitem_inv in Hset as [Hshape ->].
  set (rows := Py.slice a y0 y1) in *.
  set (rows' := zip_with _ rows src).
  assert (Hlen' : length rows' = length rows).
  { unfold rows'. rewrite length_zip_with.
    apply Forall2_length in Hshape. lia. }
  assert (Hrows : length rows
                  = (Z.to_nat (y1 - y0) `min` (length a - Z.to_nat y0))%nat)
    by apply length_slice.
  unfold Numpy.pixel.
  destruct (decide (Z.to_nat y0 <= i < Z.to_nat y0 + length rows')%nat)
    as [Hin|Hnot].
  - rewrite lookup_splice_inside by lia.
    assert (Hrow : rows !! (i - Z.to_nat y0)%nat = a !! i).
    { unfold rows, Py.slice. rewrite lookup_take_lt by lia.
      rewrite lookup_drop. f_equal. lia. }
    unfold rows'. rewrite lookup_zip_with, Hrow.
    destruct (a !! i) as [row|] eqn:Hai; [|done]. cbn.
    destruct (src !! (i - Z.to_nat y0)%nat) as [new|] eqn:Hnew; cbn.
    + assert (Hnewlen : length new = length (Py.slice row x0 x1)).
      { exact (Forall2_lookup_lr _ src rows _ _ _ Hshape Hnew Hrow). }
      apply (lookup_splice_outside row new x0 x1 j Hnewlen).
      rewrite Hnewlen, length_slice. lia.
    + apply lookup_ge_None in Hnew. apply Forall2_length in Hshape.
      exfalso. lia.
  - rewrite (lookup_splice_outside a rows' y0 y1 i Hlen') by lia. done.
Qed.

(** Writing the part that was read gives the array back. *)
Lemma setitem_getitem (a : Numpy.ndarray) (y0 y1 x0 x1 : Z) :
  Numpy.setitem a y0 y1 x0 x1 (Numpy.getitem a y0 y1 x0 x1) = Some a.
Proof.
  unfold Numpy.setitem. rewrite same_shape_true by apply same_shape_refl.
  f_equal. unfold Numpy.getitem.
  assert (Hrows :
    zip_with (fun row new : list Numpy.Pixel => Numpy.splice row x0 new)
      (Py.slice a y0 y1)
      ((fun row : list Numpy.Pixel => Py.slice row x0 x1) <$> Py.slice a y0 y1)
    = Py.slice a y0 y1).
  { induction (Py.slice a y0 y1) as [|row rows IH]; [done|].
    cbn. rewrite IH. by rewrite splice_slice. }
  rewrite Hrows. apply splice_slice.
Qed.

(** ** What a region may change *)

(** When the advanced engine returns a new array, that array is the frame
    with one assignment to the clipped rectangle. *)
Lemma advanced_try_inv {cv : CV2.Api} (frame result : Numpy.ndarray)
    (region : BlurRegion.t) (x y width height : Z) :
  clip frame region = (x, y, width, height) ->
  BlurEngineAdvanced.apply_blur_region_try frame region
    = Some (ReturnResult result) ->
  exists blended,
    Numpy.setitem frame y (y + height) x (x + width) blended = Some result.
Proof.
  intros Hclip. unfold BlurEngineAdvanced.apply_blur_region_try. rewrite Hclip.
  destruct (Numpy.size _ =? 0); [done|].
  destruct (opacity_of _) as [o|]; [|done]. cbn [mbind option_bind].
  destruct (BlurEngineAdvanced.blurred_roi_of _ _ _ _ _) as [blurred_roi|];
    [|done]. cbn [mbind option_bind].
  destruct (BlurEngineAdvanced.blended_roi_of _ _ _) as [blended|]; [|done].
  cbn [mbind option_bind].
  destruct (Numpy.setitem _ _ _ _ _ _) as [result'|] eqn:Hset; [|done].
  cbn [mbind option_bind]. intros [= <-]. by exists blended.
Qed.

Lemma basic_try_inv {cv : CV2.Api} (frame result : Numpy.ndarray)
    (region : BlurRegion.t) (x y width height : Z) :
  clip frame region = (x, y, width, height) ->
  BlurEngine.apply_blur_region_try frame region = Some (ReturnResult result) ->
  exists blended,
    Numpy.setitem frame y (y + height) x (x + width) blended = Some result.
Proof.
  intros Hclip. unfold BlurEngine.apply_blur_region_try. rewrite Hclip.
  destruct (Numpy.size _ =? 0); [done|].
  destruct (opacity_of _) as [o|]; [|done]. cbn [mbind option_bind].
  destruct (BlurEngine.blurred_roi_of _ _ _ _ _) as [blurred_roi|];
    [|done]. cbn [mbind option_bind].
  destruct (BlurEngine.blended_roi_of _ _ _) as [blended|]; [|done].
  cbn [mbind option_bind].
  destruct (Numpy.setitem _ _ _ _ _ _) as [result'|] eqn:Hset; [|done].
  cbn [mbind option_bind]. intros [= <-]. by exists blended.
Qed.

Lemma clip_nonneg (frame : Numpy.ndarray) (region : BlurRegion.t)
    (x y width height : Z) :
  clip frame region = (x, y, width, height) -> 0 <= x /\ 0 <= y.
Proof. unfold clip. intros [= <- <- <- <-]. lia. Qed.

Lemma advanced_apply_same_shape {cv : CV2.Api} (frame : Numpy.ndarray)
    (region : BlurRegion.t) :
  Numpy.same_shape (BlurEngineAdvanced.apply_blur_region frame region) frame.
Proof.
  unfold BlurEngineAdvanced.apply_blur_region,
    BlurEngineAdvanced.apply_blur_region_returned.
  destruct (BlurEngineAdvanced.apply_blur_region_try frame region)
    as [[|result]|] eqn:Htry; cbn; try apply same_shape_refl.
  destruct (clip frame region) as [[[x y] width] height] eqn:Hclip.
  destruct (advanced_try_inv _ _ _ _ _ _ _ Hclip Htry) as [blended Hset].
  by eapply setitem_same_shape.
Qed.

Lemma basic_apply_same_shape {cv : CV2.Api} (frame : Numpy.ndarray)
    (region : BlurRegion.t) :
  Numpy.same_shape (BlurEngine.apply_blur_region frame region) frame.
Proof.
  unfold BlurEngine.apply_blur_region, BlurEngine.apply_blur_region_returned.
  destruct (BlurEngine.apply_blur_region_try frame region)
    as [[|result]|] eqn:Htry; cbn; try apply same_shape_refl.
  destruct (clip frame region) as [[[x y] width] height] eqn:Hclip.
  destruct (basic_try_inv _ _ _ _ _ _ _ Hclip Htry) as [blended Hset].
  by eapply setitem_same_shape.
Qed.

(** X1: whatever the region and whatever OpenCV does, the frame that
    [apply_blur_region] returns has the shape of the frame it was given,
    and every pixel outside the clipped rectangle is the pixel of the
    input; this holds in both engines. *)
Theorem X1_region_changes_only_its_rectangle {cv : CV2.Api}
    (frame : Numpy.ndarray) (region : BlurRegion.t) (x y width height : Z) :
  clip frame region = (x, y, width, height) ->
  (Numpy.same_shape (BlurEngineAdvanced.apply_blur_region frame region) frame
   /\ forall i j : nat,
        ~ (y <= Z.of_nat i < y + height /\ x <= Z.of_nat j < x + width) ->
        Numpy.pixel (BlurEngineAdvanced.apply_blur_region frame region) i j
        = Numpy.pixel frame i j)
  /\ (Numpy.same_shape (BlurEngine.apply_blur_region frame region) frame
      /\ forall i j : nat,
           ~ (y <= Z.of_nat i < y + height /\ x <= Z.of_nat j < x + width) ->
           Numpy.pixel (BlurEngine.apply_blur_region frame region) i j
           = Numpy.pixel frame i j).
Proof.
  intros Hclip. destruct (clip_nonneg _ _ _ _ _ _ Hclip) as [Hx Hy].
  split; (split; [first [apply advanced_apply_same_shape
                        | apply basic_apply_same_shape]|]); intros i j Hout.
  - unfold BlurEngineAdvanced.apply_blur_region,
      BlurEngineAdvanced.apply_blur_region_returned.
    destruct (BlurEngineAdvanced.apply_blur_region_try frame region)
      as [[|result]|] eqn:Htry; cbn; try done.
    destruct (advanced_try_inv _ _ _ _ _ _ _ Hclip Htry) as [blended Hset].
    by eapply setitem_pixel_outside.
  - unfold BlurEngine.apply_blur_region, BlurEngine.apply_blur_region_returned.
    destruct (BlurEngine.apply_blur_region_try frame region)
      as [[|result]|] eqn:Htry; cbn; try done.
    destruct (basic_try_inv _ _ _ _ _ _ _ Hclip Htry) as [blended Hset].
    by eapply setitem_pixel_outside.
Qed.

Lemma X1_witness :
  clip Examples.frame2x2 (Examples.top_left BLACK_BOX 50 0 (-1)) = (0, 0, 1, 1)
  /\ Numpy.pixel (BlurEngineAdvanced.apply_blur_region (cv := RefCV.api)
                    Examples.frame2x2 (Examples.top_left BLACK_BOX 50 0 (-1)))
                 1 1
     = Some (250, 250, 250)
  /\ Numpy.pixel (BlurEngineAdvanced.apply_blur_region (cv := RefCV.api)
                    Examples.frame2x2 (Examples.top_left BLACK_BOX 50 0 (-1)))
                 0 0
     = Some (80, 80, 80).
Proof.
  split; [reflexivity|]. split; [|vm_compute; reflexivity].
  destruct (X1_region_changes_only_its_rectangle (cv := RefCV.api)
              Examples.frame2x2 (Examples.top_left BLACK_BOX 50 0 (-1))
              0 0 1 1 eq_refl) as [[_ Hout] _].
  rewrite (Hout 1%nat 1%nat) by (cbn; lia). reflexivity.
Defined.

(** ** The shape of the exported frames *)

Section ShapeOfTheExport.
Variable apply_blur_region : Numpy.ndarray -> BlurRegion.t -> Numpy.ndarray.
Variable detect_text_regions : Numpy.ndarray -> list (Z * Z * Z * Z).
Hypothesis apply_same_shape :
  forall frame region, Numpy.same_shape (apply_blur_region frame region) frame.

Lemma apply_manual_regions_same_shape blur_regions frame_count frame :
  Numpy.same_shape
    (apply_manual_regions apply_blur_region blur_regions frame_count frame)
    frame.
Proof.
  revert frame. induction blur_regions as [|region rs IH]; intros frame.
  - apply same_shape_refl.
  - cbn [apply_manual_regions fold_left].
    eapply same_shape_trans; [apply IH|].
    destruct (is_active region frame_count);
      [apply apply_same_shape | apply same_shape_refl].
Qed.

Lemma apply_detected_regions_same_shape text_regions frame_count frame :
  Numpy.same_shape
    (apply_detected_regions apply_blur_region text_regions frame_count frame)
    frame.
Proof.
  revert frame. induction text_regions as [|[[[x y] w] h] rs IH]; intros frame.
  - apply same_shape_refl.
  - cbn [apply_detected_regions fold_left].
    eapply same_shape_trans; [apply IH | apply apply_same_shape].
Qed.

Lemma read_loop_same_shape blur_regions auto_detect frames frame_count total :
  Forall2 Numpy.same_shape
    (read_loop apply_blur_region detect_text_regions blur_regions auto_detect
               frames frame_count total).1
    frames.
Proof.
  revert frame_count total.
  induction frames as [|frame frames IH]; intros n total; [constructor|].
  cbn [read_loop].
  destruct auto_detect.
  - match goal with
    | |- context [read_loop _ _ _ _ _ ?n' ?t'] => specialize (IH n' t')
    end.
    destruct (read_loop _ _ _ _ _ _ _); cbn in *. constructor; [|exact IH].
    eapply same_shape_trans;
      [apply apply_detected_regions_same_shape
      | apply apply_manual_regions_same_shape].
  - specialize (IH (n + 1) total).
    destruct (read_loop _ _ _ _ _ _ _); cbn in *. constructor; [|exact IH].
    apply apply_manual_regions_same_shape.
Qed.

End ShapeOfTheExport.

(** X2: [process_video] of either engine, with or without auto-detection,
    writes one frame per decoded frame, each with the shape of the decoded
    frame, and reports success together with the frame count of the
    container; on a container that did not open it writes nothing and
    reports an error. *)
Theorem X2_export_keeps_count_and_shape {cv : CV2.Api}
    (detect_text_regions : Numpy.ndarray -> list (Z * Z * Z * Z))
    (cap : VideoCapture.t) (blur_regions : list BlurRegion.t)
    (auto_detect : bool) :
  let advanced :=
    process_video BlurEngineAdvanced.apply_blur_region detect_text_regions
                  cap blur_regions auto_detect in
  let basic :=
    process_video BlurEngine.apply_blur_region detect_text_regions
                  cap blur_regions auto_detect in
  (cap.(VideoCapture.isOpened) = true ->
   Forall2 Numpy.same_shape advanced.2 cap.(VideoCapture.frames)
   /\ Forall2 Numpy.same_shape basic.2 cap.(VideoCapture.frames)
   /\ length advanced.2 = length cap.(VideoCapture.frames)
   /\ length basic.2 = length cap.(VideoCapture.frames)
   /\ advanced.1.(Results.processing_successful) = true
   /\ advanced.1.(Results.total_frames) = cap.(VideoCapture.FRAME_COUNT)
   /\ advanced.1.(Results.error) = None
   /\ basic.1.(Results.processing_successful) = true
   /\ basic.1.(Results.total_frames) = cap.(VideoCapture.FRAME_COUNT)
   /\ basic.1.(Results.error) = None)
  /\ (cap.(VideoCapture.isOpened) = false ->
      advanced.2 = [] /\ basic.2 = []
      /\ advanced.1.(Results.processing_successful) = false
      /\ advanced.1.(Results.error) <> None
      /\ basic.1.(Results.processing_successful) = false
      /\ basic.1.(Results.error) <> None).
Proof.
  intros advanced basic. unfold advanced, basic, process_video. split.
  - intros ->. cbn [negb].
    pose proof (read_loop_same_shape BlurEngineAdvanced.apply_blur_region
                  detect_text_regions advanced_apply_same_shape blur_regions
                  auto_detect cap.(VideoCapture.frames) 0 0) as Hadv.
    pose proof (read_loop_same_shape BlurEngine.apply_blur_region
                  detect_text_regions basic_apply_same_shape blur_regions
                  auto_detect cap.(VideoCapture.frames) 0 0) as Hbasic.
    destruct (read_loop BlurEngineAdvanced.apply_blur_region _ _ _ _ _ _).
    destruct (read_loop BlurEngine.apply_blur_region _ _ _ _ _ _).
    cbn in *.
    pose proof (Forall2_length _ _ _ Hadv).
    pose proof (Forall2_length _ _ _ Hbasic). done.
  - intros ->. cbn. done.
Qed.

Lemma X2_witness :
  Forall2 Numpy.same_shape
    (process_video (BlurEngineAdvanced.apply_blur_region (cv := RefCV.api))
       Examples.no_detection
       (Examples.clip_of [Examples.frame2x2; Examples.frame2x2])
       [Examples.top_left BLACK_BOX 50 0 (-1)] false).2
    [Examples.frame2x2; Examples.frame2x2].
Proof.
  destruct (X2_export_keeps_count_and_shape (cv := RefCV.api)
              Examples.no_detection
              (Examples.clip_of [Examples.frame2x2; Examples.frame2x2])
              [Examples.top_left BLACK_BOX 50 0 (-1)] false) as [Hopen _].
  destruct (Hopen eq_refl) as [Hshape _]. exact Hshape.
Defined.

Section UntouchedVideo.
Variable apply_blur_region : Numpy.ndarray -> BlurRegion.t -> Numpy.ndarray.
Variable detect_text_regions : Numpy.ndarray -> list (Z * Z * Z * Z).

Lemma apply_manual_regions_all_inactive blur_regions frame_count frame :
  Forall (fun region => is_active region frame_count = false) blur_regions ->
  apply_manual_regions apply_blur_region blur_regions frame_count frame = frame.
Proof.
  induction 1 as [|region rs Hoff _ IH]; [done|].
  cbn [apply_manual_regions fold_left]. rewrite Hoff. exact IH.
Qed.

Lemma read_loop_all_inactive blur_regions frames frame_count total :
  (forall k : nat,
     (k < length frames)%nat ->
     Forall (fun region => is_active region (frame_count + Z.of_nat k) = false)
            blur_regions) ->
  (read_loop apply_blur_region detect_text_regions blur_regions false
             frames frame_count total).1 = frames.
Proof.
  revert frame_count.
  induction frames as [|frame frames IH]; intros n Hoff; [done|].
  cbn [read_loop].
  rewrite apply_manual_regions_all_inactive.
  - specialize (IH (n + 1)).
    destruct (read_loop _ _ _ _ _ _ _); cbn in *. f_equal. apply IH.
    intros k Hk. replace (n + 1 + Z.of_nat k) with (n + Z.of_nat (S k)) by lia.
    apply Hoff. lia.
  - replace n with (n + Z.of_nat 0) by lia. apply Hoff. cbn. lia.
Qed.

End UntouchedVideo.

(** X3: without auto-detection, when every region starts at or after the
    number of decoded frames (or when there is no region), the exported
    frames are the decoded frames themselves, whatever the engine does to
    a frame. *)
Theorem X3_inactive_regions_leave_the_video
    (apply_blur_region : Numpy.ndarray -> BlurRegion.t -> Numpy.ndarray)
    (detect_text_regions : Numpy.ndarray -> list (Z * Z * Z * Z))
    (cap : VideoCapture.t) (blur_regions : list BlurRegion.t) :
  cap.(VideoCapture.isOpened) = true ->
  Forall (fun region =>
            Z.of_nat (length cap.(VideoCapture.frames))
            <= region.(BlurRegion.start_frame)) blur_regions ->
  (process_video apply_blur_region detect_text_regions cap blur_regions false).2
  = cap.(VideoCapture.frames).
Proof.
  intros Hopen Hlate. unfold process_video. rewrite Hopen. cbn [negb].
  pose proof (read_loop_all_inactive apply_blur_region detect_text_regions
                blur_regions cap.(VideoCapture.frames) 0 0) as Hsame.
  destruct (read_loop _ _ _ _ _ _ _). cbn in *. apply Hsame.
  intros k Hk. eapply Forall_impl; [exact Hlate|].
  intros region Hstart. cbv beta in Hstart. apply not_true_is_false.
  rewrite is_active_iff. unfold Spec.active. lia.
Qed.

Lemma X3_witness :
  (process_video (BlurEngineAdvanced.apply_blur_region (cv := RefCV.api))
     Examples.no_detection
     (Examples.clip_of [Examples.frame2x2; Examples.frame2x2])
     [Examples.top_left BLACK_BOX 100 2 (-1)] false).2
  = [Examples.frame2x2; Examples.frame2x2].
Proof.
  apply (X3_inactive_regions_leave_the_video
           (BlurEngineAdvanced.apply_blur_region (cv := RefCV.api))
           Examples.no_detection
           (Examples.clip_of [Examples.frame2x2; Examples.frame2x2])
           [Examples.top_left BLACK_BOX 100 2 (-1)]).
  - reflexivity.
  - constructor; [cbn; lia | constructor].
Defined.

(** ** The strength curves of both engines *)

Lemma curves_range (intensity : Z) :
  -1000 <= intensity <= 1000 -> curves_ok intensity = true.
Proof.
  intros Hi. apply (forallb_seqZ curves_ok (-1000) 2001); [|lia].
  vm_cast_no_check (eq_refl true).
Qed.

Lemma float_eqb_eq (a b : Float64.float) : Float64.eqb a b = true -> a = b.
Proof.
  destruct a as [s1|s1| |s1 m1 e1], b as [s2|s2| |s2 m2 e2]; cbn; try done.
  - intros H. apply Bool.eqb_prop in H. by subst.
  - intros H. apply Bool.eqb_prop in H. by subst.
  - rewrite !andb_true_iff. intros [[Hs Hm] He].
    apply Bool.eqb_prop in Hs. apply Pos.eqb_eq in Hm. apply Z.eqb_eq in He.
    by subst.
Qed.

Lemma curves_facts (intensity : Z) :
  curves_ok intensity = true ->
  let p := Spec.clamp_intensity intensity in
  exists o,
    opacity_of intensity = Some o
    /\ opacity_of p = Some o
    /\ BlurEngineAdvanced.pixel_size_of o = Some (3 + 27 * p / 100)
    /\ BlurEngine.kernel_size_of o = Some (force_odd (3 + 48 * p / 100))
    /\ BlurEngine.pixel_size_of o = Some (2 + 18 * p / 100).
Proof.
  intros H p. unfold curves_ok in H. cbv zeta in H. fold p in H.
  destruct (opacity_of intensity) as [o|]; [|done].
  destruct (opacity_of p) as [o'|]; [|done].
  rewrite !andb_true_iff in H. destruct H as [[[Heq Hb] Hk] Hbb].
  apply float_eqb_eq in Heq. subst o'. exists o.
  destruct (BlurEngineAdvanced.pixel_size_of o) as [b|]; [|done].
  destruct (BlurEngine.kernel_size_of o) as [k|]; [|done].
  destruct (BlurEngine.pixel_size_of o) as [bb|]; [|done].
  apply Z.eqb_eq in Hb, Hk, Hbb. by subst.
Qed.

Lemma force_odd_odd (k : Z) : force_odd k mod 2 = 1.
Proof.
  unfold force_odd. destruct (k mod 2 =? 0) eqn:Hk.
  - apply Z.eqb_eq in Hk. Z.div_mod_to_equations. lia.
  - apply Z.eqb_neq in Hk. Z.div_mod_to_equations. lia.
Qed.

Lemma force_odd_mono (k k' : Z) : k <= k' -> force_odd k <= force_odd k'.
Proof.
  unfold force_odd. intros Hle.
  destruct (k mod 2 =? 0) eqn:Hk, (k' mod 2 =? 0) eqn:Hk';
    rewrite ?Z.eqb_eq, ?Z.eqb_neq in *; Z.div_mod_to_equations; lia.
Qed.

(** X5: for every stored intensity from -1000 to 1000 the gaussian kernel
    is odd and does not shrink when the intensity grows; it ranges from 23
    to 101 in the advanced engine and from 7 to 51 in [blur_engine.py]. *)
Theorem X5_kernel_is_odd_and_monotone (intensity intensity' : Z) :
  -1000 <= intensity -> intensity <= intensity' -> intensity' <= 1000 ->
  exists o o' k k' kb kb',
    opacity_of intensity = Some o /\ opacity_of intensity' = Some o'
    /\ BlurEngineAdvanced.kernel_size_of o = Some k
    /\ BlurEngineAdvanced.kernel_size_of o' = Some k'
    /\ BlurEngine.kernel_size_of o = Some kb
    /\ BlurEngine.kernel_size_of o' = Some kb'
    /\ k mod 2 = 1 /\ 23 <= k /\ k <= k' /\ k' <= 101
    /\ kb mod 2 = 1 /\ 7 <= kb /\ kb <= kb' /\ kb' <= 51.
Proof.
  intros Hlo Hle Hhi.
  destruct (strength_curve_facts intensity
              (strength_curve_range intensity ltac:(lia)))
    as (o & Ho & Hk & _).
  destruct (strength_curve_facts intensity'
              (strength_curve_range intensity' ltac:(lia)))
    as (o' & Ho' & Hk' & _).
  destruct (curves_facts intensity (curves_range intensity ltac:(lia)))
    as (o1 & Ho1 & _ & _ & Hkb & _).
  destruct (curves_facts intensity' (curves_range intensity' ltac:(lia)))
    as (o1' & Ho1' & _ & _ & Hkb' & _).
  assert (o1 = o) by congruence. assert (o1' = o') by congruence. subst o1 o1'.
  eexists o, o', _, _, _, _.
  do 6 (split; [eassumption|]).
  unfold Spec.kernel_size_truncated, Spec.clamp_intensity.
  set (p := Z.max 10 (Z.min 100 intensity)).
  set (p' := Z.max 10 (Z.min 100 intensity')).
  assert (Hp : 10 <= p /\ p <= p' /\ p' <= 100) by lia.
  assert (H86 : 8 <= 86 * p / 100 /\ 86 * p / 100 <= 86 * p' / 100
                /\ 86 * p' / 100 <= 86)
    by (Z.div_mod_to_equations; lia).
  assert (H48 : 4 <= 48 * p / 100 /\ 48 * p / 100 <= 48 * p' / 100
                /\ 48 * p' / 100 <= 48)
    by (Z.div_mod_to_equations; lia).
  split; [apply force_odd_odd|].
  split; [apply (force_odd_mono 23); lia|].
  split; [apply force_odd_mono; lia|].
  split; [apply (force_odd_mono _ 101); lia|].
  split; [apply force_odd_odd|].
  split; [apply (force_odd_mono 7); lia|].
  split; [apply force_odd_mono; lia|].
  apply (force_odd_mono _ 51). lia.
Qed.

Lemma X5_witness :
  (-1000 <= 10 /\ 10 <= 100 /\ 100 <= 1000)
  /\ exists o o' k k' kb kb',
      opacity_of 10 = Some o /\ opacity_of 100 = Some o'
      /\ BlurEngineAdvanced.kernel_size_of o = Some k
      /\ BlurEngineAdvanced.kernel_size_of o' = Some k'
      /\ BlurEngine.kernel_size_of o = Some kb
      /\ BlurEngine.kernel_size_of o' = Some kb'
      /\ k mod 2 = 1 /\ 23 <= k /\ k <= k' /\ k' <= 101
      /\ kb mod 2 = 1 /\ 7 <= kb /\ kb <= kb' /\ kb' <= 51.
Proof.
  split; [lia|]. apply (X5_kernel_is_odd_and_monotone 10 100); lia.
Defined.

(** X6: for every stored intensity from -1000 to 1000 the block of the
    pixelation is [3 + 27 * p / 100] pixels in the advanced engine and
    [2 + 18 * p / 100] in [blur_engine.py], rounded down, for the
    percentage [p] clamped to [10, 100]: from 5 to 30 and from 3 to 20.
    The size asked of the first [cv2.resize] is at least 1 and at most the
    size of the rectangle in each direction. *)
Theorem X6_pixelation_block (intensity : Z) :
  -1000 <= intensity <= 1000 ->
  let p := Spec.clamp_intensity intensity in
  exists o b bb,
    opacity_of intensity = Some o
    /\ BlurEngineAdvanced.pixel_size_of o = Some b
    /\ BlurEngine.pixel_size_of o = Some bb
    /\ b = 3 + 27 * p / 100 /\ 5 <= b <= 30
    /\ bb = 2 + 18 * p / 100 /\ 3 <= bb <= 20
    /\ forall extent, 1 <= extent ->
         1 <= Z.max 1 (extent / b) <= extent
         /\ 1 <= Z.max 1 (extent / bb) <= extent.
Proof.
  intros Hi p.
  destruct (curves_facts intensity (curves_range intensity Hi))
    as (o & Ho & _ & Hb & _ & Hbb).
  fold p in Hb, Hbb. exists o, (3 + 27 * p / 100), (2 + 18 * p / 100).
  assert (Hp : 10 <= p <= 100) by (unfold p, Spec.clamp_intensity; lia).
  assert (H27 : 2 <= 27 * p / 100 <= 27) by (Z.div_mod_to_equations; lia).
  assert (H18 : 1 <= 18 * p / 100 <= 18) by (Z.div_mod_to_equations; lia).
  split; [exact Ho|]. split; [exact Hb|]. split; [exact Hbb|].
  split; [reflexivity|]. split; [lia|]. split; [reflexivity|]. split; [lia|].
  intros extent Hextent.
  set (b := 3 + 27 * p / 100). set (bb := 2 + 18 * p / 100).
  assert (Hdiv : extent / b <= extent /\ extent / bb <= extent).
  { split; apply Z.div_le_upper_bound; nia. }
  lia.
Qed.

Lemma X6_witness :
  -1000 <= 90 <= 1000
  /\ exists o b bb,
      opacity_of 90 = Some o
      /\ BlurEngineAdvanced.pixel_size_of o = Some b
      /\ BlurEngine.pixel_size_of o = Some bb
      /\ b = 27 /\ bb = 18.
Proof.
  split; [lia|].
  destruct (X6_pixelation_block 90 ltac:(lia))
    as (o & b & bb & Ho & Hb & Hbb & Hbv & _ & Hbbv & _).
  exists o, b, bb. split; [exact Ho|]. split; [exact Hb|]. split; [exact Hbb|].
  split; [exact Hbv | exact Hbbv].
Defined.

(** X7: the stored intensity is clamped when it is used: for every stored
    intensity from -1000 to 1000, both engines return for a region what
    they return for the same region with its intensity brought into
    [10, 100]. *)
Theorem X7_out_of_range_intensity_acts_as_clamped {cv : CV2.Api}
    (frame : Numpy.ndarray) (region : BlurRegion.t) :
  -1000 <= region.(BlurRegion.intensity) <= 1000 ->
  let clamped :=
    BlurRegion.with_intensity region
      (Spec.clamp_intensity region.(BlurRegion.intensity)) in
  BlurEngineAdvanced.apply_blur_region frame region
  = BlurEngineAdvanced.apply_blur_region frame clamped
  /\ BlurEngine.apply_blur_region frame region
     = BlurEngine.apply_blur_region frame clamped.
Proof.
  intros Hi clamped.
  destruct (curves_facts _ (curves_range _ Hi)) as (o & Ho & Hclamped & _).
  unfold clamped. destruct region as [x y w h blur_type intensity pii s e].
  cbn [BlurRegion.intensity] in *.
  unfold BlurEngineAdvanced.apply_blur_region,
    BlurEngineAdvanced.apply_blur_region_returned,
    BlurEngineAdvanced.apply_blur_region_try,
    BlurEngine.apply_blur_region, BlurEngine.apply_blur_region_returned,
    BlurEngine.apply_blur_region_try, BlurRegion.with_intensity, clip.
  cbn [BlurRegion.x BlurRegion.y BlurRegion.width BlurRegion.height
       BlurRegion.blur_type BlurRegion.intensity].
  rewrite Ho, Hclamped. done.
Qed.

Lemma X7_witness :
  -1000 <= 500 <= 1000
  /\ BlurEngineAdvanced.apply_blur_region (cv := RefCV.api) Examples.frame2x2
       (Examples.top_left BLACK_BOX 500 0 (-1))
     = BlurEngineAdvanced.apply_blur_region (cv := RefCV.api) Examples.frame2x2
         (Examples.top_left BLACK_BOX 100 0 (-1)).
Proof.
  split; [lia|].
  destruct (X7_out_of_range_intensity_acts_as_clamped (cv := RefCV.api)
              Examples.frame2x2 (Examples.top_left BLACK_BOX 500 0 (-1)))
    as [Hadv _]; [cbn; lia|].
  exact Hadv.
Defined.

(** ** Solid boxes *)

Lemma getitem_nonempty (frame : Numpy.ndarray) (x y width height : Z) :
  Numpy.well_formed frame ->
  0 <= x < Numpy.shape1 frame -> 0 <= y < Numpy.shape0 frame ->
  1 <= width -> 1 <= height ->
  0 < Numpy.size (Numpy.getitem frame y (y + height) x (x + width)).
Proof.
  intros (_ & _ & Hrows) Hx Hy Hw Hh.
  unfold Numpy.getitem.
  assert (Hsub : Forall (fun row : list Numpy.Pixel =>
                           Z.of_nat (length row) = Numpy.shape1 frame)
                        (Py.slice frame y (y + height)))
    by (unfold Py.slice; by apply Forall_take, Forall_drop).
  pose proof (length_slice frame y (y + height)) as Hlen.
  unfold Numpy.shape0 in Hy.
  destruct (Py.slice frame y (y + height)) as [|row rows];
    [cbn in Hlen; lia|].
  apply Forall_cons in Hsub as [Hrow _].
  unfold Numpy.size, Numpy.shape0, Numpy.shape1. cbn [fmap list_fmap length].
  rewrite length_slice. nia.
Qed.

Lemma full_like_same_shape (roi : Numpy.ndarray) (v : Z) :
  Numpy.same_shape (Numpy.full_like roi v) roi.
Proof.
  unfold Numpy.same_shape, Numpy.full_like.
  induction roi as [|row roi IH]; cbn; constructor; [|exact IH].
  by rewrite length_fmap.
Qed.

Lemma setitem_is_Some (a src : Numpy.ndarray) (y0 y1 x0 x1 : Z) :
  Numpy.same_shape src (Numpy.getitem a y0 y1 x0 x1) ->
  exists a', Numpy.setitem a y0 y1 x0 x1 src = Some a'.
Proof.
  intros Hshape. unfold Numpy.setitem. rewrite (same_shape_true _ _ Hshape).
  eauto.
Qed.

(** X4: a black or white box whose stored intensity is from 95 to 1000 and
    whose corner lies left of the right edge and above the bottom edge of
    a well-formed frame is always applied, without any call to OpenCV:
    the advanced engine returns a new frame whose clipped rectangle holds
    0, respectively 255, in every channel. *)
Theorem X4_solid_box_fills_its_rectangle {cv : CV2.Api}
    (frame : Numpy.ndarray) (region : BlurRegion.t) (x y width height : Z) :
  Numpy.well_formed frame ->
  region.(BlurRegion.x) < Numpy.shape1 frame ->
  region.(BlurRegion.y) < Numpy.shape0 frame ->
  region.(BlurRegion.blur_type) = BLACK_BOX
  \/ region.(BlurRegion.blur_type) = WHITE_BOX ->
  95 <= region.(BlurRegion.intensity) <= 1000 ->
  clip frame region = (x, y, width, height) ->
  exists result,
    BlurEngineAdvanced.apply_blur_region_try frame region
      = Some (ReturnResult result)
    /\ Numpy.getitem result y (y + height) x (x + width)
       = Numpy.full_like
           (Numpy.getitem frame y (y + height) x (x + width))
           (match region.(BlurRegion.blur_type) with
            | BLACK_BOX => 0
            | _ => 255
            end).
Proof.
  intros Hwf Hrx Hry Htype Hi Hclip.
  set (roi := Numpy.getitem frame y (y + height) x (x + width)).
  set (v := match region.(BlurRegion.blur_type) with
            | BLACK_BOX => 0
            | _ => 255
            end).
  assert (Hsize : (Numpy.size roi =? 0) = false).
  { apply Z.eqb_neq. pose proof Hwf as (H0 & H1 & _).
    assert (0 < Numpy.size roi); [|lia].
    unfold clip in Hclip. injection Hclip as <- <- <- <-.
    apply getitem_nonempty; [exact Hwf|lia..]. }
  destruct (strength_curve_facts _
              (strength_curve_range region.(BlurRegion.intensity) ltac:(lia)))
    as (o & Ho & _ & _ & _ & H95).
  assert (Hgeb : Float64.geb o Lit._0_95 = true)
    by (rewrite H95; apply Z.leb_le; lia).
  assert (Hblur :
    BlurEngineAdvanced.blurred_roi_of region.(BlurRegion.blur_type) roi
      width height o = Some (Numpy.full_like roi v)).
  { unfold v. destruct Htype as [-> | ->]; reflexivity. }
  destruct (setitem_is_Some frame (Numpy.full_like roi v)
              y (y + height) x (x + width) (full_like_same_shape roi v))
    as [result Hset].
  exists result. split.
  - unfold BlurEngineAdvanced.apply_blur_region_try. rewrite Hclip.
    fold roi. rewrite Hsize, Ho. cbn [mbind option_bind].
    rewrite Hblur. cbn [mbind option_bind].
    unfold BlurEngineAdvanced.blended_roi_of. rewrite Hgeb.
    cbn [mbind option_bind]. rewrite Hset. reflexivity.
  - by apply getitem_setitem in Hset.
Qed.

Lemma X4_witness :
  Numpy.well_formed Examples.frame2x2
  /\ exists result,
      BlurEngineAdvanced.apply_blur_region_try (cv := RefCV.api)
        Examples.frame2x2 (Examples.bottom_right WHITE_BOX 100 0 (-1))
        = Some (ReturnResult result)
      /\ Numpy.getitem result 1 (1 + 1) 1 (1 + 1) = [[(255, 255, 255)]].
Proof.
  assert (Hwf : Numpy.well_formed Examples.frame2x2).
  { unfold Numpy.well_formed. split; [reflexivity|]. split; [reflexivity|].
    repeat constructor. }
  split; [exact Hwf|].
  apply (X4_solid_box_fills_its_rectangle (cv := RefCV.api) Examples.frame2x2
           (Examples.bottom_right WHITE_BOX 100 0 (-1)) 1 1 1 1 Hwf).
  - reflexivity.
  - reflexivity.
  - right. reflexivity.
  - cbn. lia.
  - reflexivity.
Defined.

(** ** The region store of the window *)

Lemma rect_of_region_data_of_rect (rect : AdvancedBlurUI.Rect.t) :
  AdvancedBlurUI.rect_of_region_data (AdvancedBlurUI.region_data_of_rect rect)
  = rect.
Proof. by destruct rect. Qed.

(** X9: saving a store that is not empty and loading the saved entries,
    into any window, gives the same regions in the same order; an empty
    store is not saved at all. *)
Theorem X9_save_then_load (self other : AdvancedBlurUI.State) :
  (self.(AdvancedBlurUI.regions) <> [] ->
   exists regions_data,
     AdvancedBlurUI.save_regions self = Some regions_data
     /\ (AdvancedBlurUI.load_regions other regions_data)
          .(AdvancedBlurUI.regions)
        = self.(AdvancedBlurUI.regions))
  /\ (self.(AdvancedBlurUI.regions) = [] ->
      AdvancedBlurUI.save_regions self = None).
Proof.
  unfold AdvancedBlurUI.save_regions. split.
  - destruct (AdvancedBlurUI.regions self) as [|rect rects] eqn:Hregions;
      [done|]. intros _. eexists. split; [reflexivity|].
    unfold AdvancedBlurUI.load_regions. rewrite load_regions_loop.
    cbn [AdvancedBlurUI.with_regions AdvancedBlurUI.regions app].
    generalize (rect :: rects). intros l.
    induction l as [|r l IH]; [done|].
    cbn. by rewrite rect_of_region_data_of_rect, IH.
  - by intros ->.
Qed.

Lemma X9_witness :
  (AdvancedBlurUI.load_regions (Examples.window [])
     (default [] (AdvancedBlurUI.save_regions
                    (Examples.window [Examples.open_rect; Examples.bad_rect]))))
    .(AdvancedBlurUI.regions)
  = [Examples.open_rect; Examples.bad_rect].
Proof.
  destruct (X9_save_then_load
              (Examples.window [Examples.open_rect; Examples.bad_rect])
              (Examples.window [])) as [Hsave _].
  destruct (Hsave ltac:(discriminate)) as (regions_data & Hdata & Hload).
  rewrite Hdata. exact Hload.
Defined.




(** X11: a second call of [confirm_rectangle] leaves the window as the
    first call left it.  When the first call assigns the attributes,
    nothing is pending and no rectangle is usable as held afterwards, and
    the second call finds nothing to add; when the first call raises
    [OverflowError] the window is unchanged, the rectangle is still
    pending and the second call raises again. *)
Theorem X11_confirm_twice (self : AdvancedBlurUI.State) :
  AdvancedBlurUI.confirm_rectangle (AdvancedBlurUI.confirm_rectangle self)
  = AdvancedBlurUI.confirm_rectangle self
  /\ (forall self',
        AdvancedBlurUI.confirm_rectangle_try self = Some self' ->
        self'.(AdvancedBlurUI.pending_rectangle) = None
        /\ (self'.(AdvancedBlurUI.rectangle_held) = false
            \/ self'.(AdvancedBlurUI.held_rectangle) = None)
        /\ AdvancedBlurUI.confirm_rectangle_try self' = Some self')
  /\ (AdvancedBlurUI.confirm_rectangle_try self = None ->
      AdvancedBlurUI.confirm_rectangle self = self
      /\ self.(AdvancedBlurUI.pending_rectangle) <> None
      /\ AdvancedBlurUI.confirm_rectangle_try
           (AdvancedBlurUI.confirm_rectangle self) = None).
Proof.
  assert (Hreturned : forall self',
    AdvancedBlurUI.confirm_rectangle_try self = Some self' ->
    self'.(AdvancedBlurUI.pending_rectangle) = None
    /\ (self'.(AdvancedBlurUI.rectangle_held) = false
        \/ self'.(AdvancedBlurUI.held_rectangle) = None)
    /\ AdvancedBlurUI.confirm_rectangle_try self' = Some self').
  { intros self'. unfold AdvancedBlurUI.confirm_rectangle_try at 1.
    destruct self as [regions held_flag held pending bt op du st cur fps].
    cbn [AdvancedBlurUI.rectangle_held AdvancedBlurUI.held_rectangle
         AdvancedBlurUI.pending_rectangle AdvancedBlurUI.regions
         AdvancedBlurUI.blur_type_var AdvancedBlurUI.opacity_var
         AdvancedBlurUI.duration_var AdvancedBlurUI.start_second_var
         AdvancedBlurUI.current_second AdvancedBlurUI.fps].
    destruct held_flag, held as [held|], pending as [pending|];
      try (intros [= <-]; cbn; by auto);
      destruct (AdvancedBlurUI.start_second_of _ pending); try discriminate;
      intros [= <-]; cbn; by auto. }
  assert (Hraised : AdvancedBlurUI.confirm_rectangle_try self = None ->
                    self.(AdvancedBlurUI.pending_rectangle) <> None).
  { unfold AdvancedBlurUI.confirm_rectangle_try.
    destruct self.(AdvancedBlurUI.rectangle_held),
      self.(AdvancedBlurUI.held_rectangle),
      self.(AdvancedBlurUI.pending_rectangle); done. }
  unfold AdvancedBlurUI.confirm_rectangle.
  destruct (AdvancedBlurUI.confirm_rectangle_try self) as [self'|] eqn:Htry;
    unfold default, from_option, id.
  - split; [|split; [exact Hreturned | discriminate]].
    destruct (Hreturned self' eq_refl) as (_ & _ & ->). reflexivity.
  - split; [by rewrite Htry|]. split; [discriminate|].
    intros _. split; [reflexivity|]. split; [by apply Hraised | exact Htry].
Qed.

(** X12: deleting the line [index] of the list box removes exactly the
    region at that index.  Confirming a pending rectangle and deleting the
    last line restores the store, unless the confirmation raised
    [OverflowError]: then nothing was added, and deleting the line past
    the store raises [IndexError].  The line of a held rectangle, the last
    of the list box when the frame rate is not 0, is no index of the
    store either, and deleting it raises. *)
Theorem X12_delete_selected (self : AdvancedBlurUI.State) :
  (forall index,
     (index < length self.(AdvancedBlurUI.regions))%nat ->
     exists self',
       AdvancedBlurUI.delete_selected_rectangle self [index] = Some self'
       /\ self'.(AdvancedBlurUI.regions)
          = take index self.(AdvancedBlurUI.regions)
            ++ drop (S index) self.(AdvancedBlurUI.regions))
  /\ (forall pending,
        self.(AdvancedBlurUI.rectangle_held) = false ->
        self.(AdvancedBlurUI.pending_rectangle) = Some pending ->
        (forall start_second,
           AdvancedBlurUI.start_second_of self pending = Some start_second ->
           exists self',
             AdvancedBlurUI.delete_selected_rectangle
               (AdvancedBlurUI.confirm_rectangle self)
               [length self.(AdvancedBlurUI.regions)] = Some self'
             /\ self'.(AdvancedBlurUI.regions) = self.(AdvancedBlurUI.regions))
        /\ (AdvancedBlurUI.start_second_of self pending = None ->
            AdvancedBlurUI.confirm_rectangle self = self
            /\ AdvancedBlurUI.delete_selected_rectangle
                 (AdvancedBlurUI.confirm_rectangle self)
                 [length self.(AdvancedBlurUI.regions)] = None))
  /\ (forall held,
        self.(AdvancedBlurUI.rectangle_held) = true ->
        self.(AdvancedBlurUI.held_rectangle) = Some held ->
        self.(AdvancedBlurUI.fps) <> 0 ->
        AdvancedBlurUI.listbox_size self
        = S (length self.(AdvancedBlurUI.regions))
        /\ AdvancedBlurUI.delete_selected_rectangle self
             [length self.(AdvancedBlurUI.regions)] = None).
Proof.
  split; [|split].
  - intros index Hindex. unfold AdvancedBlurUI.delete_selected_rectangle.
    rewrite decide_True by done. eexists. split; [reflexivity|].
    cbn. apply delete_take_drop.
  - intros pending Hheld Hpending.
    unfold AdvancedBlurUI.confirm_rectangle.
    rewrite (confirm_pending self pending Hheld Hpending). split.
    + intros start_second ->. cbn [mbind option_bind].
      unfold default, from_option, id.
      unfold AdvancedBlurUI.delete_selected_rectangle.
      cbn [AdvancedBlurUI.regions].
      rewrite decide_True by (rewrite length_app; cbn; lia).
      eexists. split; [reflexivity|].
      cbn [AdvancedBlurUI.with_regions AdvancedBlurUI.regions].
      rewrite delete_middle. apply app_nil_r.
    + intros ->. cbn [mbind option_bind]. unfold default, from_option.
      split; [reflexivity|].
      unfold AdvancedBlurUI.delete_selected_rectangle.
      rewrite decide_False by lia. reflexivity.
  - intros held Hheld Hrect Hfps. unfold AdvancedBlurUI.listbox_size,
      AdvancedBlurUI.delete_selected_rectangle.
    rewrite Hheld, Hrect. apply Z.eqb_neq in Hfps. rewrite Hfps.
    split; [lia|].
    rewrite decide_False by lia. reflexivity.
Qed.

Lemma X12_witness :
  (exists self',
     AdvancedBlurUI.delete_selected_rectangle
       (AdvancedBlurUI.confirm_rectangle Examples.drawing) [1%nat] = Some self'
     /\ self'.(AdvancedBlurUI.regions) = [Examples.open_rect])
  /\ AdvancedBlurUI.delete_selected_rectangle
       (AdvancedBlurUI.confirm_rectangle Examples.drawing_at_infinity)
       [1%nat] = None.
Proof.
  split.
  - destruct (X12_delete_selected Examples.drawing) as (_ & Hundo & _).
    destruct (Hundo (AdvancedBlurUI.Pending.mk 7 8 20 10 2) eq_refl eq_refl)
      as [Hadded _].
    exact (Hadded 2 eq_refl).
  - destruct (X12_delete_selected Examples.drawing_at_infinity)
      as (_ & Hundo & _).
    destruct (Hundo (AdvancedBlurUI.Pending.mk 7 8 20 10 2) eq_refl eq_refl)
      as [_ Hraised].
    exact (proj2 (Hraised eq_refl)).
Defined.

(** ** The store handed to the engine *)

Lemma BlurType_of_string_inv (s : string) (blur_type : BlurType) :
  AdvancedBlurUI.BlurType_of_string s = Some blur_type ->
  s = BlurType_value blur_type.
Proof.
  unfold AdvancedBlurUI.BlurType_of_string.
  destruct (String.eqb s "gaussian") eqn:H1;
    [apply String.eqb_eq in H1; by intros [= <-]|].
  destruct (String.eqb s "pixelate") eqn:H2;
    [apply String.eqb_eq in H2; by intros [= <-]|].
  destruct (String.eqb s "black_box") eqn:H3;
    [apply String.eqb_eq in H3; by intros [= <-]|].
  destruct (String.eqb s "white_box") eqn:H4;
    [apply String.eqb_eq in H4; by intros [= <-]|].
  done.
Qed.

Lemma BlurRegion_of_rect_inv (rect : AdvancedBlurUI.Rect.t)
    (region : BlurRegion.t) :
  AdvancedBlurUI.BlurRegion_of_rect rect = Some region ->
  AdvancedBlurUI.BlurType_of_string rect.(AdvancedBlurUI.Rect.blur_type)
    = Some region.(BlurRegion.blur_type)
  /\ region
     = BlurRegion.__init__
         rect.(AdvancedBlurUI.Rect.x) rect.(AdvancedBlurUI.Rect.y)
         rect.(AdvancedBlurUI.Rect.width) rect.(AdvancedBlurUI.Rect.height)
         region.(BlurRegion.blur_type) rect.(AdvancedBlurUI.Rect.intensity)
         CUSTOM_TEXT
         rect.(AdvancedBlurUI.Rect.start_frame)
         rect.(AdvancedBlurUI.Rect.end_frame).
Proof.
  unfold AdvancedBlurUI.BlurRegion_of_rect.
  destruct (AdvancedBlurUI.BlurType_of_string _) as [blur_type|]; [|done].
  destruct (AdvancedBlurUI.PIIType_of_string _) as [[]|]; [|done].
  cbn. intros [= <-]. done.
Qed.

(** X14: the enumeration converts back from the string each member is
    declared with, and from no other string.  The window's export converts
    the store entry by entry, in order, keeping the rectangle, the
    intensity and the frame range; it gives up as a whole exactly when
    some entry carries a blur type or a PII type that is no member. *)
Theorem X14_store_conversion (self : AdvancedBlurUI.State) :
  (forall blur_type,
     AdvancedBlurUI.BlurType_of_string (BlurType_value blur_type)
     = Some blur_type)
  /\ (forall s blur_type,
        AdvancedBlurUI.BlurType_of_string s = Some blur_type ->
        s = BlurType_value blur_type)
  /\ (AdvancedBlurUI.blur_regions_of self = None <->
      Exists (fun rect => AdvancedBlurUI.BlurRegion_of_rect rect = None)
             self.(AdvancedBlurUI.regions))
  /\ (forall blur_regions,
        AdvancedBlurUI.blur_regions_of self = Some blur_regions ->
        Forall2
          (fun rect region =>
             BlurType_value region.(BlurRegion.blur_type)
             = rect.(AdvancedBlurUI.Rect.blur_type)
             /\ region.(BlurRegion.x) = rect.(AdvancedBlurUI.Rect.x)
             /\ region.(BlurRegion.y) = rect.(AdvancedBlurUI.Rect.y)
             /\ region.(BlurRegion.width) = rect.(AdvancedBlurUI.Rect.width)
             /\ region.(BlurRegion.height) = rect.(AdvancedBlurUI.Rect.height)
             /\ region.(BlurRegion.intensity)
                = rect.(AdvancedBlurUI.Rect.intensity)
             /\ region.(BlurRegion.start_frame)
                = rect.(AdvancedBlurUI.Rect.start_frame)
             /\ region.(BlurRegion.end_frame)
                = rect.(AdvancedBlurUI.Rect.end_frame))
          self.(AdvancedBlurUI.regions) blur_regions).
Proof.
  split; [by intros []|]. split; [apply BlurType_of_string_inv|]. split.
  - unfold AdvancedBlurUI.blur_regions_of. apply mapM_None.
  - intros blur_regions Hconv. unfold AdvancedBlurUI.blur_regions_of in Hconv.
    apply mapM_Some in Hconv. eapply Forall2_impl; [exact Hconv|].
    intros rect region Hrect. cbv beta in Hrect.
    apply BlurRegion_of_rect_inv in Hrect as [Htype ->].
    apply BlurType_of_string_inv in Htype. cbn. done.
Qed.

Lemma X14_witness :
  AdvancedBlurUI.blur_regions_of
    (Examples.window
       [Examples.open_rect;
        AdvancedBlurUI.Rect.mk 0 0 1 1 "blur" 90 "custom_text" 0 9])
  = None.
Proof.
  destruct (X14_store_conversion
              (Examples.window
                 [Examples.open_rect;
                  AdvancedBlurUI.Rect.mk 0 0 1 1 "blur" 90 "custom_text" 0 9]))
    as (_ & _ & [_ Hfail] & _).
  apply Hfail. apply Exists_cons_tl, Exists_cons_hd. reflexivity.
Defined.

(** ** The preview against the export *)

Lemma ui_blurred_roi_of_engine {cv : CV2.Api} (s : string)
    (blur_type : BlurType) (roi : Numpy.ndarray) (w h : Z)
    (o : Float64.float) :
  AdvancedBlurUI.BlurType_of_string s = Some blur_type ->
  AdvancedBlurUI.blurred_roi_of s roi w h o
  = BlurEngineAdvanced.blurred_roi_of blur_type roi w h o.
Proof.
  intros Hs. apply BlurType_of_string_inv in Hs as ->.
  by destruct blur_type.
Qed.

Lemma size_nonneg (a : Numpy.ndarray) : 0 <= Numpy.size a.
Proof.
  unfold Numpy.size, Numpy.shape0, Numpy.shape1. destruct a; nia.
Qed.

(** One turn of the preview loop against one turn of the export loop. *)
Lemma preview_step {cv : CV2.Api} (frame current current' : Numpy.ndarray)
    (frame_number : Z) (rect : AdvancedBlurUI.Rect.t) (region : BlurRegion.t) :
  Numpy.same_shape current frame ->
  0 < Numpy.shape0 frame -> 0 < Numpy.shape1 frame ->
  AdvancedBlurUI.BlurRegion_of_rect rect = Some region ->
  rect.(AdvancedBlurUI.Rect.x) < Numpy.shape1 frame ->
  rect.(AdvancedBlurUI.Rect.y) < Numpy.shape0 frame ->
  rect.(AdvancedBlurUI.Rect.end_frame) <> -1 ->
  AdvancedBlurUI.apply_rect frame frame_number current rect = Some current' ->
  current' = (if is_active region frame_number
              then BlurEngineAdvanced.apply_blur_region current region
              else current).
Proof.
  intros Hshape H0 H1 Hregion Hx Hy Hend.
  apply same_shape_shapes in Hshape as [Hs0 Hs1].
  apply BlurRegion_of_rect_inv in Hregion as [Htype Hregion].
  set (blur_type := region.(BlurRegion.blur_type)) in *.
  assert (Hactive : is_active region frame_number
                    = AdvancedBlurUI.in_range rect frame_number).
  { rewrite Hregion. unfold is_active, AdvancedBlurUI.in_range.
    cbn [BlurRegion.start_frame BlurRegion.end_frame].
    apply Z.eqb_neq in Hend. rewrite Hend, andb_false_r. apply orb_false_r. }
  assert (Hclip : AdvancedBlurUI.clip_rect frame rect = clip current region).
  { rewrite Hregion. unfold AdvancedBlurUI.clip_rect, clip.
    cbn [BlurRegion.x BlurRegion.y BlurRegion.width BlurRegion.height].
    rewrite Hs0, Hs1.
    assert (Hxeq : Z.max 0 (Z.min rect.(AdvancedBlurUI.Rect.x)
                                  (Numpy.shape1 frame - 1))
                   = Z.max 0 (Z.min rect.(AdvancedBlurUI.Rect.x)
                                    (Numpy.shape1 frame))) by lia.
    assert (Hyeq : Z.max 0 (Z.min rect.(AdvancedBlurUI.Rect.y)
                                  (Numpy.shape0 frame - 1))
                   = Z.max 0 (Z.min rect.(AdvancedBlurUI.Rect.y)
                                    (Numpy.shape0 frame))) by lia.
    by rewrite Hxeq, Hyeq. }
  assert (Hintensity : region.(BlurRegion.intensity)
                       = rect.(AdvancedBlurUI.Rect.intensity))
    by (by rewrite Hregion).
  rewrite Hactive. unfold AdvancedBlurUI.apply_rect.
  destruct (AdvancedBlurUI.in_range rect frame_number); [|by intros [= <-]].
  unfold BlurEngineAdvanced.apply_blur_region,
    BlurEngineAdvanced.apply_blur_region_returned,
    BlurEngineAdvanced.apply_blur_region_try.
  rewrite Hclip, Hintensity.
  destruct (clip current region) as [[[x y] w] h].
  set (roi := Numpy.getitem current y (y + h) x (x + w)).
  pose proof (size_nonneg roi) as Hsize.
  destruct (Numpy.size roi >? 0) eqn:Hpos.
  - rewrite Z.gtb_ltb, Z.ltb_lt in Hpos.
    replace (Numpy.size roi =? 0) with false by (symmetry; apply Z.eqb_neq; lia).
    destruct (opacity_of _) as [o|]; [|done]. cbn [mbind option_bind].
    rewrite (ui_blurred_roi_of_engine _ blur_type) by exact Htype.
    fold blur_type.
    destruct (BlurEngineAdvanced.blurred_roi_of _ _ _ _ _) as [blurred_roi|];
      [|done]. cbn [mbind option_bind].
    destruct (BlurEngineAdvanced.blended_roi_of _ _ _) as [blended|]; [|done].
    cbn [mbind option_bind]. intros ->. reflexivity.
  - rewrite Z.gtb_ltb, Z.ltb_ge in Hpos.
    replace (Numpy.size roi =? 0) with true by (symmetry; apply Z.eqb_eq; lia).
    by intros [= <-].
Qed.

Lemma preview_fold_None {cv : CV2.Api} (frame : Numpy.ndarray)
    (frame_number : Z) (rects : list AdvancedBlurUI.Rect.t) :
  fold_left
    (fun result_frame rect =>
       result_frame ← result_frame;
       AdvancedBlurUI.apply_rect frame frame_number result_frame rect)
    rects None = None.
Proof. induction rects; [done|]. cbn. exact IHrects. Qed.

Lemma preview_fold {cv : CV2.Api} (frame : Numpy.ndarray) (frame_number : Z)
    (rects : list AdvancedBlurUI.Rect.t) :
  0 < Numpy.shape0 frame -> 0 < Numpy.shape1 frame ->
  Forall (fun rect =>
            rect.(AdvancedBlurUI.Rect.x) < Numpy.shape1 frame
            /\ rect.(AdvancedBlurUI.Rect.y) < Numpy.shape0 frame
            /\ rect.(AdvancedBlurUI.Rect.end_frame) <> -1) rects ->
  forall blur_regions current out,
    mapM AdvancedBlurUI.BlurRegion_of_rect rects = Some blur_regions ->
    Numpy.same_shape current frame ->
    fold_left
      (fun result_frame rect =>
         result_frame ← result_frame;
         AdvancedBlurUI.apply_rect frame frame_number result_frame rect)
      rects (Some current) = Some out ->
    out = apply_manual_regions BlurEngineAdvanced.apply_blur_region
            blur_regions frame_number current.
Proof.
  intros H0 H1.
  induction 1 as [|rect rects (Hx & Hy & Hend) _ IH];
    intros blur_regions current out Hconv Hshape Hfold.
  - cbn in Hconv, Hfold. injection Hconv as <-. injection Hfold as <-.
    reflexivity.
  - cbn [mapM] in Hconv.
    destruct (AdvancedBlurUI.BlurRegion_of_rect rect) as [region|] eqn:Hregion;
      [|done]. cbn [mbind option_bind] in Hconv.
    destruct (mapM AdvancedBlurUI.BlurRegion_of_rect rects) as [regions|];
      [|done]. cbn in Hconv. injection Hconv as <-.
    cbn [fold_left mbind option_bind] in Hfold.
    destruct (AdvancedBlurUI.apply_rect frame frame_number current rect)
      as [current'|] eqn:Hstep;
      [|by rewrite preview_fold_None in Hfold].
    pose proof (preview_step frame current current' frame_number rect region
                  Hshape H0 H1 Hregion Hx Hy Hend Hstep) as Hcurrent'.
    cbn [apply_manual_regions fold_left]. rewrite <- Hcurrent'.
    apply (IH regions current' out eq_refl); [|exact Hfold].
    rewrite Hcurrent'. destruct (is_active region frame_number); [|done].
    eapply same_shape_trans; [apply advanced_apply_same_shape | exact Hshape].
Qed.

(** X8: when no region of the preview uses the open end [-1] and every
    region has its corner left of the right edge and above the bottom edge
    of the frame, a preview that succeeds shows exactly the frame that the
    export loop of the advanced engine composes from the same regions, in
    the same order. *)
Theorem X8_preview_shows_the_export {cv : CV2.Api}
    (self : AdvancedBlurUI.State) (frame out : Numpy.ndarray)
    (frame_number : Z) (blur_regions : list BlurRegion.t) :
  Numpy.well_formed frame ->
  Forall (fun rect =>
            rect.(AdvancedBlurUI.Rect.x) < Numpy.shape1 frame
            /\ rect.(AdvancedBlurUI.Rect.y) < Numpy.shape0 frame
            /\ rect.(AdvancedBlurUI.Rect.end_frame) <> -1)
         (AdvancedBlurUI.regions_to_apply self) ->
  mapM AdvancedBlurUI.BlurRegion_of_rect (AdvancedBlurUI.regions_to_apply self)
    = Some blur_regions ->
  AdvancedBlurUI.apply_blur_effects_for_frame self frame frame_number
    = Some out ->
  out = apply_manual_regions BlurEngineAdvanced.apply_blur_region
          blur_regions frame_number frame.
Proof.
  intros (H0 & H1 & _) Hrects Hconv Hpreview.
  apply (preview_fold frame frame_number (AdvancedBlurUI.regions_to_apply self)
           H0 H1 Hrects blur_regions frame out Hconv (same_shape_refl frame)).
  exact Hpreview.
Qed.

Lemma X8_witness :
  AdvancedBlurUI.apply_blur_effects_for_frame (cv := RefCV.api)
    (Examples.window
       [AdvancedBlurUI.Rect.mk 0 0 1 1 "black_box" 50 "custom_text" 0 9])
    Examples.frame2x2 5
  = Some (apply_manual_regions
            (BlurEngineAdvanced.apply_blur_region (cv := RefCV.api))
            [Examples.top_left BLACK_BOX 50 0 9] 5 Examples.frame2x2).
Proof.
  assert (Hwf : Numpy.well_formed Examples.frame2x2).
  { unfold Numpy.well_formed. split; [reflexivity|]. split; [reflexivity|].
    repeat constructor. }
  assert (Hpreview :
    AdvancedBlurUI.apply_blur_effects_for_frame (cv := RefCV.api)
      (Examples.window
         [AdvancedBlurUI.Rect.mk 0 0 1 1 "black_box" 50 "custom_text" 0 9])
      Examples.frame2x2 5
    = Some [[(80, 80, 80); (10, 20, 30)]; [(1, 2, 3); (250, 250, 250)]])
    by (vm_compute; reflexivity).
  rewrite Hpreview. apply (f_equal Some).
  apply (X8_preview_shows_the_export (cv := RefCV.api)
           (Examples.window
              [AdvancedBlurUI.Rect.mk 0 0 1 1 "black_box" 50 "custom_text" 0 9])
           Examples.frame2x2 _ 5 [Examples.top_left BLACK_BOX 50 0 9] Hwf).
  - constructor; [|constructor].
    split; [reflexivity|]. split; [reflexivity|discriminate].
  - reflexivity.
  - exact Hpreview.
Defined.

(** ** The number of frames of the animation *)

Lemma retained_length (frame_skip : Z) (n : nat) :
  1 <= frame_skip ->
  Z.of_nat (length (Spec.retained frame_skip (Z.of_nat n)))
  = (Z.of_nat n + frame_skip - 1) / frame_skip.
Proof.
  intros Hskip. unfold Spec.retained. induction n as [|n IH].
  - cbn. symmetry. apply Z.div_small. lia.
  - rewrite seqZ_S, filter_app, length_app, Nat2Z.inj_add, IH.
    rewrite filter_cons, filter_nil, Z.add_0_l.
    set (m := Z.of_nat n).
    replace (Z.of_nat (S n) + frame_skip - 1) with (m + frame_skip) by lia.
    pose proof (Z.div_mod m frame_skip ltac:(lia)) as Hm.
    pose proof (Z.mod_pos_bound m frame_skip ltac:(lia)) as Hr.
    set (q := m / frame_skip) in *. set (r := m mod frame_skip) in *.
    assert (Hsucc : (m + frame_skip) / frame_skip = q + 1).
    { symmetry. apply (Z.div_unique _ _ _ r); lia. }
    rewrite Hsucc.
    destruct (decide (r = 0)) as [Hr0|Hr0]; cbn [length Z.of_nat].
    + assert ((m + frame_skip - 1) / frame_skip = q); [|lia].
      symmetry. apply (Z.div_unique _ _ _ (frame_skip - 1)); lia.
    + assert ((m + frame_skip - 1) / frame_skip = q + 1); [|lia].
      symmetry. apply (Z.div_unique _ _ _ (r - 1)); lia.
Qed.

(** X13: the animation holds one frame per started stride: the number of
    decoded frames divided by the stride, rounded up.  When the container
    reports the number of frames that it delivers and that number reaches
    the target, the animation has at least the target number of frames and
    less than twice as many; a shorter video gives all its frames. *)
Theorem X13_gif_frame_count {cv : CV2.Api} (self : AdvancedBlurUI.State)
    (target_frames width height new_width new_height : Z)
    (frames kept : list Numpy.ndarray) :
  1 <= target_frames ->
  let total_frames := Z.of_nat (length frames) in
  let frame_skip := AdvancedBlurUI.frame_skip_of total_frames target_frames in
  AdvancedBlurUI.sample_loop self frame_skip width height new_width new_height
                             frames 0 = Some kept ->
  Z.of_nat (length kept) = (total_frames + frame_skip - 1) / frame_skip
  /\ (target_frames <= total_frames ->
      target_frames <= Z.of_nat (length kept) <= 2 * target_frames - 1)
  /\ (total_frames < target_frames -> length kept = length frames).
Proof.
  intros Htarget total_frames frame_skip Hloop.
  assert (Hskip : 1 <= frame_skip)
    by (unfold frame_skip, AdvancedBlurUI.frame_skip_of; lia).
  rewrite sample_loop_filter in Hloop. apply length_mapM in Hloop.
  pose proof (filter_zip_fst (fun i => i mod frame_skip = 0)
                (seqZ 0 (Z.of_nat (length frames))) frames
                ltac:(rewrite length_seqZ; lia)) as Hzip.
  apply (f_equal length) in Hzip. rewrite length_fmap in Hzip.
  pose proof (retained_length frame_skip (length frames) Hskip) as Hcount.
  unfold Spec.retained in Hcount. rewrite <- Hzip, Hloop in Hcount.
  fold total_frames in Hcount.
  split; [exact Hcount|].
  set (count := Z.of_nat (length kept)) in *.
  assert (Htotal : 0 <= total_frames) by (unfold total_frames; lia).
  pose proof (Z.div_mod (total_frames + frame_skip - 1) frame_skip ltac:(lia))
    as Hc.
  pose proof (Z.mod_pos_bound (total_frames + frame_skip - 1) frame_skip
                ltac:(lia)) as Hcr.
  rewrite <- Hcount in Hc.
  set (rc := (total_frames + frame_skip - 1) mod frame_skip) in *.
  pose proof (Z.div_mod total_frames target_frames ltac:(lia)) as Hs.
  pose proof (Z.mod_pos_bound total_frames target_frames ltac:(lia)) as Hsr.
  set (rs := total_frames mod target_frames) in *.
  split.
  - intros Hlong.
    assert (Hq : 1 <= total_frames / target_frames)
      by (apply Z.div_le_lower_bound; lia).
    assert (Hfs : frame_skip = total_frames / target_frames)
      by (unfold frame_skip, AdvancedBlurUI.frame_skip_of; lia).
    rewrite <- Hfs in Hs. split; nia.
  - intros Hshort.
    assert (Hfs : frame_skip = 1).
    { unfold frame_skip, AdvancedBlurUI.frame_skip_of.
      rewrite Z.div_small by lia. lia. }
    rewrite Hfs in *. unfold count, total_frames in *. lia.
Qed.

Lemma X13_witness :
  1 <= 2
  /\ match AdvancedBlurUI.sample_loop (cv := RefCV.api)
             (Examples.window [Examples.open_rect])
             (AdvancedBlurUI.frame_skip_of 5 2) 2 2 2 2
             (replicate 5 Examples.frame2x2) 0 with
     | Some kept => 2 <= Z.of_nat (length kept) <= 2 * 2 - 1
     | None => False
     end.
Proof.
  split; [lia|].
  destruct (AdvancedBlurUI.sample_loop (cv := RefCV.api)
              (Examples.window [Examples.open_rect])
              (AdvancedBlurUI.frame_skip_of 5 2) 2 2 2 2
              (replicate 5 Examples.frame2x2) 0) as [kept|] eqn:Hloop.
  - destruct (X13_gif_frame_count (cv := RefCV.api)
                (Examples.window [Examples.open_rect]) 2 2 2 2 2
                (replicate 5 Examples.frame2x2) kept ltac:(lia) Hloop)
      as (_ & Hlong & _).
    apply Hlong. cbn. lia.
  - vm_compute in Hloop. discriminate.
Defined.

(** ** A frame rate of zero *)

Lemma duration_ms_of_zero_rate (frame_skip : Z) :
  AdvancedBlurUI.duration_ms_of 0 frame_skip = None.
Proof.
  unfold AdvancedBlurUI.duration_ms_of, Py.int_truediv_int, Py.float_of_int.
  change (Float64.of_Z 0) with (S754_zero false).
  cbn [Float64.is_finite mbind option_bind].
  destruct (Float64.of_Z frame_skip) as [s|s| |s m e]; reflexivity.
Qed.

(** X15: a video whose frame rate reads as 0 is never exported as an
    animation: whatever the regions, the frames and the choice of quality,
    the division [1000 / (fps / frame_skip)] raises, and the export ends
    in one of its error messages or is not started. *)
Theorem X15_zero_frame_rate_is_not_exported {cv : CV2.Api}
    (self : AdvancedBlurUI.State) (cap : VideoCapture.t)
    (quality_choice : option bool) :
  self.(AdvancedBlurUI.fps) = 0 ->
  (forall target_frames gif,
      AdvancedBlurUI.export_frames self cap target_frames <> Some (Some gif))
  /\ (forall gif,
        AdvancedBlurUI.export_as_gif self cap quality_choice
        <> AdvancedBlurUI.Exported gif).
Proof.
  intros Hfps.
  assert (Hframes : forall target_frames gif,
    AdvancedBlurUI.export_frames self cap target_frames <> Some (Some gif)).
  { intros target_frames gif. unfold AdvancedBlurUI.export_frames.
    rewrite Hfps.
    destruct (AdvancedBlurUI.gif_size _ _) as [[new_width new_height]|];
      [|discriminate].
    cbn [mbind option_bind].
    destruct (AdvancedBlurUI.sample_loop _ _ _ _ _ _ _ _) as [[|frame frames]|];
      cbn [mbind option_bind]; try discriminate.
    rewrite duration_ms_of_zero_rate. discriminate. }
  split; [exact Hframes|].
  intros gif. unfold AdvancedBlurUI.export_as_gif.
  destruct self.(AdvancedBlurUI.regions); [discriminate|].
  destruct quality_choice as [high|]; [|discriminate].
  destruct (negb cap.(VideoCapture.isOpened)); [discriminate|].
  destruct (AdvancedBlurUI.export_frames _ _ _) as [[gif'|]|] eqn:Hexport;
    try discriminate.
  by apply Hframes in Hexport.
Qed.

Lemma X15_witness :
  Examples.still_window.(AdvancedBlurUI.fps) = 0
  /\ AdvancedBlurUI.export_as_gif (cv := RefCV.api) Examples.still_window
       (Examples.clip_of [Examples.frame2x2]) (Some true)
     = AdvancedBlurUI.ExportFailed "GIF export failed".
Proof.
  split; [reflexivity|].
  destruct (AdvancedBlurUI.export_as_gif (cv := RefCV.api)
              Examples.still_window (Examples.clip_of [Examples.frame2x2])
              (Some true)) as [|message|gif] eqn:Hexport.
  - vm_compute in Hexport. discriminate.
  - vm_compute in Hexport. injection Hexport as <-. reflexivity.
  - exfalso.
    destruct (X15_zero_frame_rate_is_not_exported (cv := RefCV.api)
                Examples.still_window (Examples.clip_of [Examples.frame2x2])
                (Some true) eq_refl) as [_ Hnever].
    exact (Hnever gif Hexport).
Defined.

(** ** A blur type outside the enumeration *)

Lemma ui_blurred_roi_of_unknown {cv : CV2.Api} (blur_type : string)
    (roi : Numpy.ndarray) (w h : Z) (opacity : Float64.float) :
  AdvancedBlurUI.BlurType_of_string blur_type = None ->
  AdvancedBlurUI.blurred_roi_of blur_type roi w h opacity = Some roi.
Proof.
  unfold AdvancedBlurUI.BlurType_of_string, AdvancedBlurUI.blurred_roi_of.
  destruct (String.eqb blur_type "gaussian"); [discriminate|].
  destruct (String.eqb blur_type "pixelate"); [discriminate|].
  destruct (String.eqb blur_type "black_box"); [discriminate|].
  destruct (String.eqb blur_type "white_box"); [discriminate|].
  reflexivity.
Qed.

(** X16: a stored region whose blur type is none of the four names stops
    the export of the video, since the conversion of the store raises,
    while the preview and the animation pass over it: at an intensity from
    95 to 1000 its turn of the compositing loop leaves the frame as it
    is. *)
Theorem X16_unknown_blur_type {cv : CV2.Api}
    (detect_text_regions : Numpy.ndarray -> list (Z * Z * Z * Z))
    (self : AdvancedBlurUI.State) (cap : VideoCapture.t)
    (rect : AdvancedBlurUI.Rect.t) :
  AdvancedBlurUI.BlurType_of_string rect.(AdvancedBlurUI.Rect.blur_type)
  = None ->
  (rect ∈ self.(AdvancedBlurUI.regions) ->
   AdvancedBlurUI.process_video detect_text_regions self cap
   = AdvancedBlurUI.ProcessFailed)
  /\ (95 <= rect.(AdvancedBlurUI.Rect.intensity) <= 1000 ->
      forall frame frame_number result_frame,
        AdvancedBlurUI.apply_rect frame frame_number result_frame rect
        = Some result_frame).
Proof.
  intros Htype. split.
  - intros Hin. unfold AdvancedBlurUI.process_video.
    destruct self.(AdvancedBlurUI.regions) as [|r rs] eqn:Hregions.
    { by apply elem_of_nil in Hin. }
    assert (Hnone : AdvancedBlurUI.blur_regions_of self = None).
    { unfold AdvancedBlurUI.blur_regions_of. rewrite Hregions.
      apply eq_None_not_Some. rewrite mapM_is_Some, Forall_forall.
      intros Hall. destruct (Hall rect Hin) as [region Hregion].
      unfold AdvancedBlurUI.BlurRegion_of_rect in Hregion.
      rewrite Htype in Hregion. discriminate. }
    by rewrite Hnone.
  - intros Hi frame frame_number result_frame.
    unfold AdvancedBlurUI.apply_rect.
    destruct (AdvancedBlurUI.in_range rect frame_number); [|reflexivity].
    destruct (AdvancedBlurUI.clip_rect frame rect) as [[[x y] w] h].
    destruct (Numpy.size _ >? 0); [|reflexivity].
    destruct (strength_curve_facts _
                (strength_curve_range rect.(AdvancedBlurUI.Rect.intensity)
                   ltac:(lia)))
      as (o & Ho & _ & _ & _ & H95).
    assert (Hgeb : Float64.geb o Lit._0_95 = true)
      by (rewrite H95; apply Z.leb_le; lia).
    rewrite Ho. cbn [mbind option_bind].
    rewrite ui_blurred_roi_of_unknown by exact Htype.
    cbn [mbind option_bind].
    unfold BlurEngineAdvanced.blended_roi_of. rewrite Hgeb.
    cbn [mbind option_bind]. apply setitem_getitem.
Qed.

Lemma X16_witness :
  AdvancedBlurUI.BlurType_of_string
    Examples.unknown_rect.(AdvancedBlurUI.Rect.blur_type) = None
  /\ AdvancedBlurUI.process_video (cv := RefCV.api) Examples.no_detection
       (Examples.window [Examples.open_rect; Examples.unknown_rect])
       (Examples.clip_of [Examples.frame2x2])
     = AdvancedBlurUI.ProcessFailed
  /\ AdvancedBlurUI.apply_rect (cv := RefCV.api) Examples.frame2x2 0
       Examples.frame2x2 Examples.unknown_rect
     = Some Examples.frame2x2.
Proof.
  split; [reflexivity|].
  destruct (X16_unknown_blur_type (cv := RefCV.api) Examples.no_detection
              (Examples.window [Examples.open_rect; Examples.unknown_rect])
              (Examples.clip_of [Examples.frame2x2])
              Examples.unknown_rect eq_refl) as [Hvideo Hpreview].
  split.
  - apply Hvideo. cbn. apply list_elem_of_further, list_elem_of_here.
  - apply Hpreview. cbn. lia.
Defined.

(** ** The held rectangle *)

Lemma sample_loop_regions_to_apply {cv : CV2.Api}
    (self self' : AdvancedBlurUI.State)
    (frame_skip width height new_width new_height : Z)
    (frames : list Numpy.ndarray) (frame_count : Z) :
  AdvancedBlurUI.regions_to_apply self = AdvancedBlurUI.regions_to_apply self' ->
  AdvancedBlurUI.sample_loop self frame_skip width height new_width new_height
                             frames frame_count
  = AdvancedBlurUI.sample_loop self' frame_skip width height new_width
                               new_height frames frame_count.
Proof.
  intros Hsame. revert frame_count.
  induction frames as [|frame frames IH]; intros frame_count; [reflexivity|].
  cbn [AdvancedBlurUI.sample_loop]. rewrite !IH.
  unfold AdvancedBlurUI.process_sampled_frame,
    AdvancedBlurUI.apply_blur_effects_for_frame.
  rewrite Hsame. reflexivity.
Qed.

(** X17: while a rectangle is held, the preview and the frames of the
    animation show it as if it were confirmed, and the export of the video
    leaves it out as if it were released. *)
Theorem X17_held_rectangle {cv : CV2.Api} (self : AdvancedBlurUI.State)
    (held : AdvancedBlurUI.Rect.t) :
  self.(AdvancedBlurUI.rectangle_held) = true ->
  self.(AdvancedBlurUI.held_rectangle) = Some held ->
  let confirmed := AdvancedBlurUI.confirm_rectangle self in
  let released := AdvancedBlurUI.hold_rectangle self in
  confirmed.(AdvancedBlurUI.regions) = self.(AdvancedBlurUI.regions) ++ [held]
  /\ released.(AdvancedBlurUI.regions) = self.(AdvancedBlurUI.regions)
  /\ (forall frame frame_number,
        AdvancedBlurUI.apply_blur_effects_for_frame self frame frame_number
        = AdvancedBlurUI.apply_blur_effects_for_frame confirmed frame
            frame_number)
  /\ (forall frame_skip width height new_width new_height frames,
        AdvancedBlurUI.sample_loop self frame_skip width height new_width
                                   new_height frames 0
        = AdvancedBlurUI.sample_loop confirmed frame_skip width height
                                     new_width new_height frames 0)
  /\ (forall detect_text_regions cap,
        AdvancedBlurUI.process_video detect_text_regions self cap
        = AdvancedBlurUI.process_video detect_text_regions released cap).
Proof.
  intros Hheld Hrect confirmed released.
  assert (Hconfirmed :
    confirmed.(AdvancedBlurUI.regions) = self.(AdvancedBlurUI.regions) ++ [held]).
  { unfold confirmed, AdvancedBlurUI.confirm_rectangle.
    rewrite (confirm_held self held Hheld Hrect). reflexivity. }
  assert (Hreleased :
    released.(AdvancedBlurUI.regions) = self.(AdvancedBlurUI.regions)).
  { unfold released, AdvancedBlurUI.hold_rectangle,
      AdvancedBlurUI.hold_rectangle_try.
    rewrite Hheld, Hrect. reflexivity. }
  assert (Hsame : AdvancedBlurUI.regions_to_apply self
                  = AdvancedBlurUI.regions_to_apply confirmed).
  { unfold AdvancedBlurUI.regions_to_apply at 1. rewrite Hheld, Hrect.
    unfold confirmed, AdvancedBlurUI.confirm_rectangle.
    rewrite (confirm_held self held Hheld Hrect).
    unfold AdvancedBlurUI.regions_to_apply. cbn. by rewrite app_nil_r. }
  split; [exact Hconfirmed|]. split; [exact Hreleased|]. split; [|split].
  - intros frame frame_number.
    unfold AdvancedBlurUI.apply_blur_effects_for_frame. by rewrite Hsame.
  - intros. by apply sample_loop_regions_to_apply.
  - intros detect_text_regions cap.
    unfold AdvancedBlurUI.process_video, AdvancedBlurUI.blur_regions_of.
    by rewrite Hreleased.
Qed.

Lemma X17_witness :
  (AdvancedBlurUI.hold_rectangle Examples.drawing).(AdvancedBlurUI.rectangle_held)
  = true
  /\ AdvancedBlurUI.apply_blur_effects_for_frame (cv := RefCV.api)
       (AdvancedBlurUI.hold_rectangle Examples.drawing) Examples.frame2x2 0
     = AdvancedBlurUI.apply_blur_effects_for_frame (cv := RefCV.api)
         (AdvancedBlurUI.confirm_rectangle
            (AdvancedBlurUI.hold_rectangle Examples.drawing))
         Examples.frame2x2 0.
Proof.
  split; [reflexivity|].
  destruct (X17_held_rectangle (cv := RefCV.api)
              (AdvancedBlurUI.hold_rectangle Examples.drawing)
              (AdvancedBlurUI.Rect.mk 7 8 20 10 "pixelate" 55 "custom_text"
                                      60 150)
              eq_refl eq_refl) as (_ & _ & Hpreview & _).
  exact (Hpreview Examples.frame2x2 0).
Defined.

(** ** Automatic detection *)

Lemma text_like_boxes_spec (boxes regions : list (Z * Z * Z * Z)) :
  text_like_boxes boxes = Some regions ->
  sublist regions boxes
  /\ Forall (fun box => is_text_like box = Some true) regions.
Proof.
  revert regions. induction boxes as [|box boxes IH]; intros regions Hloop.
  - injection Hloop as <-. split; constructor.
  - cbn [text_like_boxes] in Hloop.
    destruct (is_text_like box) as [keep|] eqn:Hkeep; [|discriminate].
    cbn [mbind option_bind] in Hloop.
    destruct (text_like_boxes boxes) as [rest|]; [|discriminate].
    cbn [mbind option_bind] in Hloop. injection Hloop as <-.
    destruct (IH rest eq_refl) as [Hsub Hall].
    destruct keep.
    + split; [by apply sublist_skip | by constructor].
    + split; [by apply sublist_cons | exact Hall].
Qed.

Lemma is_text_like_size (x y w h : Z) :
  is_text_like (x, y, w, h) = Some true -> 20 < w /\ 10 < h.
Proof.
  unfold is_text_like.
  destruct (w >? 20) eqn:Hw; [|discriminate].
  destruct (h >? 10) eqn:Hh; [|discriminate].
  intros _. apply Z.gtb_lt in Hw, Hh. lia.
Qed.

(** X18: the rectangles of the automatic detection are bounding boxes of
    contours, in the order of the contours; each is wider than 20 and
    higher than 10 pixels and passed the test of its aspect ratio.  When
    OpenCV raises, or the ratio of a box cannot be computed, no rectangle
    is returned. *)
Theorem X18_detected_rectangles
    (contour_boxes : Numpy.ndarray -> option (list (Z * Z * Z * Z)))
    (frame : Numpy.ndarray) :
  let regions := detect_text_regions contour_boxes frame in
  (forall x y w h, (x, y, w, h) ∈ regions ->
     20 < w /\ 10 < h /\ is_text_like (x, y, w, h) = Some true)
  /\ (forall boxes, contour_boxes frame = Some boxes -> sublist regions boxes)
  /\ (contour_boxes frame = None -> regions = [])
  /\ (forall boxes box, contour_boxes frame = Some boxes ->
        box ∈ boxes -> is_text_like box = None -> regions = []).
Proof.
  intros regions. unfold regions, detect_text_regions.
  destruct (contour_boxes frame) as [boxes|]; cbn [mbind option_bind default].
  - destruct (text_like_boxes boxes) as [kept|] eqn:Hloop; cbn [default].
    + destruct (text_like_boxes_spec boxes kept Hloop) as [Hsub Hall].
      split.
      { intros x y w h Hin. rewrite Forall_forall in Hall.
        pose proof (Hall _ Hin) as Hlike.
        destruct (is_text_like_size x y w h Hlike). done. }
      split; [by intros ? [= <-]|]. split; [done|].
      intros boxes' box [= <-] Hin Hnone. exfalso.
      clear Hsub Hall. revert kept Hloop.
      induction boxes as [|b bs IH]; intros kept Hloop.
      { by apply elem_of_nil in Hin. }
      cbn [text_like_boxes] in Hloop.
      destruct (is_text_like b) as [keep|] eqn:Hb; [|discriminate].
      cbn [mbind option_bind] in Hloop.
      destruct (text_like_boxes bs) as [rest|]; [|discriminate].
      apply elem_of_cons in Hin as [->|Hin]; [congruence|].
      by apply (IH Hin rest).
    + split; [intros x y w h Hin; by apply elem_of_nil in Hin|].
      split; [intros; apply sublist_nil_l|]. done.
  - split; [intros x y w h Hin; by apply elem_of_nil in Hin|].
    split; [discriminate|]. done.
Qed.

Lemma X18_witness :
  detect_text_regions Examples.two_contours Examples.frame2x2
  = [(0, 0, 30, 15)]
  /\ 20 < 30 /\ 10 < 15.
Proof.
  split; [vm_compute; reflexivity|].
  destruct (X18_detected_rectangles Examples.two_contours Examples.frame2x2)
    as [Hsize _].
  destruct (Hsize 0 0 30 15) as (Hw & Hh & _).
  - vm_compute. apply list_elem_of_here.
  - split; [exact Hw | exact Hh].
Defined.

Section Detection.
Variable apply_blur_region : Numpy.ndarray -> BlurRegion.t -> Numpy.ndarray.
Variable detect_text_regions : Numpy.ndarray -> list (Z * Z * Z * Z).

Lemma read_loop_manual_total blur_regions frames frame_count pii_regions_total :
  (read_loop apply_blur_region detect_text_regions blur_regions false frames
             frame_count pii_regions_total).2 = pii_regions_total.
Proof.
  revert frame_count. induction frames as [|frame frames IH];
    intros frame_count; [reflexivity|].
  cbn [read_loop]. specialize (IH (frame_count + 1)).
  destruct (read_loop _ _ _ _ _ _ _) as [written total]. exact IH.
Qed.

Lemma read_loop_total_le blur_regions auto_detect frames frame_count
    pii_regions_total :
  pii_regions_total
  <= (read_loop apply_blur_region detect_text_regions blur_regions auto_detect
                frames frame_count pii_regions_total).2.
Proof.
  revert frame_count pii_regions_total.
  induction frames as [|frame frames IH];
    intros frame_count pii_regions_total; [cbn; lia|].
  cbn [read_loop]. destruct auto_detect.
  - match goal with
    | |- context [read_loop _ _ _ _ _ ?k ?t] =>
        specialize (IH k t); destruct (read_loop _ _ _ _ _ k t)
    end.
    cbn [snd] in *. lia.
  - match goal with
    | |- context [read_loop _ _ _ _ _ ?k ?t] =>
        specialize (IH k t); destruct (read_loop _ _ _ _ _ k t)
    end.
    cbn [snd] in *. lia.
Qed.

Lemma read_loop_nothing_detected blur_regions frames frame_count
    pii_regions_total :
  (forall frame, detect_text_regions frame = []) ->
  read_loop apply_blur_region detect_text_regions blur_regions true frames
            frame_count pii_regions_total
  = read_loop apply_blur_region detect_text_regions blur_regions false frames
              frame_count pii_regions_total.
Proof.
  intros Hnothing. revert frame_count.
  induction frames as [|frame frames IH]; intros frame_count; [reflexivity|].
  cbn [read_loop]. rewrite Hnothing. cbn [apply_detected_regions fold_left length Z.of_nat].
  rewrite Z.add_0_r, IH. reflexivity.
Qed.

End Detection.

(** X19: the count of detected regions that [process_video] reports is
    never negative and is 0 without automatic detection.  When the
    detection finds nothing in any frame, the export with automatic
    detection gives the result record and the frames of the export
    without it. *)
Theorem X19_detection_count
    (apply_blur_region : Numpy.ndarray -> BlurRegion.t -> Numpy.ndarray)
    (detect_text_regions : Numpy.ndarray -> list (Z * Z * Z * Z))
    (cap : VideoCapture.t) (blur_regions : list BlurRegion.t)
    (auto_detect : bool) :
  0 <= (process_video apply_blur_region detect_text_regions cap blur_regions
                      auto_detect).1.(Results.pii_regions_detected)
  /\ (process_video apply_blur_region detect_text_regions cap blur_regions
                    false).1.(Results.pii_regions_detected) = 0
  /\ ((forall frame, detect_text_regions frame = []) ->
      process_video apply_blur_region detect_text_regions cap blur_regions true
      = process_video apply_blur_region detect_text_regions cap blur_regions
                      false).
Proof.
  unfold process_video.
  destruct (negb cap.(VideoCapture.isOpened)); [by cbn|].
  split; [|split].
  - pose proof (read_loop_total_le apply_blur_region detect_text_regions
                  blur_regions auto_detect cap.(VideoCapture.frames) 0 0) as Hle.
    destruct (read_loop _ _ _ _ _ _ _) as [written total]. exact Hle.
  - pose proof (read_loop_manual_total apply_blur_region detect_text_regions
                  blur_regions cap.(VideoCapture.frames) 0 0) as Hzero.
    destruct (read_loop _ _ _ _ _ _ _) as [written total]. exact Hzero.
  - intros Hnothing. by rewrite read_loop_nothing_detected.
Qed.

Lemma X19_witness :
  process_video (BlurEngineAdvanced.apply_blur_region (cv := RefCV.api))
    Examples.no_detection (Examples.clip_of [Examples.frame2x2])
    [Examples.top_left BLACK_BOX 50 0 (-1)] true
  = process_video (BlurEngineAdvanced.apply_blur_region (cv := RefCV.api))
      Examples.no_detection (Examples.clip_of [Examples.frame2x2])
      [Examples.top_left BLACK_BOX 50 0 (-1)] false.
Proof.
  destruct (X19_detection_count
              (BlurEngineAdvanced.apply_blur_region (cv := RefCV.api))
              Examples.no_detection (Examples.clip_of [Examples.frame2x2])
              [Examples.top_left BLACK_BOX 50 0 (-1)] true)
    as (_ & _ & Hsame).
  apply Hsame. intros frame. reflexivity.
Defined.

(** ** Clearing the store *)

(** X20: after [clear_all_rectangles] the store is empty, so that nothing
    is saved and neither export starts; a held rectangle survives the
    clearing and is the only one left in the preview.  Clearing twice is
    clearing once. *)
Theorem X20_clear_all_rectangles {cv : CV2.Api}
    (detect_text_regions : Numpy.ndarray -> list (Z * Z * Z * Z))
    (self : AdvancedBlurUI.State) (cap : VideoCapture.t)
    (quality_choice : option bool) :
  let cleared := AdvancedBlurUI.clear_all_rectangles self in
  cleared = AdvancedBlurUI.with_regions self []
  /\ AdvancedBlurUI.save_regions cleared = None
  /\ AdvancedBlurUI.export_as_gif cleared cap quality_choice
     = AdvancedBlurUI.NotStarted
  /\ AdvancedBlurUI.process_video detect_text_regions cleared cap
     = AdvancedBlurUI.ProcessNotStarted
  /\ AdvancedBlurUI.regions_to_apply cleared
     = match self.(AdvancedBlurUI.rectangle_held),
             self.(AdvancedBlurUI.held_rectangle) with
       | true, Some held => [held]
       | _, _ => []
       end
  /\ AdvancedBlurUI.clear_all_rectangles cleared = cleared.
Proof.
  intros cleared.
  assert (Hcleared : cleared = AdvancedBlurUI.with_regions self []).
  { unfold cleared, AdvancedBlurUI.clear_all_rectangles.
    destruct self as [[|r rs] ? ? ? ? ? ? ? ? ?]; reflexivity. }
  rewrite Hcleared. repeat split; reflexivity.
Qed.

(** ** The frames of the preview *)

Lemma apply_rect_inv {cv : CV2.Api} (frame current current' : Numpy.ndarray)
    (frame_number : Z) (rect : AdvancedBlurUI.Rect.t) (x y w h : Z) :
  AdvancedBlurUI.clip_rect frame rect = (x, y, w, h) ->
  AdvancedBlurUI.apply_rect frame frame_number current rect = Some current' ->
  current' = current
  \/ exists blended,
      Numpy.setitem current y (y + h) x (x + w) blended = Some current'.
Proof.
  intros Hclip. unfold AdvancedBlurUI.apply_rect. rewrite Hclip.
  destruct (AdvancedBlurUI.in_range rect frame_number);
    [|intros [= <-]; by left].
  destruct (Numpy.size _ >? 0); [|intros [= <-]; by left].
  destruct (opacity_of _) as [o|]; [|discriminate].
  cbn [mbind option_bind].
  destruct (AdvancedBlurUI.blurred_roi_of _ _ _ _ _) as [blurred_roi|];
    [|discriminate].
  cbn [mbind option_bind].
  destruct (BlurEngineAdvanced.blended_roi_of _ _ _) as [blended|];
    [|discriminate].
  cbn [mbind option_bind]. intros Hset. right. by exists blended.
Qed.

Lemma apply_rect_same_shape {cv : CV2.Api}
    (frame current current' : Numpy.ndarray) (frame_number : Z)
    (rect : AdvancedBlurUI.Rect.t) :
  AdvancedBlurUI.apply_rect frame frame_number current rect = Some current' ->
  Numpy.same_shape current' current.
Proof.
  intros Happly.
  destruct (AdvancedBlurUI.clip_rect frame rect) as [[[x y] w] h] eqn:Hclip.
  destruct (apply_rect_inv _ _ _ _ _ _ _ _ _ Hclip Happly)
    as [-> | [blended Hset]].
  - apply same_shape_refl.
  - by eapply setitem_same_shape.
Qed.

Lemma preview_fold_same_shape {cv : CV2.Api} (frame : Numpy.ndarray)
    (frame_number : Z) (rects : list AdvancedBlurUI.Rect.t)
    (current out : Numpy.ndarray) :
  fold_left
    (fun result_frame rect =>
       result_frame ← result_frame;
       AdvancedBlurUI.apply_rect frame frame_number result_frame rect)
    rects (Some current) = Some out ->
  Numpy.same_shape out current.
Proof.
  revert current. induction rects as [|rect rects IH]; intros current Hfold.
  - injection Hfold as <-. apply same_shape_refl.
  - cbn [fold_left mbind option_bind] in Hfold.
    destruct (AdvancedBlurUI.apply_rect frame frame_number current rect)
      as [current'|] eqn:Happly.
    + apply (same_shape_trans _ current').
      * by apply IH.
      * by eapply apply_rect_same_shape.
    + by rewrite preview_fold_None in Hfold.
Qed.

(** X21: the frame that the preview and the animation composite has the
    shape of the decoded frame; it is the decoded frame itself when no
    rectangle, stored or held, has the frame number in its range; and the
    turn of one rectangle changes no pixel outside its clipped
    rectangle. *)
Theorem X21_preview_frame {cv : CV2.Api} (self : AdvancedBlurUI.State)
    (frame : Numpy.ndarray) (frame_number : Z) :
  (forall result,
      AdvancedBlurUI.apply_blur_effects_for_frame self frame frame_number
      = Some result ->
      Numpy.same_shape result frame)
  /\ (Forall (fun rect => AdvancedBlurUI.in_range rect frame_number = false)
             (AdvancedBlurUI.regions_to_apply self) ->
      AdvancedBlurUI.apply_blur_effects_for_frame self frame frame_number
      = Some frame)
  /\ (forall rect current current' x y w h (i j : nat),
        AdvancedBlurUI.clip_rect frame rect = (x, y, w, h) ->
        AdvancedBlurUI.apply_rect frame frame_number current rect
        = Some current' ->
        ~ (y <= Z.of_nat i < y + h /\ x <= Z.of_nat j < x + w) ->
        Numpy.pixel current' i j = Numpy.pixel current i j).
Proof.
  split; [|split].
  - intros result. apply preview_fold_same_shape.
  - unfold AdvancedBlurUI.apply_blur_effects_for_frame.
    induction 1 as [|rect rects Hout _ IH]; [reflexivity|].
    cbn [fold_left mbind option_bind].
    by rewrite apply_rect_out_of_range.
  - intros rect current current' x y w h i j Hclip Happly Hout.
    destruct (apply_rect_inv _ _ _ _ _ _ _ _ _ Hclip Happly)
      as [-> | [blended Hset]]; [reflexivity|].
    unfold AdvancedBlurUI.clip_rect in Hclip.
    injection Hclip as Hx Hy _ _.
    apply (setitem_pixel_outside _ _ _ _ _ _ _ _ _ Hset); [lia | lia | exact Hout].
Qed.

Lemma X21_witness :
  AdvancedBlurUI.apply_blur_effects_for_frame (cv := RefCV.api)
    (Examples.window [Examples.bad_rect]) Examples.frame2x2 20
  = Some Examples.frame2x2.
Proof.
  destruct (X21_preview_frame (cv := RefCV.api)
              (Examples.window [Examples.bad_rect]) Examples.frame2x2 20)
    as (_ & Huntouched & _).
  apply Huntouched. constructor; [reflexivity | constructor].
Defined.

(** * Arrays as objects, clipping and exceptions *)

(** ** What a method may write *)

Section ObjectsFacts.
Context {cv : CV2.Api}.
Implicit Types (h : gmap positive Numpy.ndarray) (a : Heap.array).

Lemma value_weaken h h' a pixels :
  Heap.value h a = Some pixels -> h ⊆ h' -> Heap.value h' a = Some pixels.
Proof.
  unfold Heap.value. intros Hvalue Hsub.
  destruct (h !! Heap.buffer a) as [contents|] eqn:Hbuffer; [|done].
  by rewrite (lookup_weaken _ _ _ _ Hbuffer Hsub).
Qed.

Lemma value_getitem h a (y0 y1 x0 x1 : Z) :
  Heap.value h (Heap.getitem a y0 y1 x0 x1)
  = (fun pixels => Numpy.getitem pixels y0 y1 x0 x1) <$> Heap.value h a.
Proof.
  unfold Heap.value, Heap.getitem, Heap.through. cbn [Heap.buffer Heap.slices].
  destruct (h !! Heap.buffer a); cbn; [|done]. by rewrite fold_left_app.
Qed.

Lemma value_owner h l : Heap.value h (Heap.mk_array l []) = h !! l.
Proof. unfold Heap.value. cbn. by destruct (h !! l). Qed.

Lemma fresh_is_new h : h !! fresh (dom h) = None.
Proof. apply not_elem_of_dom, is_fresh. Qed.

Lemma insert_fresh_subseteq h pixels : h ⊆ <[fresh (dom h) := pixels]> h.
Proof. apply insert_subseteq, fresh_is_new. Qed.

Lemma read_run {A} h a pixels (k : Numpy.ndarray -> Heap.M A) :
  Heap.value h a = Some pixels ->
  Heap.bind (Heap.read a) k h = k pixels h.
Proof. intros Hvalue. unfold Heap.bind, Heap.read. by rewrite Hvalue. Qed.

Lemma lift_run {A B} h (o : option A) (k : A -> Heap.M B) :
  Heap.bind (Heap.lift o) k h
  = match o with Some x => k x h | None => (None, h) end.
Proof. unfold Heap.bind, Heap.lift. by destruct o. Qed.

Lemma yields_ret h a pixels :
  Heap.value h a = Some pixels -> Heap.yields (Heap.ret a) h (Some pixels).
Proof. intros Hvalue. exists h. split; [done|]. by exists a. Qed.

Lemma yields_new h pixels : Heap.yields (Heap.new pixels) h (Some pixels).
Proof.
  exists (<[fresh (dom h) := pixels]> h). split; [apply insert_fresh_subseteq|].
  eexists. split; [reflexivity|]. rewrite value_owner. apply lookup_insert_eq.
Qed.

Lemma yields_lift_new h (o : option Numpy.ndarray) :
  Heap.yields (Heap.bind (Heap.lift o) Heap.new) h o.
Proof.
  destruct o as [pixels|].
  - destruct (yields_new h pixels) as (h' & Hsub & a & Hrun & Hvalue).
    exists h'. split; [done|]. exists a. by rewrite lift_run.
  - exists h. split; [done|]. by rewrite lift_run.
Qed.

Lemma yields_bind h (m : Heap.M Heap.array) (k : Heap.array -> Heap.M Heap.array)
    (p : option Numpy.ndarray) (q : Numpy.ndarray -> option Numpy.ndarray) :
  Heap.yields m h p ->
  (forall a h' pixels,
     h ⊆ h' -> Heap.value h' a = Some pixels -> Heap.yields (k a) h' (q pixels)) ->
  Heap.yields (Heap.bind m k) h (p ≫= q).
Proof.
  intros (h1 & Hsub1 & Hm) Hk. destruct p as [pixels|]; cbn.
  - destruct Hm as (a & Hrun & Hvalue).
    destruct (Hk a h1 pixels Hsub1 Hvalue) as (h2 & Hsub2 & Hq).
    exists h2. split; [by etrans|].
    unfold Heap.bind. rewrite Hrun. exact Hq.
  - exists h1. split; [done|]. unfold Heap.bind. by rewrite Hm.
Qed.

Lemma yields_zeros_like h a pixels :
  Heap.value h a = Some pixels ->
  Heap.yields (Heap.zeros_like a) h (Some (Numpy.zeros_like pixels)).
Proof.
  intros Hvalue. unfold Heap.zeros_like. unfold Heap.yields.
  rewrite (read_run h a pixels) by done. apply yields_new.
Qed.

Lemma yields_full_like h a pixels v :
  Heap.value h a = Some pixels ->
  Heap.yields (Heap.full_like a v) h (Some (Numpy.full_like pixels v)).
Proof.
  intros Hvalue. unfold Heap.full_like. unfold Heap.yields.
  rewrite (read_run h a pixels) by done. apply yields_new.
Qed.

Lemma yields_GaussianBlur h src pixels ksize sigma :
  Heap.value h src = Some pixels ->
  Heap.yields (Heap.GaussianBlur src ksize sigma) h
         (CV2.GaussianBlur pixels ksize sigma).
Proof.
  intros Hvalue. unfold Heap.GaussianBlur, Heap.yields.
  rewrite (read_run h src pixels) by done. apply yields_lift_new.
Qed.

Lemma yields_resize h src pixels dsize interpolation :
  Heap.value h src = Some pixels ->
  Heap.yields (Heap.resize src dsize interpolation) h
         (CV2.resize pixels dsize interpolation).
Proof.
  intros Hvalue. unfold Heap.resize, Heap.yields.
  rewrite (read_run h src pixels) by done. apply yields_lift_new.
Qed.

Lemma yields_addWeighted h src1 pixels1 alpha src2 pixels2 beta gamma :
  Heap.value h src1 = Some pixels1 -> Heap.value h src2 = Some pixels2 ->
  Heap.yields (Heap.addWeighted src1 alpha src2 beta gamma) h
         (CV2.addWeighted pixels1 alpha pixels2 beta gamma).
Proof.
  intros Hvalue1 Hvalue2. unfold Heap.addWeighted, Heap.yields.
  rewrite (read_run h src1 pixels1) by done.
  rewrite (read_run h src2 pixels2) by done. apply yields_lift_new.
Qed.

Lemma yields_if h (b : bool) (m : Heap.M Heap.array) (p : option Numpy.ndarray)
    a pixels :
  Heap.value h a = Some pixels ->
  (b = true -> Heap.yields m h p) ->
  Heap.yields (if b then m else Heap.ret a) h (if b then p else Some pixels).
Proof. intros Hvalue Hm. destruct b; [by apply Hm | by apply yields_ret]. Qed.

Lemma yields_gaussian h roi pixels opacity :
  Heap.value h roi = Some pixels ->
  Heap.yields (Heap.gaussian roi opacity) h
         (BlurEngineAdvanced.blurred_roi_of GAUSSIAN pixels 0 0 opacity).
Proof.
  intros Hvalue. unfold Heap.gaussian, BlurEngineAdvanced.blurred_roi_of.
  unfold Heap.yields. rewrite lift_run.
  destruct (BlurEngineAdvanced.kernel_size_of opacity) as [kernel_size|];
    [|by exists h].
  cbn [mbind option_bind].
  apply (yields_bind h _ _ _
           (fun blurred_roi =>
              blurred_roi ←
                (if Float64.gtb opacity Lit._0_7
                 then CV2.GaussianBlur blurred_roi (kernel_size, kernel_size) 0
                 else Some blurred_roi);
              if Float64.gtb opacity Lit._0_9
              then CV2.GaussianBlur blurred_roi (kernel_size, kernel_size) 0
              else Some blurred_roi)).
  { by apply yields_GaussianBlur. }
  intros once h1 pixels1 _ Hvalue1.
  apply (yields_bind h1 _ _ _
           (fun blurred_roi =>
              if Float64.gtb opacity Lit._0_9
              then CV2.GaussianBlur blurred_roi (kernel_size, kernel_size) 0
              else Some blurred_roi)).
  { apply yields_if; [done|]. intros _. by apply yields_GaussianBlur. }
  intros twice h2 pixels2 _ Hvalue2.
  apply yields_if; [done|]. intros _. by apply yields_GaussianBlur.
Qed.

Lemma yields_pixelate h roi pixels width height opacity :
  Heap.value h roi = Some pixels ->
  Heap.yields (Heap.pixelate roi width height opacity) h
         (BlurEngineAdvanced.blurred_roi_of PIXELATE pixels width height opacity).
Proof.
  intros Hvalue. unfold Heap.pixelate, BlurEngineAdvanced.blurred_roi_of.
  unfold Heap.yields. rewrite lift_run.
  destruct (BlurEngineAdvanced.pixel_size_of opacity) as [pixel_size|];
    [|by exists h].
  cbn [mbind option_bind].
  apply (yields_bind h _ _ _
           (fun small => CV2.resize small (width, height) CV2.INTER_NEAREST)).
  { by apply yields_resize. }
  intros small h1 pixels1 _ Hvalue1. by apply yields_resize.
Qed.

Lemma agree_except_refl l h : Heap.agree_except l h h.
Proof. by intros l' pixels _ Hl'. Qed.

Lemma agree_except_trans l h1 h2 h3 :
  Heap.agree_except l h1 h2 -> Heap.agree_except l h2 h3 -> Heap.agree_except l h1 h3.
Proof. intros H12 H23 l' pixels Hne Hl'. by apply H23, H12. Qed.

Lemma subseteq_agree_except l h h' : h ⊆ h' -> Heap.agree_except l h h'.
Proof. intros Hsub l' pixels _ Hl'. by eapply lookup_weaken. Qed.

Lemma agree_except_subseteq l h0 h h' :
  h0 !! l = None -> h0 ⊆ h -> Heap.agree_except l h h' -> h0 ⊆ h'.
Proof.
  intros Hnew Hsub Hagree. apply map_subseteq_spec. intros l' pixels Hl'.
  apply Hagree; [congruence | by eapply lookup_weaken].
Qed.

Lemma agree_except_value l h h' a pixels :
  Heap.buffer a <> l -> Heap.agree_except l h h' ->
  Heap.value h a = Some pixels -> Heap.value h' a = Some pixels.
Proof.
  unfold Heap.value. intros Hne Hagree Hvalue.
  destruct (h !! Heap.buffer a) as [contents|] eqn:Hbuffer; [|done].
  by rewrite (Hagree _ _ Hne Hbuffer).
Qed.

(** An assignment to a part of an array that owns its buffer. *)
Lemma setitem_run h l contents src pixels (y0 y1 x0 x1 : Z) :
  h !! l = Some contents -> Heap.value h src = Some pixels ->
  Heap.setitem (Heap.mk_array l []) y0 y1 x0 x1 src h
  = match Numpy.setitem contents y0 y1 x0 x1 pixels with
    | Some contents' => (Some tt, <[l := contents']> h)
    | None => (None, h)
    end.
Proof.
  intros Hl Hvalue. unfold Heap.setitem.
  rewrite (read_run h src pixels) by done.
  cbn [Heap.buffer Heap.slices]. rewrite Hl. reflexivity.
Qed.

Lemma agree_except_insert l h pixels : Heap.agree_except l h (<[l := pixels]> h).
Proof. intros l' pixels' Hne Hl'. by rewrite lookup_insert_ne. Qed.

(** The blending step writes the blend over the rectangle of [result],
    and nothing else; when it raises, [result] is as it was. *)
Lemma blend_into_run h l contents roi roi_pixels blurred_roi blurred_pixels
    (y x height width : Z) opacity :
  h !! l = Some contents ->
  Heap.value h roi = Some roi_pixels ->
  Heap.value h blurred_roi = Some blurred_pixels ->
  exists h',
    Heap.agree_except l h h'
    /\ match blended ← BlurEngineAdvanced.blended_roi_of roi_pixels
                         blurred_pixels opacity;
             Numpy.setitem contents y (y + height) x (x + width) blended with
       | Some contents' =>
           Heap.blend_into (Heap.mk_array l []) y x height width roi
                           blurred_roi opacity h = (Some tt, h')
           /\ h' !! l = Some contents'
       | None =>
           Heap.blend_into (Heap.mk_array l []) y x height width roi
                           blurred_roi opacity h = (None, h')
           /\ h' !! l = Some contents
       end.
Proof.
  intros Hl Hroi Hblurred.
  unfold Heap.blend_into, BlurEngineAdvanced.blended_roi_of.
  destruct (Float64.geb opacity Lit._0_95).
  - cbn [mbind option_bind].
    rewrite (setitem_run h l contents blurred_roi blurred_pixels) by done.
    destruct (Numpy.setitem contents _ _ _ _ blurred_pixels) as [contents'|].
    + eexists. split; [apply agree_except_insert|].
      split; [reflexivity | apply lookup_insert_eq].
    + exists h. split; [apply agree_except_refl|]. done.
  - cbv zeta.
    destruct (yields_addWeighted h roi roi_pixels
                (Float64.sub Lit._1_0
                   (Py.min Lit._1_0 (Float64.mul opacity Lit._1_2)))
                blurred_roi blurred_pixels
                (Py.min Lit._1_0 (Float64.mul opacity Lit._1_2)) 0
                Hroi Hblurred) as (h1 & Hsub & Hblend).
    destruct (CV2.addWeighted roi_pixels _ blurred_pixels _ 0) as [blended|];
      cbn [mbind option_bind].
    + destruct Hblend as (a & Hrun & Hvalue).
      assert (Hwrite :
        Heap.bind
          (Heap.addWeighted roi
             (Float64.sub Lit._1_0
                (Py.min Lit._1_0 (Float64.mul opacity Lit._1_2)))
             blurred_roi (Py.min Lit._1_0 (Float64.mul opacity Lit._1_2)) 0)
          (fun blended =>
             Heap.setitem (Heap.mk_array l []) y (y + height) x (x + width)
                          blended) h
        = match Numpy.setitem contents y (y + height) x (x + width) blended with
          | Some contents' => (Some tt, <[l := contents']> h1)
          | None => (None, h1)
          end).
      { unfold Heap.bind at 1. rewrite Hrun.
        apply setitem_run; [by eapply lookup_weaken | done]. }
      rewrite Hwrite.
      destruct (Numpy.setitem contents _ _ _ _ blended) as [contents'|].
      * eexists. split; [|split; [reflexivity | apply lookup_insert_eq]].
        eapply agree_except_trans;
          [by apply subseteq_agree_except | apply agree_except_insert].
      * exists h1. split; [by apply subseteq_agree_except|].
        split; [reflexivity | by eapply lookup_weaken].
    + exists h1. split; [by apply subseteq_agree_except|].
      unfold Heap.bind at 1. rewrite Hblend.
      split; [reflexivity | by eapply lookup_weaken].
Qed.

End ObjectsFacts.

Section ObjectsOfTheMethods.
Context {cv : CV2.Api}.
Implicit Types (h : gmap positive Numpy.ndarray) (a : Heap.array).

Lemma size_run {A} h a pixels (k : Z -> Heap.M A) :
  Heap.value h a = Some pixels ->
  Heap.bind (Heap.size a) k h = k (Numpy.size pixels) h.
Proof.
  intros Hvalue. unfold Heap.size, Heap.bind, Heap.read, Heap.ret.
  by rewrite Hvalue.
Qed.

Lemma copy_run {A} h a pixels (k : Heap.array -> Heap.M A) :
  Heap.value h a = Some pixels ->
  Heap.bind (Heap.copy a) k h
  = k (Heap.mk_array (fresh (dom h)) []) (<[fresh (dom h) := pixels]> h).
Proof.
  intros Hvalue. unfold Heap.copy, Heap.bind, Heap.read, Heap.new.
  by rewrite Hvalue.
Qed.

Lemma bind_run {A B} h h' (m : Heap.M A) (k : A -> Heap.M B) (r : option A) :
  m h = (r, h') ->
  Heap.bind m k h = match r with Some x => k x h' | None => (None, h') end.
Proof. intros Hrun. unfold Heap.bind. rewrite Hrun. by destruct r. Qed.

(** The body of the engine's [try] on objects does what it does on
    pixels: it returns the array it was given, or a new one that holds
    the result, or raises; and it leaves every buffer that existed as it
    was. *)
Lemma apply_blur_region_try_run h frame region pixels :
  Heap.value h frame = Some pixels ->
  exists r h',
    Heap.apply_blur_region_try frame region h = (r, h')
    /\ h ⊆ h'
    /\ match BlurEngineAdvanced.apply_blur_region_try pixels region with
       | Some ReturnFrame => r = Some frame
       | Some (ReturnResult result) =>
           exists l,
             r = Some (Heap.mk_array l [])
             /\ h !! l = None /\ h' !! l = Some result
       | None => r = None
       end.
Proof.
  intros Hvalue.
  unfold Heap.apply_blur_region_try, BlurEngineAdvanced.apply_blur_region_try.
  rewrite (read_run h frame pixels) by done.
  destruct (clip pixels region) as [[[x y] width] height].
  set (roi := Heap.getitem frame y (y + height) x (x + width)).
  set (roi_pixels := Numpy.getitem pixels y (y + height) x (x + width)).
  assert (Hroi : Heap.value h roi = Some roi_pixels)
    by (unfold roi; by rewrite value_getitem, Hvalue).
  rewrite (size_run h roi roi_pixels) by done.
  destruct (Numpy.size roi_pixels =? 0); [by exists (Some frame), h|].
  rewrite lift_run.
  destruct (opacity_of _) as [opacity|]; [|by exists None, h].
  cbn [mbind option_bind].
  assert (Hblur :
    Heap.yields match region.(BlurRegion.blur_type) with
           | GAUSSIAN => Heap.gaussian roi opacity
           | PIXELATE => Heap.pixelate roi width height opacity
           | BLACK_BOX => Heap.zeros_like roi
           | WHITE_BOX => Heap.full_like roi 255
           end h
           (BlurEngineAdvanced.blurred_roi_of region.(BlurRegion.blur_type)
              roi_pixels width height opacity)).
  { destruct region.(BlurRegion.blur_type).
    - exact (yields_gaussian h roi roi_pixels opacity Hroi).
    - by apply yields_pixelate.
    - by apply yields_zeros_like.
    - by apply yields_full_like. }
  destruct Hblur as (h1 & Hsub1 & Hblur).
  destruct (BlurEngineAdvanced.blurred_roi_of _ _ _ _ _) as [blurred_pixels|];
    cbn [mbind option_bind].
  2: { exists None, h1. by rewrite (bind_run h h1 _ _ None Hblur). }
  destruct Hblur as (blurred_roi & Hrun & Hblurred).
  rewrite (bind_run h h1 _ _ (Some blurred_roi) Hrun).
  rewrite (copy_run h1 frame pixels) by (by eapply value_weaken).
  cbv beta.
  set (l := fresh (dom h1)). set (h2 := <[l := pixels]> h1).
  assert (Hsub2 : h1 ⊆ h2) by apply insert_fresh_subseteq.
  assert (Hnew : h !! l = None)
    by (eapply lookup_weaken_None; [apply fresh_is_new | done]).
  destruct (blend_into_run h2 l pixels roi roi_pixels blurred_roi
              blurred_pixels y x height width opacity)
    as (h3 & Hagree & Hblend).
  { apply lookup_insert_eq. }
  { eapply value_weaken; [exact Hroi | by etrans]. }
  { by eapply value_weaken. }
  assert (Hsub3 : h ⊆ h3)
    by (eapply (agree_except_subseteq l h h2 h3); [done | by etrans | done]).
  destruct (BlurEngineAdvanced.blended_roi_of roi_pixels blurred_pixels opacity)
    as [blended|]; cbn [mbind option_bind] in *.
  - destruct (Numpy.setitem pixels _ _ _ _ blended) as [result|];
      cbn [mbind option_bind]; destruct Hblend as [Hblend Hresult].
    + exists (Some (Heap.mk_array l [])), h3.
      rewrite (bind_run h2 h3 _ _ (Some tt) Hblend).
      split; [reflexivity|]. split; [done|]. by exists l.
    + exists None, h3. by rewrite (bind_run h2 h3 _ _ None Hblend).
  - destruct Hblend as [Hblend _]. exists None, h3.
    by rewrite (bind_run h2 h3 _ _ None Hblend).
Qed.

(** One turn of the loop of the preview on objects. *)
Lemma apply_rect_run h frame l frame_number rect frame_pixels current :
  Heap.value h frame = Some frame_pixels ->
  h !! l = Some current ->
  exists r h',
    Heap.apply_rect frame (Heap.mk_array l []) frame_number rect h = (r, h')
    /\ Heap.agree_except l h h'
    /\ match AdvancedBlurUI.apply_rect frame_pixels frame_number current rect with
       | Some current' => r = Some tt /\ h' !! l = Some current'
       | None => r = None /\ h' !! l = Some current
       end.
Proof.
  intros Hvalue Hl.
  unfold Heap.apply_rect, AdvancedBlurUI.apply_rect.
  destruct (AdvancedBlurUI.in_range rect frame_number);
    [|exists (Some tt), h; split; [done|]; split;
        [apply agree_except_refl | done]].
  rewrite (read_run h frame frame_pixels) by done.
  destruct (AdvancedBlurUI.clip_rect frame_pixels rect) as [[[x y] w] height].
  set (roi := Heap.getitem (Heap.mk_array l []) y (y + height) x (x + w)).
  set (roi_pixels := Numpy.getitem current y (y + height) x (x + w)).
  assert (Hroi : Heap.value h roi = Some roi_pixels)
    by (unfold roi; by rewrite value_getitem, value_owner, Hl).
  rewrite (size_run h roi roi_pixels) by done.
  destruct (Numpy.size roi_pixels >? 0);
    [|exists (Some tt), h; split; [done|]; split;
        [apply agree_except_refl | done]].
  rewrite lift_run.
  destruct (opacity_of _) as [opacity|];
    [|exists None, h; split; [done|]; split;
        [apply agree_except_refl | done]].
  cbn [mbind option_bind].
  set (blur_type := rect.(AdvancedBlurUI.Rect.blur_type)).
  assert (Hblur :
    Heap.yields (if String.eqb blur_type "gaussian" then Heap.gaussian roi opacity
            else if String.eqb blur_type "pixelate"
                 then Heap.pixelate roi w height opacity
            else if String.eqb blur_type "black_box" then Heap.zeros_like roi
            else if String.eqb blur_type "white_box"
                 then Heap.full_like roi 255
            else Heap.ret roi) h
           (AdvancedBlurUI.blurred_roi_of blur_type roi_pixels w height
                                          opacity)).
  { unfold AdvancedBlurUI.blurred_roi_of.
    destruct (String.eqb blur_type "gaussian");
      [exact (yields_gaussian h roi roi_pixels opacity Hroi)|].
    destruct (String.eqb blur_type "pixelate");
      [exact (yields_pixelate h roi roi_pixels w height opacity Hroi)|].
    destruct (String.eqb blur_type "black_box"); [by apply yields_zeros_like|].
    destruct (String.eqb blur_type "white_box"); [by apply yields_full_like|].
    by apply yields_ret. }
  destruct Hblur as (h1 & Hsub1 & Hblur).
  destruct (AdvancedBlurUI.blurred_roi_of _ _ _ _ _) as [blurred_pixels|];
    cbn [mbind option_bind].
  2: { exists None, h1. rewrite (bind_run h h1 _ _ None Hblur).
       split; [done|]. split; [by apply subseteq_agree_except|].
       split; [reflexivity | by eapply lookup_weaken]. }
  destruct Hblur as (blurred_roi & Hrun & Hblurred).
  rewrite (bind_run h h1 _ _ (Some blurred_roi) Hrun).
  destruct (blend_into_run h1 l current roi roi_pixels blurred_roi
              blurred_pixels y x height w opacity)
    as (h2 & Hagree & Hblend).
  { by eapply lookup_weaken. }
  { by eapply value_weaken. }
  { done. }
  assert (Hagree' : Heap.agree_except l h h2)
    by (eapply agree_except_trans; [by apply subseteq_agree_except | done]).
  destruct (blended ← BlurEngineAdvanced.blended_roi_of roi_pixels
                        blurred_pixels opacity;
            Numpy.setitem current y (y + height) x (x + w) blended)
    as [current'|]; destruct Hblend as [Hblend Hl2].
  - by exists (Some tt), h2.
  - by exists None, h2.
Qed.

Lemma for_each_run h frame l frame_number rects frame_pixels current :
  Heap.value h frame = Some frame_pixels ->
  Heap.buffer frame <> l ->
  h !! l = Some current ->
  exists r h',
    Heap.for_each rects
      (Heap.apply_rect frame (Heap.mk_array l []) frame_number) h = (r, h')
    /\ Heap.agree_except l h h'
    /\ match fold_left
               (fun result_frame rect =>
                  result_frame ← result_frame;
                  AdvancedBlurUI.apply_rect frame_pixels frame_number
                                            result_frame rect)
               rects (Some current) with
       | Some out => r = Some tt /\ h' !! l = Some out
       | None => r = None
       end.
Proof.
  intros Hvalue Hne. revert h current Hvalue.
  induction rects as [|rect rects IH]; intros h current Hvalue Hl.
  - exists (Some tt), h. split; [done|]. split; [apply agree_except_refl | done].
  - cbn [fold_left Heap.for_each mbind option_bind].
    destruct (apply_rect_run h frame l frame_number rect frame_pixels current
                Hvalue Hl) as (r1 & h1 & Hstep & Hagree1 & Hmatch).
    rewrite (bind_run h h1 _ _ r1 Hstep).
    destruct (AdvancedBlurUI.apply_rect frame_pixels frame_number current rect)
      as [current'|]; destruct Hmatch as [-> Hl1].
    + destruct (IH h1 current') as (r2 & h2 & Hrest & Hagree2 & Hmatch);
        [by eapply agree_except_value | done |].
      exists r2, h2. split; [done|]. split; [by eapply agree_except_trans|].
      done.
    + exists None, h1. split; [done|]. split; [done|].
      by rewrite preview_fold_None.
Qed.

Lemma apply_blur_effects_for_frame_run h self frame frame_number pixels :
  Heap.value h frame = Some pixels ->
  exists r h',
    Heap.apply_blur_effects_for_frame self frame frame_number h = (r, h')
    /\ h ⊆ h'
    /\ match AdvancedBlurUI.apply_blur_effects_for_frame self pixels
               frame_number with
       | Some out =>
           exists l,
             r = Some (Heap.mk_array l [])
             /\ h !! l = None /\ h' !! l = Some out
       | None => r = None
       end.
Proof.
  intros Hvalue.
  unfold Heap.apply_blur_effects_for_frame,
    AdvancedBlurUI.apply_blur_effects_for_frame.
  rewrite (copy_run h frame pixels) by done. cbv beta.
  set (l := fresh (dom h)). set (h1 := <[l := pixels]> h).
  assert (Hnew : h !! l = None) by apply fresh_is_new.
  assert (Hsub1 : h ⊆ h1) by apply insert_fresh_subseteq.
  assert (Hne : Heap.buffer frame <> l).
  { intros Heq. unfold Heap.value in Hvalue. rewrite Heq, Hnew in Hvalue.
    discriminate. }
  destruct (for_each_run h1 frame l frame_number
              (AdvancedBlurUI.regions_to_apply self) pixels pixels)
    as (r & h2 & Hloop & Hagree & Hmatch);
    [by eapply value_weaken | done | apply lookup_insert_eq |].
  rewrite (bind_run h1 h2 _ _ r Hloop).
  assert (Hsub2 : h ⊆ h2) by (by eapply (agree_except_subseteq l h h1 h2)).
  destruct (fold_left _ _ _) as [out|].
  - destruct Hmatch as [-> Hout].
    exists (Some (Heap.mk_array l [])), h2. split; [done|]. split; [done|].
    by exists l.
  - subst r. by exists None, h2.
Qed.

End ObjectsOfTheMethods.

(** ** Clipping *)







(** ** Identity of the returned array *)

(** C7, counterexample: for a region clipped to an empty ROI, and for a
    region whose processing fails, the engine executes [return frame]:
    the array it returns is the one it was given. *)
Lemma C7_counterexample :
  (Heap.apply_blur_region (cv := RefCV.api) Examples.decoded_frame
     Examples.off_frame Examples.decoded).1
  = Some Examples.decoded_frame
  /\ (Heap.apply_blur_region (cv := RefCV.api) Examples.decoded_frame
        Examples.too_intense Examples.decoded).1
     = Some Examples.decoded_frame.
Proof.
  assert (Hvalue : Heap.value Examples.decoded Examples.decoded_frame
                   = Some Examples.frame2x2)
    by (unfold Heap.value; cbn; unfold Examples.decoded;
        by rewrite lookup_singleton_eq).
  split.
  - destruct (apply_blur_region_try_run (cv := RefCV.api) Examples.decoded
                Examples.decoded_frame Examples.off_frame Examples.frame2x2
                Hvalue) as (r & h' & Hrun & _ & Hmatch).
    unfold Heap.apply_blur_region, Heap.try_except. rewrite Hrun.
    change (BlurEngineAdvanced.apply_blur_region_try (cv := RefCV.api)
              Examples.frame2x2 Examples.off_frame)
      with (Some ReturnFrame) in Hmatch.
    by rewrite Hmatch.
  - destruct (apply_blur_region_try_run (cv := RefCV.api) Examples.decoded
                Examples.decoded_frame Examples.too_intense Examples.frame2x2
                Hvalue) as (r & h' & Hrun & _ & Hmatch).
    unfold Heap.apply_blur_region, Heap.try_except. rewrite Hrun.
    assert (Htry : BlurEngineAdvanced.apply_blur_region_try (cv := RefCV.api)
                     Examples.frame2x2 Examples.too_intense = None)
      by (vm_compute; reflexivity).
    rewrite Htry in Hmatch. by rewrite Hmatch.
Qed.

(** C7, amended: no call writes into the buffer of the input array, nor
    into any buffer that existed before the call.  The engine returns the
    input array itself when the ROI is empty or the processing fails, and
    otherwise a new array, with a buffer of its own, that holds the
    result; the preview path returns a new array whenever it returns.
    The pixels of the returned array are those that the methods compute
    on pixels. *)
Theorem C7_input_buffer {cv : CV2.Api} (h : gmap positive Numpy.ndarray)
    (frame : Heap.array) (pixels : Numpy.ndarray) :
  Heap.value h frame = Some pixels ->
  (forall region,
     exists returned h',
       Heap.apply_blur_region frame region h = (Some returned, h')
       /\ h ⊆ h'
       /\ Heap.value h' frame = Some pixels
       /\ Heap.value h' returned
          = Some (BlurEngineAdvanced.apply_blur_region pixels region)
       /\ match BlurEngineAdvanced.apply_blur_region_returned pixels region with
          | ReturnFrame => returned = frame
          | ReturnResult _ =>
              h !! returned.(Heap.buffer) = None
              /\ returned.(Heap.slices) = []
              /\ returned.(Heap.buffer) <> frame.(Heap.buffer)
          end)
  /\ (forall self frame_number,
        exists r h',
          Heap.apply_blur_effects_for_frame self frame frame_number h = (r, h')
          /\ h ⊆ h'
          /\ Heap.value h' frame = Some pixels
          /\ match r with
             | Some returned =>
                 h !! returned.(Heap.buffer) = None
                 /\ returned.(Heap.slices) = []
                 /\ returned.(Heap.buffer) <> frame.(Heap.buffer)
                 /\ Heap.value h' returned
                    = AdvancedBlurUI.apply_blur_effects_for_frame self pixels
                        frame_number
             | None =>
                 AdvancedBlurUI.apply_blur_effects_for_frame self pixels
                   frame_number = None
             end).
Proof.
  intros Hvalue.
  assert (Hother : forall l, h !! l = None -> l <> frame.(Heap.buffer)).
  { intros l Hl Heq. unfold Heap.value in Hvalue.
    rewrite <- Heq, Hl in Hvalue. discriminate. }
  split.
  - intros region.
    destruct (apply_blur_region_try_run h frame region pixels Hvalue)
      as (r & h' & Hrun & Hsub & Hmatch).
    unfold Heap.apply_blur_region, Heap.try_except. rewrite Hrun.
    unfold BlurEngineAdvanced.apply_blur_region,
      BlurEngineAdvanced.apply_blur_region_returned.
    pose proof (value_weaken h h' frame pixels Hvalue Hsub) as Hvalue'.
    destruct (BlurEngineAdvanced.apply_blur_region_try pixels region)
      as [[|result]|]; cbn [default returned_array].
    + subst r. by exists frame, h'.
    + destruct Hmatch as (l & -> & Hnew & Hl).
      exists (Heap.mk_array l []), h'. rewrite value_owner.
      cbn [Heap.buffer Heap.slices]. repeat split; try done. by apply Hother.
    + subst r. by exists frame, h'.
  - intros self frame_number.
    destruct (apply_blur_effects_for_frame_run h self frame frame_number
                pixels Hvalue) as (r & h' & Hrun & Hsub & Hmatch).
    exists r, h'. split; [exact Hrun|]. split; [exact Hsub|].
    split; [by eapply value_weaken|].
    destruct (AdvancedBlurUI.apply_blur_effects_for_frame self pixels
                frame_number) as [out|].
    + destruct Hmatch as (l & -> & Hnew & Hl). rewrite value_owner.
      cbn [Heap.buffer Heap.slices]. repeat split; try done. by apply Hother.
    + by subst r.
Qed.

Lemma C7_witness :
  Heap.value Examples.decoded Examples.decoded_frame = Some Examples.frame2x2
  /\ exists returned h',
      Heap.apply_blur_region (cv := RefCV.api) Examples.decoded_frame
        (Examples.top_left BLACK_BOX 100 0 (-1)) Examples.decoded
      = (Some returned, h')
      /\ Heap.value h' Examples.decoded_frame = Some Examples.frame2x2
      /\ Heap.value h' returned
         = Some [[(0, 0, 0); (10, 20, 30)]; [(1, 2, 3); (250, 250, 250)]]
      /\ returned.(Heap.buffer) <> Examples.decoded_frame.(Heap.buffer).
Proof.
  assert (Hvalue : Heap.value Examples.decoded Examples.decoded_frame
                   = Some Examples.frame2x2)
    by (unfold Heap.value; cbn; unfold Examples.decoded;
        by rewrite lookup_singleton_eq).
  split; [exact Hvalue|].
  destruct (C7_input_buffer (cv := RefCV.api) _ _ _ Hvalue) as [Hengine _].
  destruct (Hengine (Examples.top_left BLACK_BOX 100 0 (-1)))
    as (returned & h' & Hcall & _ & Hkept & Hresult & Hcase).
  exists returned, h'. split; [exact Hcall|]. split; [exact Hkept|].
  change (BlurEngineAdvanced.apply_blur_region_returned (cv := RefCV.api)
            Examples.frame2x2 (Examples.top_left BLACK_BOX 100 0 (-1)))
    with (ReturnResult [[(0, 0, 0); (10, 20, 30)]; [(1, 2, 3); (250, 250, 250)]])
    in Hcase.
  split; [exact Hresult | exact (proj2 (proj2 Hcase))].
Defined.
